(** * Network switching and bridge-contract invocation of chatbot.py

    A shallow embedding of the chain registry, the session globals, the
    provider cache, the network switch and the contract invocation layer of
    [chatbot.py], followed by the properties stated about them.

    Conventions of the embedding.
    - The module globals [wallet_provider], [current_chain_id],
      [wallet_providers_cache] and [agentkit] are the fields of [State].
    - Everything outside the module (the CDP wallet provider, the chains it
      talks to, the wallet snapshot file, AgentKit, the LLM stack) is a
      [Backend]: an arbitrary, possibly stateful world whose calls either
      return or raise.  Each call the code makes is appended to the [trace]
      of the state, in program order.
    - A raised exception is an instance of Python's [Exception], the class
      the handlers of the module catch ([except Exception as e]); process
      signals such as KeyboardInterrupt are outside the model.
    - Output written with [print] is not modelled.  What the two DEBUG
      prints inside the [try] blocks of the invocation layer format is: the
      [repr] of the argument list can raise, and the handler catches it. *)

From Stdlib Require Import ZArith Lia Ascii.
From stdpp Require Import base option list gmap strings pretty.

Local Open Scope string_scope.
Local Open Scope list_scope.
Local Open Scope Z_scope.

(** ** Chain registry *)

Record ChainInfo := mkChain {
  name : string;
  contract_address : string;
  explorer_url : string
}.

(** [SUPPORTED_CHAINS]: a dict literal; its insertion order is the order of
    [SUPPORTED_CHAINS.keys()], so it is kept as an association list. *)
Definition SUPPORTED_CHAINS : list (string * ChainInfo) :=
  [ ("84532",    mkChain "Base Sepolia"
                   "0xEBE8Ca83dfFeaa2288a70B4f1e29EcD089d325E2" "https://sepolia.basescan.org");
    ("11155111", mkChain "Ethereum Sepolia"
                   "0xEBE8Ca83dfFeaa2288a70B4f1e29EcD089d325E2" "https://sepolia.etherscan.io");
    ("421614",   mkChain "Arbitrum Sepolia"
                   "0xEBE8Ca83dfFeaa2288a70B4f1e29EcD089d325E2" "https://sepolia.arbiscan.io");
    ("11155420", mkChain "Optimism Sepolia"
                   "0xEBE8Ca83dfFeaa2288a70B4f1e29EcD089d325E2" "https://sepolia-optimism.etherscan.io");
    ("8453",     mkChain "Base Mainnet"
                   "0xEBE8Ca83dfFeaa2288a70B4f1e29EcD089d325E2" "https://basescan.org");
    ("1",        mkChain "Ethereum Mainnet"
                   "0xEBE8Ca83dfFeaa2288a70B4f1e29EcD089d325E2" "https://etherscan.io");
    ("42161",    mkChain "Arbitrum One"
                   "0xEBE8Ca83dfFeaa2288a70B4f1e29EcD089d325E2" "https://arbiscan.io");
    ("10",       mkChain "Optimism"
                   "0xEBE8Ca83dfFeaa2288a70B4f1e29EcD089d325E2" "https://optimistic.etherscan.io");
    ("80001",    mkChain "Polygon Mumbai"
                   "0xEBE8Ca83dfFeaa2288a70B4f1e29EcD089d325E2" "https://mumbai.polygonscan.com");
    ("137",      mkChain "Polygon"
                   "0xEBE8Ca83dfFeaa2288a70B4f1e29EcD089d325E2" "https://polygonscan.com") ].

Definition DEFAULT_CHAIN_ID : string := "84532".

(** [d[k]] on a dict literal: the entry of the key, if any. *)
Fixpoint dict_get {A} (k : string) (d : list (string * A)) : option A :=
  match d with
  | [] => None
  | (k', v) :: d' => if String.eqb k k' then Some v else dict_get k d'
  end.

(** [k in SUPPORTED_CHAINS] *)
Definition supported (k : string) : bool :=
  match dict_get k SUPPORTED_CHAINS with Some _ => true | None => false end.

(** [SUPPORTED_CHAINS.keys()] *)
Definition chain_keys : list string := map fst SUPPORTED_CHAINS.

(** [needle in hay] on strings *)
Fixpoint contains (needle hay : string) : bool :=
  String.prefix needle hay ||
  match hay with
  | EmptyString => false
  | String _ hay' => contains needle hay'
  end.

(** ** Exceptions and outcomes of calls *)

Record PyExc := mkExc {
  exc_class : string;   (* the class of the exception *)
  exc_str : string      (* str(e) *)
}.

Inductive outcome (A : Type) : Type :=
| Raised (e : PyExc)
| Returned (a : A).
Arguments Raised {A} e.
Arguments Returned {A} a.

(** ** Values passed to the collaborators *)

(** [provider.get_network()]: only [chain_id] and [network_id] are read. *)
Record Network := mkNetwork {
  net_chain_id : string;
  net_network_id : option string
}.

(** Positional contract arguments: addresses and integers. *)
Inductive Arg :=
| AStr (s : string)
| AInt (n : Z).

(** ** Decimal amounts

    [decimal.Decimal] under the default context: precision 28, rounding
    ROUND_HALF_EVEN, Emin = -999999, Emax = 999999, the Overflow and
    InvalidOperation signals trapped (raised), no clamping. *)

Inductive Decimal :=
| DFin (neg : bool) (coeff : N) (exp : Z)   (* (-1)^neg * coeff * 10^exp *)
| DInf (neg : bool)
| DNaN (signalling : bool).

Definition prec : Z := 28.
Definition Emax : Z := 999999.
Definition Emin : Z := -999999.
Definition Etiny : Z := Emin - prec + 1.
Definition Etop : Z := Emax - prec + 1.

Definition InvalidOperation : PyExc :=
  mkExc "InvalidOperation" "[<class 'decimal.InvalidOperation'>]".
Definition Overflow : PyExc :=
  mkExc "Overflow" "[<class 'decimal.Overflow'>]".

Fixpoint ndigits_fuel (fuel : nat) (c : N) : Z :=
  match fuel with
  | O => 0
  | S fuel' => if (c =? 0)%N then 0 else 1 + ndigits_fuel fuel' (c / 10)%N
  end.

(** [len(str(c))] for a coefficient [c > 0]; the digit count is at most
    the bit count, which serves as fuel. *)
Definition ndigits (c : N) : Z := ndigits_fuel (S (N.to_nat (N.log2 c))) c.

(** Rounding of a finite result to the context ([Decimal._fix]). *)
Definition dec_fix (neg : bool) (c : N) (e : Z) : outcome Decimal :=
  if (c =? 0)%N then Returned (DFin neg 0 (Z.min (Z.max e Etiny) Emax))
  else
    let exp_min0 := ndigits c + e - prec in
    if Etop <? exp_min0 then Raised Overflow
    else
      let exp_min := Z.max exp_min0 Etiny in
      if e <? exp_min then
        let k := Z.to_N (exp_min - e) in
        let q := (c / 10 ^ k)%N in
        let r := (c mod 10 ^ k)%N in
        (* ROUND_HALF_EVEN *)
        let up := ((10 ^ k <? 2 * r) || ((10 ^ k =? 2 * r) && N.odd q))%N in
        let q' := if up then (q + 1)%N else q in
        if up && (prec <? ndigits q') then
          (* the carry made the coefficient one digit too long *)
          if Etop <? exp_min + 1 then Raised Overflow
          else Returned (DFin neg (q' / 10)%N (exp_min + 1))
        else Returned (DFin neg q' exp_min)
      else Returned (DFin neg c e).

(** [a * b] *)
Definition dec_mul (a b : Decimal) : outcome Decimal :=
  match a, b with
  | DNaN true, _ | _, DNaN true => Raised InvalidOperation
  | DNaN false, _ | _, DNaN false => Returned (DNaN false)
  | DInf n1, DInf n2 => Returned (DInf (xorb n1 n2))
  | DInf n1, DFin n2 c _ | DFin n2 c _, DInf n1 =>
      if (c =? 0)%N then Raised InvalidOperation else Returned (DInf (xorb n1 n2))
  | DFin n1 c1 e1, DFin n2 c2 e2 => dec_fix (xorb n1 n2) (c1 * c2)%N (e1 + e2)
  end.

(** [a > 0] *)
Definition dec_gt_zero (a : Decimal) : outcome bool :=
  match a with
  | DNaN _ => Raised InvalidOperation
  | DInf neg => Returned (negb neg)
  | DFin neg c _ => Returned (negb neg && (0 <? c)%N)
  end.

(** [int(a)]: truncation towards zero. *)
Definition dec_int (a : Decimal) : outcome Z :=
  match a with
  | DNaN _ => Raised (mkExc "ValueError" "cannot convert NaN to integer")
  | DInf _ => Raised (mkExc "OverflowError" "cannot convert Infinity to integer")
  | DFin neg c e =>
      let m := if 0 <=? e then Z.of_N c * 10 ^ e
               else Z.of_N (c / 10 ^ Z.to_N (- e))%N in
      Returned (if neg then - m else m)
  end.

(** [Decimal(n)] for a Python int [n] *)
Definition dec_of_int (n : Z) : Decimal := DFin (n <? 0) (Z.abs_N n) 0.

(** [int(value * Decimal(10**18)) if value > 0 else 0] *)
Definition to_base_units (value : Decimal) : outcome Z :=
  match dec_gt_zero value with
  | Raised e => Raised e
  | Returned true =>
      match dec_mul value (dec_of_int (10 ^ 18)) with
      | Raised e => Raised e
      | Returned d => dec_int d
      end
  | Returned false => Returned 0
  end.

(** The integer part of [c * 10^x]. *)
Definition floor_scaled (c : N) (x : Z) : Z :=
  if 0 <=? x then Z.of_N c * 10 ^ x else Z.of_N c / 10 ^ (- x).

(** ** The world outside the module *)

Class Backend := {
  World : Type;
  Provider : Type;      (* CdpWalletProvider objects, by reference *)
  Kit : Type;           (* AgentKit objects, by reference *)
  Receipt : Type;
  Value : Type;         (* decoded results of read-only contract calls *)
  Balance : Type;       (* native balances *)
  WalletData : Type;    (* provider.export_wallet().to_dict() *)
  (* os.path.exists(wallet_data_file) *)
  path_exists : World -> bool * World;
  (* open(wallet_data_file, "r") and f.read() *)
  file_read : World -> outcome string * World;
  (* open(wallet_data_file, "w") *)
  file_open_w : World -> outcome unit * World;
  (* f.write(json.dumps(data)) on the file opened for writing, and its close *)
  file_write : WalletData -> World -> outcome unit * World;
  (* CdpWalletProvider(cdp_config), cdp_config holding the wallet data and
     default_chain_id *)
  new_provider : option string -> option string -> World -> outcome Provider * World;
  (* bool(provider) *)
  provider_truthy : Provider -> bool;
  prov_get_network : Provider -> World -> outcome Network * World;
  prov_get_balance : Provider -> World -> outcome Balance * World;
  (* provider.export_wallet().to_dict() *)
  prov_export_wallet : Provider -> World -> outcome WalletData * World;
  (* provider.transact_contract(contract_address, abi, function_name, args,
     value).tx_hash; the abi is always CROSSCHAIN_CONTRACT_ABI *)
  prov_transact_contract :
    Provider -> string -> string -> list Arg -> Z -> World -> outcome string * World;
  prov_wait_for_transaction_receipt :
    Provider -> string -> World -> outcome Receipt * World;
  (* provider.read_contract(contract_address, abi, function_name, args) *)
  prov_read_contract :
    Provider -> string -> string -> list Arg -> World -> outcome Value * World;
  (* AgentKit(AgentKitConfig(wallet_provider, action_providers=[...])) *)
  new_agentkit : Provider -> World -> outcome Kit * World;
  get_langchain_tools : Kit -> World -> outcome unit * World;
  (* ChatOpenAI(model="gpt-4o") *)
  new_llm : World -> outcome unit * World;
  (* create_react_agent(llm, tools, state_modifier, checkpointer) *)
  create_react_agent : World -> outcome unit * World;
  (* str(v), as formatted into messages *)
  value_str : Value -> string;
  balance_str : Balance -> string
}.

Section Chatbot.
Context {B : Backend}.

(** The calls the module makes to the world, as they are logged. *)
Inductive Event :=
| EvPathExists
| EvFileRead
| EvFileOpenW
| EvFileWrite (data : WalletData)
| EvNewProvider (wallet_data : option string) (default_chain_id : option string)
| EvGetNetwork (p : Provider)
| EvGetBalance (p : Provider)
| EvExportWallet (p : Provider)
| EvTransact (p : Provider) (address function_name : string) (args : list Arg) (value : Z)
| EvWaitReceipt (p : Provider) (tx_hash : string)
| EvReadContract (p : Provider) (address function_name : string) (args : list Arg)
| EvNewAgentKit (p : Provider)
| EvLangchainTools (k : Kit)
| EvNewLLM
| EvCreateReactAgent.

(** ** Globals *)

Record State := mkState {
  wallet_provider : option Provider;
  current_chain_id : string;
  wallet_providers_cache : gmap string Provider;
  agentkit : option Kit;
  world : World;
  trace : list Event
}.

(** The globals as the module body leaves them at import. *)
Definition initial_state (w : World) : State :=
  mkState None DEFAULT_CHAIN_ID ∅ None w [].

Definition set_wallet_provider (p : option Provider) (s : State) : State :=
  mkState p (current_chain_id s) (wallet_providers_cache s) (agentkit s) (world s) (trace s).
Definition set_current_chain_id (c : string) (s : State) : State :=
  mkState (wallet_provider s) c (wallet_providers_cache s) (agentkit s) (world s) (trace s).
Definition set_cache (m : gmap string Provider) (s : State) : State :=
  mkState (wallet_provider s) (current_chain_id s) m (agentkit s) (world s) (trace s).
Definition set_agentkit (k : option Kit) (s : State) : State :=
  mkState (wallet_provider s) (current_chain_id s) (wallet_providers_cache s) k (world s) (trace s).

(** ** Computations: state passing with exceptions

    A raised exception keeps the state reached so far, as in Python. *)

Definition M (A : Type) : Type := State -> outcome A * State.

Definition ret {A} (a : A) : M A := fun s => (Returned a, s).
Definition raise {A} (e : PyExc) : M A := fun s => (Raised e, s).
Definition bind {A C} (m : M A) (f : A -> M C) : M C :=
  fun s => match m s with
           | (Returned a, s') => f a s'
           | (Raised e, s') => (Raised e, s')
           end.
(** [try: m  except Exception as e: h e] *)
Definition try_except {A} (m : M A) (h : PyExc -> M A) : M A :=
  fun s => match m s with
           | (Returned a, s') => (Returned a, s')
           | (Raised e, s') => h e s'
           end.

(** [try: r = m  except Exception as e: ...], the handler chosen by the
    caller on the outcome. *)
Definition attempt {A} (m : M A) : M (outcome A) :=
  fun s => let (r, s') := m s in (Returned r, s').

Definition gets {A} (f : State -> A) : M A := fun s => (Returned (f s), s).
Definition modify (f : State -> State) : M unit := fun s => (Returned tt, f s).

(** A call to the world: logged, then answered by the backend. *)
Definition call {A} (ev : Event) (op : World -> outcome A * World) : M A :=
  fun s => let (r, w') := op (world s) in
           (r, mkState (wallet_provider s) (current_chain_id s)
                       (wallet_providers_cache s) (agentkit s) w' (trace s ++ [ev])).

Definition never_raises {A} (op : World -> A * World) : World -> outcome A * World :=
  fun w => let (a, w') := op w in (Returned a, w').

End Chatbot.

Notation "x <- m ;; k" := (bind m (fun x => k))
  (at level 100, m at next level, right associativity).
Notation "m ;;; k" := (bind m (fun _ => k))
  (at level 100, right associativity).

Section Program.
Context {B : Backend}.

(** ** Helper functions: chain utils *)

Definition unsupported_error (c : string) : PyExc :=
  mkExc "ValueError" ("Chain ID " +:+ c +:+ " not supported").

Definition get_contract_address : M string :=
  c <- gets current_chain_id;;
  match dict_get c SUPPORTED_CHAINS with
  | Some info => ret (contract_address info)
  | None => raise (unsupported_error c)
  end.

Definition get_chain_name : M string :=
  c <- gets current_chain_id;;
  match dict_get c SUPPORTED_CHAINS with
  | Some info => ret (name info)
  | None => raise (unsupported_error c)
  end.

Definition get_explorer_url : M string :=
  c <- gets current_chain_id;;
  match dict_get c SUPPORTED_CHAINS with
  | Some info => ret (explorer_url info)
  | None => raise (unsupported_error c)
  end.

(** [SUPPORTED_CHAINS[k]], a KeyError when the key is absent. *)
Definition chains_item (k : string) : M ChainInfo :=
  match dict_get k SUPPORTED_CHAINS with
  | Some info => ret info
  | None => raise (mkExc "KeyError" ("'" +:+ k +:+ "'"))
  end.

(** ** Provider cache *)

Definition get_cdp_wallet_provider_for_chain (chain_id : string) : M Provider :=
  cache <- gets wallet_providers_cache;;
  match cache !! chain_id with
  | Some p => ret p
  | None =>
      (* Otherwise, load from wallet_data.txt *)
      ex <- call EvPathExists (never_raises path_exists);;
      wallet_data <- (if ex : bool
                      then d <- call EvFileRead file_read;; ret (Some d)
                      else ret None);;
      (* cdp_config.default_chain_id = chain_id *)
      provider <- call (EvNewProvider wallet_data (Some chain_id))
                       (new_provider wallet_data (Some chain_id));;
      (* network detection; a mismatch is only printed *)
      net <- call (EvGetNetwork provider) (prov_get_network provider);;
      (* Store to cache *)
      modify (fun s => set_cache (<[chain_id := provider]> (wallet_providers_cache s)) s);;;
      (* Also persist any updated wallet data *)
      updated_data <- call (EvExportWallet provider) (prov_export_wallet provider);;
      call EvFileOpenW file_open_w;;;
      call (EvFileWrite updated_data) (file_write updated_data);;;
      ret provider
  end.

(** ** Network switching *)

Definition switch_network (new_chain_id : string) : M string :=
  if negb (supported new_chain_id) then
    ret ("Error: Chain ID " +:+ new_chain_id +:+ " not supported. Must be one of: "
         +:+ String.concat ", " chain_keys)
  else
    cur <- gets current_chain_id;;
    if String.eqb new_chain_id cur then
      n <- get_chain_name;;
      ret ("Already on " +:+ n +:+ " (Chain ID: " +:+ cur +:+ ")")
    else
      try_except
        ((* Clear cached provider if we had one *)
         modify (fun s => set_cache (delete new_chain_id (wallet_providers_cache s)) s);;;
         new_prov <- get_cdp_wallet_provider_for_chain new_chain_id;;
         if negb (provider_truthy new_prov) then
           ret ("Error: Could not create a wallet provider for chain " +:+ new_chain_id)
         else
           net <- call (EvGetNetwork new_prov) (prov_get_network new_prov);;
           if negb (String.eqb (net_chain_id net) new_chain_id) then
             ret ("Error: Provider chain mismatch. Expected " +:+ new_chain_id
                  +:+ ", got " +:+ net_chain_id net)
           else
             (* Check if we can do a get_balance() *)
             probe <- attempt (call (EvGetBalance new_prov) (prov_get_balance new_prov));;
             match probe with
             | Raised e =>
                 info <- chains_item new_chain_id;;
                 ret ("Error connecting to " +:+ name info +:+ ": " +:+ exc_str e)
             | Returned native_balance =>
                 (* Switch globally *)
                 modify (set_current_chain_id new_chain_id);;;
                 modify (set_wallet_provider (Some new_prov));;;
                 (* Recreate agentkit with new provider *)
                 k <- call (EvNewAgentKit new_prov) (new_agentkit new_prov);;
                 modify (set_agentkit (Some k));;;
                 (* final check *)
                 call (EvGetNetwork new_prov) (prov_get_network new_prov);;;
                 n <- get_chain_name;;
                 c <- gets current_chain_id;;
                 ret ("Switched to " +:+ n +:+ " (Chain ID: " +:+ c +:+ ")")
             end)
        (fun e => ret ("Error switching to chain " +:+ new_chain_id +:+ ": " +:+ exc_str e)).

(** ** Contract invocation *)

(** The dict returned by [invoke_contract_function]: either
    [{"error": msg}] or the five keys of a confirmed transaction. *)
Inductive InvokeResult :=
| IError (error : string)
| ITx (tx_hash : string) (receipt : Receipt)
      (chain_id chain_name explorer_url : string).

(** The dict returned by [read_contract]. *)
Inductive ReadResult :=
| RError (error : string)
| RValue (result : Value) (chain_id chain_name : string).

(** A method call on [None]. *)
Definition none_has_no (attr : string) : PyExc :=
  mkExc "AttributeError" ("'NoneType' object has no attribute '" +:+ attr +:+ "'").

(** An exception raised while a pure expression is evaluated. *)
Definition lift {A} (r : outcome A) : M A := fun s => (r, s).

(** [sys.int_info.default_max_str_digits]: the [str] or [repr] of an int of
    more digits raises ValueError (CPython 3.11 and later). *)
Definition int_max_str_digits : Z := 4300.

Definition int_str_exceeds : PyExc :=
  mkExc "ValueError"
        ("Exceeds the limit (4300 digits) for integer string conversion; "
         +:+ "use sys.set_int_max_str_digits() to increase the limit").

(** Whether [repr(a)] returns. *)
Definition arg_formats (a : Arg) : bool :=
  match a with
  | AStr _ => true
  | AInt n => ndigits (Z.abs_N n) <=? int_max_str_digits
  end.

(** The formatting of [args] in the f-strings of the DEBUG prints
    ([f"... args={args} ..."], the [repr] of a list). *)
Definition format_args (args : list Arg) : outcome unit :=
  if forallb arg_formats args then Returned tt else Raised int_str_exceeds.

Definition invoke_contract_function
    (provider : option Provider) (function_name : string)
    (args : option (list Arg)) (value : Decimal) : M InvokeResult :=
  try_except
    (match provider with
     | None => raise (none_has_no "get_network")
     | Some p =>
         net <- call (EvGetNetwork p) (prov_get_network p);;
         cur <- gets current_chain_id;;
         if negb (String.eqb (net_chain_id net) cur) then
           ret (IError ("Chain mismatch: Wallet on chain " +:+ net_chain_id net
                        +:+ ", but global chain is " +:+ cur))
         else
           let args := default [] args in
           contract_address <- get_contract_address;;
           (* print(f"DEBUG: calling {function_name} with args={args}, ...") *)
           lift (format_args args);;;
           amount <- lift (to_base_units value);;
           tx_hash <- call (EvTransact p contract_address function_name args amount)
                           (prov_transact_contract p contract_address function_name args amount);;
           receipt <- call (EvWaitReceipt p tx_hash)
                           (prov_wait_for_transaction_receipt p tx_hash);;
           chain_name <- get_chain_name;;
           explorer <- get_explorer_url;;
           cur' <- gets current_chain_id;;
           ret (ITx tx_hash receipt cur' chain_name (explorer +:+ "/tx/" +:+ tx_hash))
     end)
    (fun e => ret (IError (exc_str e))).

Definition read_contract
    (provider : option Provider) (function_name : string)
    (args : option (list Arg)) : M ReadResult :=
  try_except
    (match provider with
     | None => raise (none_has_no "get_network")
     | Some p =>
         net <- call (EvGetNetwork p) (prov_get_network p);;
         cur <- gets current_chain_id;;
         if negb (String.eqb (net_chain_id net) cur) then
           ret (RError ("Chain mismatch: provider on chain " +:+ net_chain_id net
                        +:+ ", global chain is " +:+ cur))
         else
           let args := default [] args in
           contract_address <- get_contract_address;;
           (* print(f"DEBUG: reading function {function_name}, args={args} ...") *)
           lift (format_args args);;;
           result <- call (EvReadContract p contract_address function_name args)
                          (prov_read_contract p contract_address function_name args);;
           cur' <- gets current_chain_id;;
           chain_name <- get_chain_name;;
           ret (RValue result cur' chain_name)
     end)
    (fun e => ret (RError (exc_str e))).

(** ** Crosschain mint / burn, deposit, withdraw *)

Definition nl : string := String "010"%char EmptyString.

(** [Decimal(0)], the default [value] of [invoke_contract_function] *)
Definition Decimal_0 : Decimal := dec_of_int 0.

Definition crosschain_mint (provider : option Provider) (to_address : string) (amount : Z)
    : M string :=
  resp <- invoke_contract_function provider "crosschainMint"
                                   (Some [AStr to_address; AInt amount]) Decimal_0;;
  match resp with
  | IError err => ret ("Error: " +:+ err)
  | ITx _ _ _ _ url =>
      n <- get_chain_name;;
      ret ("Successfully minted " +:+ pretty amount +:+ " tokens to " +:+ to_address
           +:+ " on " +:+ n +:+ "." +:+ nl +:+ "Transaction: " +:+ url)
  end.

Definition crosschain_burn (provider : option Provider) (from_address : string) (amount : Z)
    : M string :=
  resp <- invoke_contract_function provider "crosschainBurn"
                                   (Some [AStr from_address; AInt amount]) Decimal_0;;
  match resp with
  | IError err => ret ("Error: " +:+ err)
  | ITx _ _ _ _ url =>
      n <- get_chain_name;;
      ret ("Successfully burned " +:+ pretty amount +:+ " tokens from " +:+ from_address
           +:+ " on " +:+ n +:+ "." +:+ nl +:+ "Transaction: " +:+ url)
  end.

Definition get_balance_of (provider : option Provider) (address : string) : M string :=
  r <- read_contract provider "balanceOf" (Some [AStr address]);;
  match r with
  | RError err => ret ("Error: " +:+ err)
  | RValue v _ _ =>
      n <- get_chain_name;;
      ret ("Balance of " +:+ address +:+ " on " +:+ n +:+ ": " +:+ value_str v +:+ " tokens")
  end.

(** A Python float, given by [str(x)] and by [Decimal(str(x))]. *)
Record PyFloat := mkFloat {
  float_str : string;
  float_decimal : Decimal
}.

Definition deposit_native_eth (provider : option Provider) (eth_amount : PyFloat) : M string :=
  let val := float_decimal eth_amount in
  resp <- invoke_contract_function provider "deposit" (Some []) val;;
  match resp with
  | IError err => ret ("Error: " +:+ err)
  | ITx _ _ _ _ url =>
      n <- get_chain_name;;
      ret ("Successfully deposited " +:+ float_str eth_amount +:+ " ETH on " +:+ n +:+ "."
           +:+ nl +:+ "Transaction: " +:+ url)
  end.

Definition withdraw_tokens (provider : option Provider) (amount : Z) : M string :=
  resp <- invoke_contract_function provider "withdraw" (Some [AInt amount]) Decimal_0;;
  match resp with
  | IError err => ret ("Error: " +:+ err)
  | ITx _ _ _ _ url =>
      n <- get_chain_name;;
      ret ("Successfully withdrew " +:+ pretty amount +:+ " tokens on " +:+ n +:+ "."
           +:+ nl +:+ "Transaction: " +:+ url)
  end.

(** ** Tool functions

    The [parse_*] functions are the entry points the agent calls.  Each is
    given here from the point where its input string has been stripped,
    split and converted ([int], [float]); the chain id of
    [parse_switch_network_args] is the stripped input. *)

(** [wallet_provider.get_network()] on the global, which is [None] before
    [initialize_agent]. *)
Definition global_get_network : M Network :=
  wp <- gets wallet_provider;;
  match wp with
  | None => raise (none_has_no "get_network")
  | Some p => call (EvGetNetwork p) (prov_get_network p)
  end.

Definition parse_mint_args (to_addr : string) (amount_int : Z) : M string :=
  if negb (String.prefix "0x" to_addr) then ret "Error: address must start with 0x"
  else wp <- gets wallet_provider;; crosschain_mint wp to_addr amount_int.

Definition parse_burn_args (from_addr : string) (amount_int : Z) : M string :=
  if negb (String.prefix "0x" from_addr) then ret "Error: address must start with 0x"
  else wp <- gets wallet_provider;; crosschain_burn wp from_addr amount_int.

Definition parse_balance_of_args (addr : string) : M string :=
  if negb (String.prefix "0x" addr) then
    ret "Error: Provide a valid address that starts with 0x"
  else
    try_except
      (wp <- gets wallet_provider;;
       local_balance <- match wp with
                        | None => raise (none_has_no "get_balance")
                        | Some p => call (EvGetBalance p) (prov_get_balance p)
                        end;;
       chainname <- get_chain_name;;
       wp' <- gets wallet_provider;;
       tok_str <- get_balance_of wp' addr;;
       ret ("My wallet native balance on " +:+ chainname +:+ ": "
            +:+ balance_str local_balance +:+ " wei" +:+ nl +:+ tok_str))
      (fun e => ret ("Error reading balance: " +:+ exc_str e)).

Definition parse_deposit_eth_args (amt_float : PyFloat) : M string :=
  wp <- gets wallet_provider;; deposit_native_eth wp amt_float.

Definition parse_withdraw_args (amt_int : Z) : M string :=
  wp <- gets wallet_provider;; withdraw_tokens wp amt_int.

Definition parse_switch_network_args (chain_id : string) : M string :=
  if String.eqb chain_id "" then
    (* List current chain and supported networks *)
    net <- global_get_network;;
    let actual_chain_id := net_chain_id net in
    let listing := String.concat nl
                     (map (fun '(cid, info) => cid +:+ ": " +:+ name info) SUPPORTED_CHAINS) in
    n <- get_chain_name;;
    cur <- gets current_chain_id;;
    ret ("Currently in global state: " +:+ n +:+ " (Chain ID: " +:+ cur +:+ ")" +:+ nl
         +:+ "Provider actual chain_id: " +:+ actual_chain_id +:+ nl +:+ nl
         +:+ "Supported networks:" +:+ nl +:+ listing)
  else
    ans <- switch_network chain_id;;
    (* Possibly re-init tools *)
    k <- gets agentkit;;
    match k with
    | Some kit => call (EvLangchainTools kit) (get_langchain_tools kit)
    | None => ret tt
    end;;;
    ret ans.

Definition parse_get_current_network : M string :=
  net <- global_get_network;;
  cur <- gets current_chain_id;;
  if negb (String.eqb (net_chain_id net) cur) then
    n <- get_chain_name;;
    ret ("WARNING: mismatch. Global chain_id=" +:+ cur +:+ ", provider chain_id="
         +:+ net_chain_id net +:+ nl +:+ "Current chain name: " +:+ n)
  else
    n <- get_chain_name;;
    ret ("Current network: " +:+ n +:+ " (Chain ID=" +:+ cur +:+ ")").

(** The loop of [verify_all_chains] over [SUPPORTED_CHAINS.items()]. *)
Fixpoint verify_chains_loop (items : list (string * ChainInfo)) (lines : list string)
    : M (list string) :=
  match items with
  | [] => ret lines
  | (chain_id, info) :: rest =>
      line <- try_except
                (prov <- get_cdp_wallet_provider_for_chain chain_id;;
                 call (EvGetNetwork prov) (prov_get_network prov);;;
                 bal <- call (EvGetBalance prov) (prov_get_balance prov);;
                 ret ("✅ " +:+ name info +:+ " (Chain " +:+ chain_id +:+ "): got balance "
                      +:+ balance_str bal +:+ " wei"))
                (fun e => ret ("❌ " +:+ name info +:+ " (Chain " +:+ chain_id +:+ "): "
                               +:+ exc_str e));;
      verify_chains_loop rest (lines ++ [line])
  end.

Definition verify_all_chains : M string :=
  n <- get_chain_name;;
  cur <- gets current_chain_id;;
  lines <- verify_chains_loop SUPPORTED_CHAINS
             ["Current chain in global state: " +:+ n +:+ " (ID=" +:+ cur +:+ ")"];;
  ret (String.concat nl lines).

Definition parse_verify_chains : M string := verify_all_chains.

(** ** Initialisation *)

(** [initialize_agent], as far as the globals and the world are concerned;
    the agent and its config are returned to [main] and are not kept. *)
Definition initialize_agent : M unit :=
  call EvNewLLM new_llm;;;
  ex <- call EvPathExists (never_raises path_exists);;
  wallet_data <- (if ex : bool
                  then d <- call EvFileRead file_read;; ret (Some d)
                  else ret None);;
  p <- call (EvNewProvider wallet_data None) (new_provider wallet_data None);;
  modify (set_wallet_provider (Some p));;;
  (* Immediately persist updated data *)
  call EvFileOpenW file_open_w;;;
  new_data <- call (EvExportWallet p) (prov_export_wallet p);;
  call (EvFileWrite new_data) (file_write new_data);;;
  call (EvGetNetwork p) (prov_get_network p);;;
  k <- call (EvNewAgentKit p) (new_agentkit p);;
  modify (set_agentkit (Some k));;;
  call (EvLangchainTools k) (get_langchain_tools k);;;
  call EvCreateReactAgent create_react_agent.

(** ** Requests of the agent *)

Inductive Request :=
| ReqMint (to_addr : string) (amount : Z)
| ReqBurn (from_addr : string) (amount : Z)
| ReqBalanceOf (addr : string)
| ReqDepositEth (amt : PyFloat)
| ReqWithdraw (amount : Z)
| ReqSwitchNetwork (chain_id : string)
| ReqGetCurrentNetwork
| ReqVerifyChains.

(** The custom tools registered in [initialize_agent], by name. *)
Definition run_tool (r : Request) : M string :=
  match r with
  | ReqMint a n => parse_mint_args a n
  | ReqBurn a n => parse_burn_args a n
  | ReqBalanceOf a => parse_balance_of_args a
  | ReqDepositEth x => parse_deposit_eth_args x
  | ReqWithdraw n => parse_withdraw_args n
  | ReqSwitchNetwork c => parse_switch_network_args c
  | ReqGetCurrentNetwork => parse_get_current_network
  | ReqVerifyChains => parse_verify_chains
  end.

(** ** Reachable states *)

Definition set_world (w : World) (s : State) : State :=
  mkState (wallet_provider s) (current_chain_id s) (wallet_providers_cache s)
          (agentkit s) w (trace s).

(** The states of a run: the module is imported, then [initialize_agent]
    and the tools run in any order with any inputs, whether they return or
    raise, while the world may move on its own between calls. *)
Inductive reachable : State -> Prop :=
| reach_import w : reachable (initial_state w)
| reach_initialize s : reachable s -> reachable (snd (initialize_agent s))
| reach_tool s r : reachable s -> reachable (snd (run_tool r s))
| reach_world s w : reachable s -> reachable (set_world w s).

End Program.

(** ** A scripted world, to run the program on concrete inputs *)

Module Scripted.

Record Script := mkScript {
  (* the chain a provider constructed for a requested chain reports *)
  reports : string -> string;
  (* get_balance raises on providers reporting this chain *)
  balance_fails : string -> bool;
  (* the AgentKit constructor raises for providers reporting this chain *)
  agentkit_fails : string -> bool;
  (* transact_contract raises for this function name *)
  transact_fails : string -> bool;
  (* wait_for_transaction_receipt raises *)
  receipt_fails : bool
}.

(** Every collaborator answers. *)
Definition healthy : Script :=
  mkScript (fun c => c) (fun _ => false) (fun _ => false) (fun _ => false) false.

(** The world is a counter of the objects and transactions made so far;
    a provider is its reference and the chain it reports. *)
Definition backend (sc : Script) : Backend := {|
  World := nat;
  Provider := nat * string;
  Kit := nat;
  Receipt := string;
  Value := Z;
  Balance := Z;
  WalletData := list (string * string);
  path_exists := fun w => (false, w);
  file_read := fun w => (Raised (mkExc "FileNotFoundError" "wallet_data.txt"), w);
  file_open_w := fun w => (Returned tt, w);
  file_write := fun _ w => (Returned tt, w);
  new_provider := fun _ chain w =>
    (Returned (w, reports sc (default DEFAULT_CHAIN_ID chain)), S w);
  provider_truthy := fun _ => true;
  prov_get_network := fun p w => (Returned (mkNetwork (snd p) None), w);
  prov_get_balance := fun p w =>
    if balance_fails sc (snd p)
    then (Raised (mkExc "ConnectionError" "rpc unreachable"), w)
    else (Returned 0, w);
  prov_export_wallet := fun p w => (Returned [("default_address_id", "0xA11CE")], w);
  prov_transact_contract := fun p addr fn args v w =>
    if transact_fails sc fn
    then (Raised (mkExc "ContractLogicError" "execution reverted"), w)
    else (Returned ("0xtx" +:+ pretty w), S w);
  prov_wait_for_transaction_receipt := fun p h w =>
    if receipt_fails sc
    then (Raised (mkExc "TimeoutError" "no receipt"), w)
    else (Returned ("receipt of " +:+ h), w);
  prov_read_contract := fun p addr fn args w => (Returned 0, w);
  new_agentkit := fun p w =>
    if agentkit_fails sc (snd p)
    then (Raised (mkExc "RuntimeError" "action provider unavailable"), w)
    else (Returned w, S w);
  get_langchain_tools := fun k w => (Returned tt, w);
  new_llm := fun w => (Returned tt, w);
  create_react_agent := fun w => (Returned tt, w);
  value_str := pretty;
  balance_str := pretty
|}.

End Scripted.

Definition healthy_backend : Backend := Scripted.backend Scripted.healthy.

(** AgentKit cannot be built for a provider on Polygon ("137"). *)
Definition polygon_kit_down : Backend :=
  Scripted.backend (Scripted.mkScript (fun c => c) (fun _ => false)
                                     (String.eqb "137") (fun _ => false) false).

(** The chain rejects every crosschainMint. *)
Definition mint_reverts : Backend :=
  Scripted.backend (Scripted.mkScript (fun c => c) (fun _ => false)
                                     (fun _ => false) (String.eqb "crosschainMint") false).

(** The RPC endpoint of Polygon ("137") does not answer get_balance. *)
Definition polygon_rpc_down : Backend :=
  Scripted.backend (Scripted.mkScript (fun c => c) (String.eqb "137")
                                     (fun _ => false) (fun _ => false) false).

(** No receipt ever comes. *)
Definition no_receipt : Backend :=
  Scripted.backend (Scripted.mkScript (fun c => c) (fun _ => false)
                                     (fun _ => false) (fun _ => false) true).

(** The state of a scripted run once [initialize_agent] has returned. *)
Definition started (B : Backend) (w : @World B) : @State B :=
  snd (@initialize_agent B (initial_state w)).


(** ** Notions used in the statements *)

Section Notions.
Context {B : Backend}.

(** A preorder on states that ignores the world and the trace. *)
Class Frame (R : State -> State -> Prop) := {
  R_refl : forall s, R s s;
  R_trans : forall s1 s2 s3, R s1 s2 -> R s2 s3 -> R s1 s3;
  R_call : forall s w t,
    R s (mkState (wallet_provider s) (current_chain_id s) (wallet_providers_cache s)
                 (agentkit s) w t)
}.

Definition preserves (R : State -> State -> Prop) {A} (m : M A) : Prop :=
  forall s, R s (snd (m s)).


(** The session: the active chain and the provider bound to it. *)
Definition session (s : State) : string * option Provider :=
  (current_chain_id s, wallet_provider s).

(** A relation between states: a supported active chain stays supported. *)
Definition stays_supported (s s' : State) : Prop :=
  supported (current_chain_id s) = true -> supported (current_chain_id s') = true.

(** A relation between states: the session is the same. *)
Definition same_session (s s' : State) : Prop := session s' = session s.

Definition is_file_write (ev : Event) : bool :=
  match ev with EvFileWrite _ => true | _ => false end.

Definition is_new_provider (ev : Event) : bool :=
  match ev with EvNewProvider _ _ => true | _ => false end.

(** The calls made between an earlier state and a later one. *)
Definition trace_since (s s' : State) : list Event :=
  drop (length (trace s)) (trace s').

(** The writes of the wallet snapshot file in a trace. *)
Definition persistence_writes (t : list Event) : nat :=
  length (filter (fun ev => is_file_write ev = true) t).

(** The provider constructions in a trace. *)
Definition provider_constructions (t : list Event) : nat :=
  length (filter (fun ev => is_new_provider ev = true) t).

(** The answers of [switch_network] for the target [c]: those of its seven
    [return] statements. *)
Inductive switch_answer (c : string) : string -> Prop :=
| answer_unsupported :
    switch_answer c ("Error: Chain ID " +:+ c +:+ " not supported. Must be one of: "
                     +:+ String.concat ", " chain_keys)
| answer_already_on (chain_name : string) :
    switch_answer c ("Already on " +:+ chain_name +:+ " (Chain ID: " +:+ c +:+ ")")
| answer_no_provider :
    switch_answer c ("Error: Could not create a wallet provider for chain " +:+ c)
| answer_chain_mismatch (got : string) :
    switch_answer c ("Error: Provider chain mismatch. Expected " +:+ c +:+ ", got " +:+ got)
| answer_error_connecting (chain_name : string) (e : PyExc) :
    switch_answer c ("Error connecting to " +:+ chain_name +:+ ": " +:+ exc_str e)
| answer_error_switching (e : PyExc) :
    switch_answer c ("Error switching to chain " +:+ c +:+ ": " +:+ exc_str e)
| answer_switched (chain_name : string) :
    switch_answer c ("Switched to " +:+ chain_name +:+ " (Chain ID: " +:+ c +:+ ")").

(** The calls of a cache miss that goes through, from the world [w]: the
    snapshot file is looked up and read when it exists, the provider [p] is
    what the constructor returns for [chain_id], it answers [get_network]
    and exports its wallet, the snapshot file is opened for writing and the
    exported data written to it, which leaves the world [w']; [t] is the log
    of these calls. *)
Definition builds_and_persists
    (chain_id : string) (w : World) (p : Provider) (w' : World) (t : list Event) : Prop :=
  exists (ex : bool) w0 wallet_data w1 w2 net w3 data w4 w5,
    path_exists w = (ex, w0) /\
    (if ex then exists d, file_read w0 = (Returned d, w1) /\ wallet_data = Some d
     else w1 = w0 /\ wallet_data = None) /\
    new_provider wallet_data (Some chain_id) w1 = (Returned p, w2) /\
    prov_get_network p w2 = (Returned net, w3) /\
    prov_export_wallet p w3 = (Returned data, w4) /\
    file_open_w w4 = (Returned tt, w5) /\
    file_write data w5 = (Returned tt, w') /\
    t = EvPathExists :: (if ex then [EvFileRead] else [])
        ++ [EvNewProvider wallet_data (Some chain_id); EvGetNetwork p;
            EvExportWallet p; EvFileOpenW; EvFileWrite data].

(** [q] is [c / 10^k] rounded to the nearest integer, a tie going to the
    even one (ROUND_HALF_EVEN). *)
Definition rounds_half_even (c k q : N) : Prop :=
  let distance := Z.abs (Z.of_N c - Z.of_N q * 10 ^ Z.of_N k) in
  2 * distance <= 10 ^ Z.of_N k /\
  (2 * distance = 10 ^ Z.of_N k -> N.even q = true).

End Notions.

(** ** The text front of the tools *)

(** The builtins the tool functions apply to their input string.  [py_int]
    and [py_float] are [None] where [int(s)] and [float(s)] raise; the
    handlers around them are bare [except:] clauses. *)
Class Builtins := {
  str_strip : string -> string;         (* s.strip() *)
  str_split : string -> list string;    (* s.split() *)
  str_lower : string -> string;         (* s.lower() *)
  py_int : string -> option Z;          (* int(s) *)
  py_float : string -> option PyFloat   (* float(s) *)
}.

(** The tool functions on their input string, as the agent calls them. *)
Module Text.
Section Text.
Context {B : Backend} {U : Builtins}.

Definition parse_mint_args (input_str : string) : M string :=
  let parts := str_split (str_strip input_str) in
  match parts with
  | [to_addr; amt_str] =>
      if negb (String.prefix "0x" to_addr) then ret "Error: address must start with 0x"
      else
        match py_int amt_str with
        | None => ret "Error: amount must be integer"
        | Some amount_int =>
            wp <- gets wallet_provider;; crosschain_mint wp to_addr amount_int
        end
  | _ => ret "Error: Must provide 'TO_ADDRESS AMOUNT'"
  end.

Definition parse_burn_args (input_str : string) : M string :=
  let parts := str_split (str_strip input_str) in
  match parts with
  | [from_addr; amt_str] =>
      if negb (String.prefix "0x" from_addr) then ret "Error: address must start with 0x"
      else
        match py_int amt_str with
        | None => ret "Error: amount must be integer"
        | Some amount_int =>
            wp <- gets wallet_provider;; crosschain_burn wp from_addr amount_int
        end
  | _ => ret "Error: Must provide 'FROM_ADDRESS AMOUNT'"
  end.

Definition parse_balance_of_args (input_str : string) : M string :=
  parse_balance_of_args (str_strip input_str).

Definition parse_deposit_eth_args (input_str : string) : M string :=
  let amt_str := str_strip input_str in
  match py_float amt_str with
  | None => ret "Error: Provide a valid float (e.g. 0.01)"
  | Some amt_float => wp <- gets wallet_provider;; deposit_native_eth wp amt_float
  end.

Definition parse_withdraw_args (input_str : string) : M string :=
  let amt_str := str_strip input_str in
  match py_int amt_str with
  | None => ret "Error: Provide a valid integer"
  | Some amt_int => wp <- gets wallet_provider;; withdraw_tokens wp amt_int
  end.

Definition parse_switch_network_args (input_str : string) : M string :=
  parse_switch_network_args (str_strip input_str).

Definition parse_get_current_network (input_str : string) : M string :=
  parse_get_current_network.

Definition parse_verify_chains (input_str : string) : M string := verify_all_chains.

(** [choose_mode], reading the lines typed at its prompt from [inputs];
    it returns the mode and the lines left, and [input] raises EOFError
    when there is none. *)
Fixpoint choose_mode (inputs : list string) : outcome string * list string :=
  match inputs with
  | [] => (Raised (mkExc "EOFError" "EOF when reading a line"), [])
  | line :: rest =>
      let choice := str_lower (str_strip line) in
      if String.eqb choice "1" || String.eqb choice "chat" then (Returned "chat", rest)
      else if String.eqb choice "2" || String.eqb choice "auto" then (Returned "auto", rest)
      else choose_mode rest
  end.

End Text.
End Text.

(** ** Stand-ins for the builtins on plain inputs *)

Fixpoint split_on_space (s : string) (word : string) : list string :=
  match s with
  | EmptyString => match word with EmptyString => [] | _ => [word] end
  | String c s' =>
      if Ascii.eqb c " "%char
      then match word with
           | EmptyString => split_on_space s' EmptyString
           | _ => word :: split_on_space s' EmptyString
           end
      else split_on_space s' (word +:+ String c EmptyString)
  end.

Fixpoint digits_value (s : string) (acc : Z) : option Z :=
  match s with
  | EmptyString => Some acc
  | String c s' =>
      let d := Z.of_nat (Ascii.nat_of_ascii c) - 48 in
      if (0 <=? d) && (d <=? 9) then digits_value s' (10 * acc + d) else None
  end.

(** [float(s)] for an unsigned decimal numeral of at most 15 digits: the
    float is the integer itself, [str] of it is the integer followed by
    ".0". *)
Definition float_of_digits (s : string) : option PyFloat :=
  match s with
  | EmptyString => None
  | _ =>
      if (String.length s <=? 15)%nat then
        match digits_value s 0 with
        | Some n => Some (mkFloat (pretty n +:+ ".0") (DFin false (Z.to_N (10 * n)) (-1)))
        | None => None
        end
      else None
  end.

(** Builtins that behave like Python's on inputs made of words separated by
    single spaces, each word made of lower-case letters, or an unsigned
    decimal numeral of at most 15 digits, or "0x" and hexadecimal digits;
    they serve to run the text front on such inputs and are not Python's
    outside them. *)
Definition plain_builtins : Builtins := {|
  str_strip := fun s => s;
  str_split := fun s => split_on_space s EmptyString;
  str_lower := fun s => s;
  py_int := fun s => match s with EmptyString => None | _ => digits_value s 0 end;
  py_float := float_of_digits
|}.

(** ** Notions about the text front *)

Section TextNotions.
Context {U : Builtins}.

(** The mode a line typed at the prompt of [choose_mode] selects, if any. *)
Definition mode_of_line (line : string) : option string :=
  let choice := str_lower (str_strip line) in
  if String.eqb choice "1" || String.eqb choice "chat" then Some "chat"
  else if String.eqb choice "2" || String.eqb choice "auto" then Some "auto"
  else None.

End TextNotions.

(** ** More scripted worlds *)

(** A world like [B] in which [export_wallet] or the read-only contract call
    can be made to raise. *)
Definition failing (B : Backend) (export_fails read_fails : bool) : Backend := {|
  World := @World B;
  Provider := @Provider B;
  Kit := @Kit B;
  Receipt := @Receipt B;
  Value := @Value B;
  Balance := @Balance B;
  WalletData := @WalletData B;
  path_exists := @path_exists B;
  file_read := @file_read B;
  file_open_w := @file_open_w B;
  file_write := @file_write B;
  new_provider := @new_provider B;
  provider_truthy := @provider_truthy B;
  prov_get_network := @prov_get_network B;
  prov_get_balance := @prov_get_balance B;
  prov_export_wallet := fun p w =>
    if export_fails then (Raised (mkExc "ApiError" "export refused"), w)
    else @prov_export_wallet B p w;
  prov_transact_contract := @prov_transact_contract B;
  prov_wait_for_transaction_receipt := @prov_wait_for_transaction_receipt B;
  prov_read_contract := fun p a f l w =>
    if read_fails then (Raised (mkExc "ContractLogicError" "call reverted"), w)
    else @prov_read_contract B p a f l w;
  new_agentkit := @new_agentkit B;
  get_langchain_tools := @get_langchain_tools B;
  new_llm := @new_llm B;
  create_react_agent := @create_react_agent B;
  value_str := @value_str B;
  balance_str := @balance_str B
|}.

Definition export_down : Backend := failing healthy_backend true false.
Definition read_reverts : Backend := failing healthy_backend false true.

(** Whatever chain is requested, the provider reports Ethereum Sepolia. *)
Definition sepolia_only : Backend :=
  Scripted.backend (Scripted.mkScript (fun _ => "11155111") (fun _ => false)
                                     (fun _ => false) (fun _ => false) false).

(** ** More notions used in the statements *)

Section MoreNotions.
Context {B : Backend}.

(** The four module globals. *)
Definition globals (s : State)
    : option Provider * string * gmap string Provider * option Kit :=
  (wallet_provider s, current_chain_id s, wallet_providers_cache s, agentkit s).

(** A relation between states: the globals are the same. *)
Definition same_globals (s s' : State) : Prop := globals s' = globals s.

(** Every key of the provider cache is a key of the registry. *)
Definition cache_in_registry (s : State) : Prop :=
  forall k, is_Some (wallet_providers_cache s !! k) -> supported k = true.

(** A decimal amount that is not positive, or is positive and less than
    [10^-18] (one wei), with a coefficient the context holds exactly. *)
Definition below_one_wei (v : Decimal) : Prop :=
  dec_gt_zero v = Returned false \/
  exists c e, v = DFin false c e /\ (0 < c)%N /\ ndigits c <= prec /\ Etiny <= e /\
              e + 18 < 0 /\ Z.of_N c < 10 ^ (- (e + 18)).

(** The line [verify_all_chains] writes for a chain: the check mark with the
    balance, or the cross with the error. *)
Definition verify_line (item : string * ChainInfo) (line : string) : Prop :=
  let '(chain_id, info) := item in
  exists rest,
    line = "✅ " +:+ name info +:+ " (Chain " +:+ chain_id +:+ "): got balance " +:+ rest \/
    line = "❌ " +:+ name info +:+ " (Chain " +:+ chain_id +:+ "): " +:+ rest.

(** A step from [s] to [s'] that leaves the globals alone, constructs no
    provider and does not write the snapshot file. *)
Definition quiet (s s' : State) : Prop :=
  globals s' = globals s /\
  exists t, trace s' = trace s ++ t /\
            provider_constructions t = 0%nat /\ persistence_writes t = 0%nat.

End MoreNotions.

(** * Properties *)

(** ** Strings *)

Lemma app_cons (b : ascii) (h t : string) : String b h +:+ t = String b (h +:+ t).
Proof. reflexivity. Qed.

Lemma contains_app_r (n p h : string) :
  contains n h = true -> contains n (p +:+ h) = true.
Proof.
  intros H. induction p as [|b p IH]; [done|].
  rewrite app_cons. simpl. apply orb_true_iff. by right.
Qed.

(** ** Relations every step of a computation respects *)

Section Preservation.
Context {B : Backend}.

Context (R : State -> State -> Prop) `{!Frame R}.

Lemma preserves_ret {A} (a : A) : preserves R (ret a).
Proof. intros s. apply R_refl. Qed.

Lemma preserves_raise {A} (e : PyExc) : preserves R (@raise _ A e).
Proof. intros s. apply R_refl. Qed.

Lemma preserves_gets {A} (f : State -> A) : preserves R (gets f).
Proof. intros s. apply R_refl. Qed.

Lemma preserves_lift {A} (r : outcome A) : preserves R (lift r).
Proof. intros s. apply R_refl. Qed.

Lemma preserves_call {A} (ev : Event) (op : World -> outcome A * World) :
  preserves R (call ev op).
Proof. intros s. unfold call. destruct (op (world s)). apply R_call. Qed.

Lemma preserves_modify (f : State -> State) :
  (forall s, R s (f s)) -> preserves R (modify f).
Proof. intros H s. apply H. Qed.

Lemma preserves_bind {A C} (m : M A) (f : A -> M C) :
  preserves R m -> (forall a, preserves R (f a)) -> preserves R (bind m f).
Proof.
  intros Hm Hf s. unfold bind. specialize (Hm s).
  destruct (m s) as [[e|a] s']; simpl in *; [done|].
  eapply R_trans; [exact Hm | apply Hf].
Qed.

Lemma preserves_try_except {A} (m : M A) (h : PyExc -> M A) :
  preserves R m -> (forall e, preserves R (h e)) -> preserves R (try_except m h).
Proof.
  intros Hm Hh s. unfold try_except. specialize (Hm s).
  destruct (m s) as [[e|a] s']; simpl in *; [|done].
  eapply R_trans; [exact Hm | apply Hh].
Qed.

Lemma preserves_attempt {A} (m : M A) : preserves R m -> preserves R (attempt m).
Proof. intros Hm s. unfold attempt. specialize (Hm s). by destruct (m s). Qed.

End Preservation.

Ltac preserves_step :=
  lazymatch goal with
  | |- preserves _ (bind _ _) => apply preserves_bind; [exact _ | | intros ?]
  | |- preserves _ (try_except _ _) => apply preserves_try_except; [exact _ | | intros ?]
  | |- preserves _ (attempt _) => apply preserves_attempt
  | |- preserves _ (if ?b then _ else _) => destruct b eqn:?
  | |- preserves _ (match ?x with _ => _ end) => destruct x eqn:?
  | |- preserves _ _ => solve [eauto with preserves typeclass_instances]
  end.

Create HintDb preserves.
#[global] Hint Resolve preserves_ret preserves_raise preserves_gets preserves_lift
  preserves_call preserves_modify : preserves.

Ltac preserves_auto f := unfold f; repeat preserves_step.

Section ProgramPreserves.
Context {B : Backend} (R : State -> State -> Prop) `{!Frame R}.
(* R ignores the provider cache *)
Hypothesis R_cache : forall s m, R s (set_cache m s).

Lemma preserves_get_contract_address : preserves R get_contract_address.
Proof. preserves_auto @get_contract_address. Qed.

Lemma preserves_get_chain_name : preserves R get_chain_name.
Proof. preserves_auto @get_chain_name. Qed.

Lemma preserves_get_explorer_url : preserves R get_explorer_url.
Proof. preserves_auto @get_explorer_url. Qed.

Lemma preserves_chains_item k : preserves R (chains_item k).
Proof. preserves_auto @chains_item. Qed.

#[local] Hint Resolve preserves_get_contract_address preserves_get_chain_name
  preserves_get_explorer_url preserves_chains_item : preserves.

Lemma preserves_get_cdp chain_id :
  preserves R (get_cdp_wallet_provider_for_chain chain_id).
Proof. preserves_auto @get_cdp_wallet_provider_for_chain. Qed.

Lemma preserves_invoke provider fn args value :
  preserves R (invoke_contract_function provider fn args value).
Proof. preserves_auto @invoke_contract_function. Qed.

Lemma preserves_read_contract provider fn args :
  preserves R (read_contract provider fn args).
Proof. preserves_auto @read_contract. Qed.

#[local] Hint Resolve preserves_get_cdp preserves_invoke preserves_read_contract : preserves.

Lemma preserves_crosschain_mint p a n : preserves R (crosschain_mint p a n).
Proof. preserves_auto @crosschain_mint. Qed.

Lemma preserves_crosschain_burn p a n : preserves R (crosschain_burn p a n).
Proof. preserves_auto @crosschain_burn. Qed.

Lemma preserves_get_balance_of p a : preserves R (get_balance_of p a).
Proof. preserves_auto @get_balance_of. Qed.

Lemma preserves_deposit_native_eth p x : preserves R (deposit_native_eth p x).
Proof. preserves_auto @deposit_native_eth. Qed.

Lemma preserves_withdraw_tokens p n : preserves R (withdraw_tokens p n).
Proof. preserves_auto @withdraw_tokens. Qed.

#[local] Hint Resolve preserves_crosschain_mint preserves_crosschain_burn preserves_get_balance_of
  preserves_deposit_native_eth preserves_withdraw_tokens : preserves.

Lemma preserves_global_get_network : preserves R global_get_network.
Proof. preserves_auto @global_get_network. Qed.

#[local] Hint Resolve preserves_global_get_network : preserves.

Lemma preserves_verify_chains_loop items lines :
  preserves R (verify_chains_loop items lines).
Proof.
  revert lines. induction items as [|[c info] rest IH]; intros lines; simpl.
  - apply preserves_ret; done.
  - repeat preserves_step.
Qed.

#[local] Hint Resolve preserves_verify_chains_loop : preserves.

Lemma preserves_verify_all_chains : preserves R verify_all_chains.
Proof. preserves_auto @verify_all_chains. Qed.

End ProgramPreserves.

(** ** The active chain stays in the registry *)

Section ChainInvariant.
Context {B : Backend}.

#[global] Instance stays_supported_frame : Frame stays_supported.
Proof. split; unfold stays_supported; simpl; auto. Qed.

#[global] Instance same_session_frame : Frame same_session.
Proof.
  split; unfold same_session, session; simpl; auto.
  intros s1 s2 s3 H1 H2. by rewrite H2.
Qed.

Lemma switch_network_stays_supported new_chain_id :
  preserves stays_supported (switch_network new_chain_id).
Proof.
  assert (Hc : forall s m, stays_supported s (set_cache m s)) by (intros s m H; exact H).
  pose proof (preserves_get_cdp stays_supported Hc) as Hcdp.
  pose proof (preserves_get_chain_name stays_supported) as Hn.
  pose proof (preserves_chains_item stays_supported) as Hi.
  unfold switch_network. repeat preserves_step.
  all: apply preserves_modify; intros s; unfold stays_supported; simpl; try done.
  intros _. by destruct (supported new_chain_id).
Qed.

End ChainInvariant.

(** ** The session invariant over the reachable states *)

Section Reachable.
Context {B : Backend}.

Lemma run_tool_stays_supported r : preserves stays_supported (run_tool r).
Proof.
  assert (Hc : forall s m, stays_supported s (set_cache m s)) by (intros s m H; exact H).
  pose proof (switch_network_stays_supported) as Hsw.
  pose proof (preserves_crosschain_mint stays_supported).
  pose proof (preserves_crosschain_burn stays_supported).
  pose proof (preserves_get_balance_of stays_supported).
  pose proof (preserves_deposit_native_eth stays_supported).
  pose proof (preserves_withdraw_tokens stays_supported).
  pose proof (preserves_global_get_network stays_supported).
  pose proof (preserves_get_chain_name stays_supported).
  pose proof (preserves_verify_all_chains stays_supported Hc).
  destruct r; simpl.
  - preserves_auto @parse_mint_args.
  - preserves_auto @parse_burn_args.
  - preserves_auto @parse_balance_of_args.
  - preserves_auto @parse_deposit_eth_args.
  - preserves_auto @parse_withdraw_args.
  - preserves_auto @parse_switch_network_args.
  - preserves_auto @parse_get_current_network.
  - done.
Qed.

Lemma initialize_agent_stays_supported : preserves stays_supported initialize_agent.
Proof.
  unfold initialize_agent. repeat preserves_step.
  all: apply preserves_modify; intros s H; exact H.
Qed.

Lemma reachable_supported (s : State) :
  reachable s -> supported (current_chain_id s) = true.
Proof.
  induction 1 as [w|s Hs IH|s r Hs IH|s w Hs IH]; simpl.
  - reflexivity.
  - by apply initialize_agent_stays_supported.
  - by apply run_tool_stays_supported.
  - exact IH.
Qed.

End Reachable.

(** ** Registry lookups *)

Lemma dict_get_in {A} (k : string) (d : list (string * A)) (v : A) :
  dict_get k d = Some v -> In k (map fst d).
Proof.
  induction d as [|[k' v'] d IH]; simpl; [done|].
  destruct (String.eqb_spec k k') as [->|Hne]; [by left | right; auto].
Qed.

Lemma supported_lookup (k : string) :
  supported k = true <-> exists info, dict_get k SUPPORTED_CHAINS = Some info.
Proof.
  unfold supported. destruct (dict_get k SUPPORTED_CHAINS) as [info|].
  - split; eauto.
  - split; [done | by intros [? ?]].
Qed.

Lemma supported_in_keys (k : string) : supported k = true -> In k chain_keys.
Proof. intros [info H]%supported_lookup. exact (dict_get_in _ _ _ H). Qed.

Section Switch.
Context {B : Backend}.

(** C4: for a chain id that is not a key of [SUPPORTED_CHAINS],
    [switch_network] returns the message "Error: Chain ID <id> not
    supported. Must be one of: " followed by the keys of the registry joined
    with ", "; the message contains "not supported" and every supported id,
    "84532" among them; and the whole state (active chain, provider, cache,
    agentkit, world, trace) is what it was. *)
Theorem switch_network_unsupported (new_chain_id : string) (s : State) :
  supported new_chain_id = false ->
  exists msg,
    switch_network new_chain_id s = (Returned msg, s) /\
    msg = "Error: Chain ID " +:+ new_chain_id +:+
          " not supported. Must be one of: 84532, 11155111, 421614, 11155420, 8453, 1, 42161, 10, 80001, 137" /\
    contains "not supported" msg = true /\
    contains "84532" msg = true /\
    (forall k, supported k = true -> contains k msg = true).
Proof.
  intros Hns. eexists. split; [|split; [reflexivity|]].
  - unfold switch_network. rewrite Hns. reflexivity.
  - split; [|split].
    + by do 2 apply contains_app_r.
    + by do 2 apply contains_app_r.
    + intros k Hk%supported_in_keys. do 2 apply contains_app_r.
      simpl in Hk. repeat (destruct Hk as [<-|Hk]; [reflexivity|]). done.
Qed.

(** C6: in a state of a run, switching to the chain that is already active
    returns "Already on <name> (Chain ID: <id>)" and leaves the whole state
    as it was: the provider cache is neither invalidated nor filled, and the
    trace of calls to the world gains nothing. *)
Theorem switch_network_same_chain (s : State) :
  reachable s ->
  exists info,
    dict_get (current_chain_id s) SUPPORTED_CHAINS = Some info /\
    switch_network (current_chain_id s) s =
      (Returned ("Already on " +:+ name info +:+ " (Chain ID: " +:+ current_chain_id s +:+ ")"),
       s).
Proof.
  intros Hs%reachable_supported.
  destruct (proj1 (supported_lookup _) Hs) as [info Hinfo].
  exists info. split; [done|].
  unfold switch_network. rewrite Hs. simpl.
  unfold bind at 1, gets at 1. rewrite String.eqb_refl.
  unfold get_chain_name, bind, gets. by rewrite Hinfo.
Qed.

(** C10: in every state of a run [current_chain_id] is a key of
    [SUPPORTED_CHAINS], so [get_contract_address], [get_chain_name] and
    [get_explorer_url] return and never take their ValueError branch. *)
Theorem current_chain_id_always_supported (s : State) :
  reachable s ->
  supported (current_chain_id s) = true /\
  (exists a, get_contract_address s = (Returned a, s)) /\
  (exists n, get_chain_name s = (Returned n, s)) /\
  (exists u, get_explorer_url s = (Returned u, s)).
Proof.
  intros Hs%reachable_supported. split; [done|].
  destruct (proj1 (supported_lookup _) Hs) as [info Hinfo].
  unfold get_contract_address, get_chain_name, get_explorer_url, bind, gets.
  rewrite Hinfo. repeat split; eauto.
Qed.

End Switch.

(** ** The provider cache *)

(** Projections of explicit states and the like, in a run [H]. *)
Ltac simp_run H :=
  cbn [wallet_provider current_chain_id wallet_providers_cache agentkit world trace
       set_cache set_current_chain_id set_wallet_provider set_agentkit set_world
       fst snd negb] in H.

(** Case analysis on the next call to the world in a run [H], then on its
    outcome. *)
Ltac next_case H :=
  match type of H with
  | context [match ?x with _ => _ end] =>
      lazymatch x with
      | context [match _ with _ => _ end] => fail
      | _ => first [is_var x; destruct x | destruct x eqn:?]
      end; simp_run H
  end; try discriminate H.

Ltac unfold_run H :=
  unfold bind, try_except, attempt, call, never_raises, modify, gets, ret, raise, lift in H;
  simp_run H.

Section Cache.
Context {B : Backend}.

Lemma get_cdp_hit (chain_id : string) (s : State) (p : Provider) :
  wallet_providers_cache s !! chain_id = Some p ->
  get_cdp_wallet_provider_for_chain chain_id s = (Returned p, s).
Proof.
  intros H. unfold get_cdp_wallet_provider_for_chain, bind, gets. by rewrite H.
Qed.

Lemma get_cdp_miss (chain_id : string) (s s1 : State) (p : Provider) :
  wallet_providers_cache s !! chain_id = None ->
  get_cdp_wallet_provider_for_chain chain_id s = (Returned p, s1) ->
  wallet_providers_cache s1 = <[chain_id := p]> (wallet_providers_cache s) /\
  session s1 = session s /\
  exists t, trace s1 = trace s ++ t /\
            persistence_writes t = 1%nat /\ provider_constructions t = 1%nat.
Proof.
  intros Hmiss H.
  unfold get_cdp_wallet_provider_for_chain, bind at 1, gets at 1 in H.
  rewrite Hmiss in H. unfold_run H.
  repeat next_case H.
  all: inversion H; subst; clear H; simpl.
  all: split; [done|]; split; [done|].
  all: eexists; split; [by rewrite <- !(assoc_L (++)) | by split].
Qed.

(** A miss that returns has made every call of [builds_and_persists]: the
    world of the state it leaves is the one the write of the snapshot file
    left. *)
Lemma get_cdp_miss_run (chain_id : string) (s s1 : State) (p : Provider) :
  wallet_providers_cache s !! chain_id = None ->
  get_cdp_wallet_provider_for_chain chain_id s = (Returned p, s1) ->
  exists t,
    builds_and_persists chain_id (world s) p (world s1) t /\
    s1 = mkState (wallet_provider s) (current_chain_id s)
                 (<[chain_id := p]> (wallet_providers_cache s)) (agentkit s)
                 (world s1) (trace s ++ t).
Proof.
  intros Hmiss H.
  unfold get_cdp_wallet_provider_for_chain, bind at 1, gets at 1 in H.
  rewrite Hmiss in H. unfold_run H.
  repeat next_case H.
  all: inversion H; subst; clear H; cbn [world].
  all: repeat match goal with u : () |- _ => destruct u end.
  all: eexists; split;
    [ do 10 eexists; split; [eassumption|]; cbn beta iota; eauto 12
    | rewrite <- !(assoc_L (++)); reflexivity ].
Qed.

(** C5: a call on a cached chain id returns the cached provider and changes
    nothing: no provider is constructed and the snapshot file is not
    written.  Two calls in a row with the same chain id, the first on a
    missing entry and returning, give the same provider.  The first has
    constructed that provider and written its exported wallet to the
    snapshot file, and the world it leaves is the one that write left; the
    second call changes nothing, so across the two the snapshot file is
    written exactly once and one provider is constructed, both by the first
    call. *)
Theorem get_cdp_idempotent_on_hit (chain_id : string) (s : State) :
  (forall p, wallet_providers_cache s !! chain_id = Some p ->
     get_cdp_wallet_provider_for_chain chain_id s = (Returned p, s)) /\
  (forall p s1,
     wallet_providers_cache s !! chain_id = None ->
     get_cdp_wallet_provider_for_chain chain_id s = (Returned p, s1) ->
     exists s2,
       get_cdp_wallet_provider_for_chain chain_id s1 = (Returned p, s2) /\
       s2 = s1 /\
       exists t, trace s2 = trace s ++ t /\
                 persistence_writes t = 1%nat /\ provider_constructions t = 1%nat /\
                 builds_and_persists chain_id (world s) p (world s2) t).
Proof.
  split; [apply get_cdp_hit|].
  intros p s1 Hmiss Hrun.
  destruct (get_cdp_miss _ _ _ _ Hmiss Hrun) as (Hcache & _ & t0 & Ht0 & Hw & Hn).
  destruct (get_cdp_miss_run _ _ _ _ Hmiss Hrun) as (t & Hcalls & Hs1).
  exists s1. split; [|split; [done|]].
  - apply get_cdp_hit. rewrite Hcache. apply lookup_insert_eq.
  - exists t. assert (t0 = t) as ->.
    { rewrite Hs1 in Ht0. cbn [trace] in Ht0. by apply app_inv_head in Ht0. }
    by rewrite Hs1 at 1.
Qed.

End Cache.

(** ** Decimal arithmetic *)

Lemma ndigits_fuel_0 (fuel : nat) : ndigits_fuel fuel 0 = 0.
Proof. by destruct fuel. Qed.

Lemma ndigits_fuel_spec (fuel : nat) (c : N) :
  (0 < c)%N -> (c < 2 ^ N.of_nat fuel)%N ->
  1 <= ndigits_fuel fuel c /\
  10 ^ (ndigits_fuel fuel c - 1) <= Z.of_N c < 10 ^ ndigits_fuel fuel c.
Proof.
  revert c. induction fuel as [|fuel IH]; intros c Hpos Hlt.
  - simpl in Hlt. lia.
  - cbn [ndigits_fuel]. destruct (N.eqb_spec c 0%N) as [->|Hc]; [lia|].
    destruct (N.eq_dec (c / 10)%N 0%N) as [H0|H0].
    + rewrite H0, ndigits_fuel_0. apply N.div_small_iff in H0; [|done].
      change (1 + 0 - 1) with 0. change (1 + 0) with 1. lia.
    + assert (Hlt' : (c / 10 < 2 ^ N.of_nat fuel)%N).
      { apply N.Div0.div_lt_upper_bound.
        rewrite Nat2N.inj_succ, N.pow_succ_r' in Hlt.
        set (x := (2 ^ N.of_nat fuel)%N) in *. clearbody x. lia. }
      destruct (IH (c / 10)%N) as (Hd & Hlo & Hhi); [by apply N.neq_0_lt_0 | done |].
      set (d := ndigits_fuel fuel (c / 10)%N) in *.
      rewrite N2Z.inj_div in Hlo, Hhi. change (Z.of_N 10) with 10 in *.
      pose proof (Z.div_mod (Z.of_N c) 10 ltac:(done)) as Hdm.
      pose proof (Z.mod_pos_bound (Z.of_N c) 10 ltac:(done)) as Hm.
      replace (1 + d - 1) with (Z.succ (d - 1)) by lia.
      replace (1 + d) with (Z.succ d) by lia.
      rewrite !Z.pow_succ_r by lia.
      replace d with (Z.succ (d - 1)) in Hhi at 1 by lia.
      rewrite Z.pow_succ_r in Hhi by lia.
      replace (10 ^ d) with (10 * 10 ^ (d - 1)).
      2:{ rewrite <- Z.pow_succ_r by lia. f_equal. lia. }
      lia.
Qed.

Lemma ndigits_spec (c : N) :
  (0 < c)%N ->
  1 <= ndigits c /\ 10 ^ (ndigits c - 1) <= Z.of_N c < 10 ^ ndigits c.
Proof.
  intros Hpos. apply ndigits_fuel_spec; [done|].
  rewrite Nat2N.inj_succ, N2Nat.id. by apply N.log2_spec.
Qed.

Lemma ndigits_unique (c : N) (d : Z) :
  1 <= d -> 10 ^ (d - 1) <= Z.of_N c < 10 ^ d -> ndigits c = d.
Proof.
  intros Hd [Hlo Hhi].
  assert (Hpos : (0 < c)%N).
  { pose proof (Z.pow_pos_nonneg 10 (d - 1)). lia. }
  destruct (ndigits_spec c Hpos) as (Hd0 & Hlo0 & Hhi0).
  destruct (Z.lt_trichotomy (ndigits c) d) as [Hlt|[Heq|Hgt]]; [|done|].
  - pose proof (Z.pow_le_mono_r 10 (ndigits c) (d - 1)). lia.
  - pose proof (Z.pow_le_mono_r 10 d (ndigits c - 1)). lia.
Qed.

Lemma ndigits_mul_pow10 (c n : N) :
  (0 < c)%N -> ndigits (c * 10 ^ n) = ndigits c + Z.of_N n.
Proof.
  intros Hpos. destruct (ndigits_spec c Hpos) as (Hd & Hlo & Hhi).
  apply ndigits_unique; [lia|].
  rewrite N2Z.inj_mul, N2Z.inj_pow. change (Z.of_N 10) with 10.
  replace (ndigits c + Z.of_N n - 1) with ((ndigits c - 1) + Z.of_N n) by lia.
  rewrite !Z.pow_add_r by lia.
  pose proof (Z.pow_pos_nonneg 10 (Z.of_N n)). nia.
Qed.

Lemma dec_int_fin (q : N) (x : Z) : dec_int (DFin false q x) = Returned (floor_scaled q x).
Proof.
  unfold dec_int, floor_scaled. destruct (Z.leb_spec 0 x) as [Hx|Hx]; [done|].
  rewrite N2Z.inj_div, N2Z.inj_pow, Z2N.id by lia. done.
Qed.

Lemma floor_scaled_shift (c a : N) (x : Z) :
  floor_scaled (c * 10 ^ a) x = floor_scaled c (x + Z.of_N a).
Proof.
  unfold floor_scaled. rewrite N2Z.inj_mul, N2Z.inj_pow. change (Z.of_N 10) with 10.
  destruct (Z.leb_spec 0 x) as [Hx|Hx]; destruct (Z.leb_spec 0 (x + Z.of_N a)) as [Hxa|Hxa];
    try lia.
  - rewrite Z.pow_add_r by lia. ring.
  - replace (Z.of_N a) with ((x + Z.of_N a) + (- x)) at 1 by lia.
    rewrite Z.pow_add_r by lia. rewrite Z.mul_assoc.
    apply Z.div_mul. pose proof (Z.pow_pos_nonneg 10 (- x)). lia.
  - replace (- x) with (- (x + Z.of_N a) + Z.of_N a) by lia.
    rewrite Z.pow_add_r by lia.
    apply Z.div_mul_cancel_r.
    + pose proof (Z.pow_pos_nonneg 10 (- (x + Z.of_N a))). lia.
    + pose proof (Z.pow_pos_nonneg 10 (Z.of_N a)). lia.
Qed.

Lemma dec_fix_scaled (c : N) (e : Z) :
  (0 < c)%N -> ndigits c <= prec -> Etiny <= e -> ndigits c + e + 18 - prec <= Etop ->
  exists q x, dec_fix false (c * 10 ^ 18) e = Returned (DFin false q x) /\
              floor_scaled q x = floor_scaled c (e + 18).
Proof.
  intros Hpos Hd He Htop.
  destruct (ndigits_spec c Hpos) as (Hd1 & _).
  unfold dec_fix.
  destruct (N.eqb_spec (c * 10 ^ 18) 0) as [H0|_]; [lia|].
  rewrite ndigits_mul_pow10 by done. change (Z.of_N 18) with 18.
  destruct (Z.ltb_spec Etop (ndigits c + 18 + e - prec)) as [?|_]; [lia|].
  destruct (Z.ltb_spec e (Z.max (ndigits c + 18 + e - prec) Etiny)) as [Hround|_].
  - rewrite Z.max_l in * by lia.
    set (k := Z.to_N (ndigits c + 18 + e - prec - e)).
    assert (Hk : (0 < k <= 18)%N) by (unfold prec in *; lia).
    assert (Hc : (c * 10 ^ 18 = c * 10 ^ (18 - k) * 10 ^ k)%N).
    { rewrite <- N.mul_assoc, <- N.pow_add_r. do 2 f_equal. lia. }
    assert (Hk0 : (10 ^ k <> 0)%N) by (apply N.pow_nonzero; lia).
    rewrite Hc, N.div_mul, N.Div0.mod_mul by done.
    change (2 * 0)%N with 0%N.
    destruct (N.ltb_spec (10 ^ k) 0) as [?|_]; [lia|].
    destruct (N.eqb_spec (10 ^ k) 0) as [?|_]; [lia|].
    cbn [orb andb]. eexists _, _. split; [done|].
    rewrite floor_scaled_shift. f_equal. unfold prec in *. lia.
  - eexists _, _. split; [done|]. apply (floor_scaled_shift c 18 e).
Qed.

Lemma to_base_units_exact (c : N) (e : Z) :
  (0 < c)%N -> ndigits c <= prec -> Etiny <= e -> ndigits c + e + 18 - prec <= Etop ->
  to_base_units (DFin false c e) = Returned (floor_scaled c (e + 18)).
Proof.
  intros Hpos Hd He Htop.
  destruct (dec_fix_scaled c e Hpos Hd He Htop) as (q & x & Hfix & Hfloor).
  unfold to_base_units, dec_gt_zero.
  destruct (N.ltb_spec 0 c); [|lia]. cbn [negb andb].
  unfold dec_mul, dec_of_int.
  change (Z.abs_N (10 ^ 18)) with (10 ^ 18)%N. change (10 ^ 18 <? 0) with false.
  cbn [xorb]. rewrite Z.add_0_r, Hfix, dec_int_fin. by rewrite Hfloor.
Qed.

(** The rounding of [dec_fix] on a coefficient longer than the precision,
    within the exponent range. *)
Lemma dec_fix_rounds (c : N) (e : Z) :
  (0 < c)%N -> Etiny <= e -> ndigits c + e - prec < Etop ->
  let k := Z.to_N (ndigits c - prec) in
  exists q d,
    rounds_half_even c k q /\
    dec_fix false c e = Returned d /\
    dec_int d = Returned (floor_scaled q (e + Z.of_N k)).
Proof.
  intros Hpos He Htop k.
  destruct (ndigits_spec c Hpos) as (Hd1 & Hlo & Hhi).
  unfold dec_fix.
  destruct (N.eqb_spec c 0) as [?|_]; [lia|].
  destruct (Z.ltb_spec Etop (ndigits c + e - prec)) as [?|_]; [lia|].
  destruct (Z.ltb_spec e (Z.max (ndigits c + e - prec) Etiny)) as [Hround|Hexact].
  - (* the coefficient is longer than the precision *)
    assert (Hlong : prec < ndigits c) by lia.
    rewrite Z.max_l by lia.
    replace (Z.to_N (ndigits c + e - prec - e)) with k by (unfold k; f_equal; lia).
    assert (Hk : Z.of_N k = ndigits c - prec) by (unfold k; lia).
    assert (HK0 : (10 ^ k <> 0)%N) by (apply N.pow_nonzero; lia).
    pose proof (N.div_mod' c (10 ^ k)) as Hdm.
    pose proof (N.mod_lt c (10 ^ k) HK0) as Hr.
    set (q0 := (c / 10 ^ k)%N) in *. set (r := (c mod 10 ^ k)%N) in *.
    assert (HKz : Z.of_N (10 ^ k) = 10 ^ Z.of_N k) by (by rewrite N2Z.inj_pow).
    assert (HKpos : 0 < 10 ^ Z.of_N k) by (apply Z.pow_pos_nonneg; lia).
    assert (Hcz : Z.of_N c = 10 ^ Z.of_N k * Z.of_N q0 + Z.of_N r).
    { rewrite <- HKz, <- N2Z.inj_mul, <- N2Z.inj_add. by f_equal. }
    assert (Hrz : 0 <= Z.of_N r < 10 ^ Z.of_N k) by (rewrite <- HKz; lia).
    assert (Hq0 : Z.of_N q0 < 10 ^ prec).
    { assert (H10 : 10 ^ ndigits c = 10 ^ prec * 10 ^ Z.of_N k).
      { rewrite <- Z.pow_add_r by (unfold prec; lia). f_equal. lia. }
      rewrite H10 in Hhi. nia. }
    destruct ((10 ^ k <? 2 * r)%N || ((10 ^ k =? 2 * r)%N && N.odd q0)) eqn:Hup.
    + (* rounded up *)
      assert (Hnear : rounds_half_even c k (q0 + 1)).
      { unfold rounds_half_even. cbv zeta.
        rewrite N2Z.inj_add, Hcz. change (Z.of_N 1) with 1.
        apply orb_true_iff in Hup as [Hlt%N.ltb_lt|[Heq%N.eqb_eq Hodd]%andb_true_iff].
        - split; [lia|]. intros Htie. exfalso. lia.
        - split; [lia|]. intros _. rewrite N.even_add, <- N.negb_odd, Hodd. done. }
      cbn [andb].
      destruct (Z.ltb_spec prec (ndigits (q0 + 1))) as [Hcarry|Hfit].
      * (* the carry gives 10^prec *)
        destruct (Z.ltb_spec Etop (ndigits c + e - prec + 1)) as [?|_]; [lia|].
        exists (q0 + 1)%N. eexists. split; [done|]. split; [done|].
        rewrite dec_int_fin.
        assert (Hq1 : (q0 + 1 = 10 ^ 27 * 10 ^ 1)%N).
        { destruct (ndigits_spec (q0 + 1)%N ltac:(lia)) as (_ & Hlo1 & _).
          pose proof (Z.pow_le_mono_r 10 prec (ndigits (q0 + 1) - 1) ltac:(lia) ltac:(lia)).
          unfold prec in *. lia. }
        rewrite Hq1, N.div_mul by done.
        rewrite floor_scaled_shift. do 2 f_equal. lia.
      * exists (q0 + 1)%N. eexists. split; [done|]. split; [done|].
        rewrite dec_int_fin. do 2 f_equal. lia.
    + (* rounded down *)
      cbn [andb].
      apply orb_false_iff in Hup as [Hge%N.ltb_ge Htie].
      exists q0. eexists. split; [|split; [done|]].
      * unfold rounds_half_even. cbv zeta. rewrite Hcz.
        split; [lia|]. intros Heq.
        assert (Hk2 : (10 ^ k =? 2 * r)%N = true) by (apply N.eqb_eq; lia).
        rewrite Hk2 in Htie. cbn [andb] in Htie.
        by rewrite <- N.negb_odd, Htie.
      * rewrite dec_int_fin. do 2 f_equal. lia.
  - (* the coefficient fits *)
    assert (Hk : k = 0%N) by (unfold k; lia).
    exists c. eexists. split; [|split; [done|]].
    + unfold rounds_half_even. cbv zeta. rewrite Hk. change (10 ^ Z.of_N 0) with 1.
      split; lia.
    + rewrite dec_int_fin, Hk. do 2 f_equal. lia.
Qed.

Lemma to_base_units_rounds (c : N) (e : Z) :
  (0 < c)%N -> Etiny <= e -> ndigits (c * 10 ^ 18) + e - prec < Etop ->
  let k := Z.to_N (ndigits (c * 10 ^ 18) - prec) in
  exists q,
    rounds_half_even (c * 10 ^ 18) k q /\
    to_base_units (DFin false c e) = Returned (floor_scaled q (e + Z.of_N k)).
Proof.
  intros Hpos He Htop k.
  assert (Hc : (0 < c * 10 ^ 18)%N) by lia.
  destruct (dec_fix_rounds _ e Hc He Htop) as (q & d & Hnear & Hfix & Hint).
  exists q. split; [exact Hnear|].
  unfold to_base_units, dec_gt_zero.
  destruct (N.ltb_spec 0 c); [|lia]. cbn [negb andb].
  unfold dec_mul, dec_of_int.
  change (Z.abs_N (10 ^ 18)) with (10 ^ 18)%N. change (10 ^ 18 <? 0) with false.
  cbn [xorb]. rewrite Z.add_0_r, Hfix. exact Hint.
Qed.

(** ** Contract invocation *)

Section Invocation.
Context {B : Backend}.

(** The state after one answered call. *)
Lemma call_returned {A} (ev : Event) (op : World -> outcome A * World)
    (s : State) (r : outcome A) (w' : World) :
  op (world s) = (r, w') ->
  call ev op s = (r, mkState (wallet_provider s) (current_chain_id s)
                             (wallet_providers_cache s) (agentkit s) w' (trace s ++ [ev])).
Proof. intros H. unfold call. by rewrite H. Qed.

(** C2: when the provider reports a chain other than [current_chain_id],
    the write path and the read path both return the dict
    [{"error": "Chain mismatch: ..."}]; the only call made is the
    [get_network] query that reads the provider's chain: no contract call,
    no receipt wait, no balance read, and the globals are as they were. *)
Theorem chain_affinity_checked_first
    (p : Provider) (function_name : string) (args : option (list Arg)) (value : Decimal)
    (s : State) (net : Network) (w' : World) :
  prov_get_network p (world s) = (Returned net, w') ->
  net_chain_id net <> current_chain_id s ->
  let s' := mkState (wallet_provider s) (current_chain_id s) (wallet_providers_cache s)
                    (agentkit s) w' (trace s ++ [EvGetNetwork p]) in
  invoke_contract_function (Some p) function_name args value s =
    (Returned (IError ("Chain mismatch: Wallet on chain " +:+ net_chain_id net
                       +:+ ", but global chain is " +:+ current_chain_id s)), s') /\
  read_contract (Some p) function_name args s =
    (Returned (RError ("Chain mismatch: provider on chain " +:+ net_chain_id net
                       +:+ ", global chain is " +:+ current_chain_id s)), s') /\
  trace_since s s' = [EvGetNetwork p].
Proof.
  intros Hnet Hne s'. apply String.eqb_neq in Hne.
  unfold invoke_contract_function, read_contract, try_except, bind.
  rewrite (call_returned _ _ _ _ _ Hnet). unfold gets. simpl. rewrite Hne. simpl.
  repeat split. unfold trace_since. simpl. by rewrite drop_app_length.
Qed.

Lemma invoke_tx_inv
    (provider : option Provider) (function_name : string) (args : option (list Arg))
    (value : Decimal) (s s' : State)
    (tx_hash : string) (receipt : Receipt) (chain_id chain_name url : string) :
  invoke_contract_function provider function_name args value s =
    (Returned (ITx tx_hash receipt chain_id chain_name url), s') ->
  exists info,
    dict_get (current_chain_id s) SUPPORTED_CHAINS = Some info /\
    url = explorer_url info +:+ "/tx/" +:+ tx_hash /\
    chain_id = current_chain_id s /\
    chain_name = name info.
Proof.
  intros H. unfold invoke_contract_function, get_contract_address, get_chain_name,
    get_explorer_url in H.
  destruct provider as [p|]; [|by unfold_run H].
  unfold_run H.
  destruct (dict_get (current_chain_id s) SUPPORTED_CHAINS) as [info|] eqn:Hinfo.
  - exists info. repeat (first [rewrite Hinfo in H; simp_run H | next_case H]).
    all: by inversion H; subst.
  - repeat (first [rewrite Hinfo in H; simp_run H | next_case H]).
    all: discriminate H.
Qed.


(** An int of 4301 digits does not print. *)
Lemma format_args_long_int (l : list Arg) :
  format_args (AInt (10 ^ 4300) :: l) = Raised int_str_exceeds.
Proof.
  unfold format_args. cbn [forallb arg_formats].
  assert (Hd : ndigits (Z.abs_N (10 ^ 4300)) = 4301).
  { apply ndigits_unique; [lia|].
    rewrite N2Z.inj_abs_N, Z.abs_eq by (apply Z.pow_nonneg; lia).
    split; [apply Z.pow_le_mono_r; lia | apply Z.pow_lt_mono_r; lia]. }
  rewrite Hd. reflexivity.
Qed.

(** The trace of an invocation whose arguments print and whose value
    converts. *)
Lemma invoke_submits
    (p : Provider) (function_name : string) (args : option (list Arg)) (value : Decimal)
    (s : State) (net : Network) (w1 : World) (info : ChainInfo) (amount : Z) :
  prov_get_network p (world s) = (Returned net, w1) ->
  net_chain_id net = current_chain_id s ->
  dict_get (current_chain_id s) SUPPORTED_CHAINS = Some info ->
  format_args (default [] args) = Returned tt ->
  to_base_units value = Returned amount ->
  exists r s' rest,
    invoke_contract_function (Some p) function_name args value s = (r, s') /\
    trace s' = trace s ++ [EvGetNetwork p;
                           EvTransact p (contract_address info) function_name
                                      (default [] args) amount] ++ rest.
Proof.
  intros Hnet Hcur%String.eqb_eq Hinfo Hfmt Hamt.
  destruct (invoke_contract_function (Some p) function_name args value s) as [r s'] eqn:H.
  exists r, s'.
  unfold invoke_contract_function, get_contract_address, get_chain_name,
    get_explorer_url in H.
  unfold_run H.
  rewrite Hnet in H; simp_run H. rewrite Hcur in H; simp_run H.
  rewrite Hinfo in H; simp_run H. rewrite Hfmt in H; simp_run H.
  rewrite Hamt in H; simp_run H.
  repeat (first [rewrite Hinfo in H; simp_run H | next_case H]).
  all: inversion H; subst; clear H; simpl; eexists; split; [done|].
  all: rewrite <- ?(assoc_L (++)); simpl; try done.
  all: by instantiate (1 := []).
Qed.

(** An exception raised before the submission, while the arguments are
    formatted or the value is converted: only [get_network] has been
    called. *)
Lemma invoke_fails_before_submission
    (p : Provider) (function_name : string) (args : option (list Arg)) (value : Decimal)
    (s : State) (net : Network) (w1 : World) (info : ChainInfo) (e : PyExc) :
  prov_get_network p (world s) = (Returned net, w1) ->
  net_chain_id net = current_chain_id s ->
  dict_get (current_chain_id s) SUPPORTED_CHAINS = Some info ->
  format_args (default [] args) = Raised e \/
  format_args (default [] args) = Returned tt /\ to_base_units value = Raised e ->
  invoke_contract_function (Some p) function_name args value s =
    (Returned (IError (exc_str e)),
     mkState (wallet_provider s) (current_chain_id s) (wallet_providers_cache s)
             (agentkit s) w1 (trace s ++ [EvGetNetwork p])).
Proof.
  intros Hnet Hcur%String.eqb_eq Hinfo Hfail.
  destruct (invoke_contract_function (Some p) function_name args value s) as [r s'] eqn:H.
  unfold invoke_contract_function, get_contract_address in H. unfold_run H.
  rewrite Hnet in H; simp_run H. rewrite Hcur in H; simp_run H.
  rewrite Hinfo in H; simp_run H.
  destruct Hfail as [Hfmt|[Hfmt Hamt]]; rewrite Hfmt in H; simp_run H.
  - by inversion H.
  - rewrite Hamt in H; simp_run H. by inversion H.
Qed.

(** C7: [invoke_contract_function] always returns a dict, whatever the
    provider (even [None]), the arguments and the world do.  An exception
    raised by the submission ([transact_contract]) or by the receipt wait
    ([wait_for_transaction_receipt]) becomes the result [{"error": str(e)}];
    so does the exception raised before them while the DEBUG print formats
    the arguments. *)
Theorem invoke_never_raises
    (provider : option Provider) (function_name : string) (args : option (list Arg))
    (value : Decimal) (s : State) :
  (exists d s', invoke_contract_function provider function_name args value s
                = (Returned d, s')) /\
  (forall p net w1 info amount e w2,
     provider = Some p ->
     prov_get_network p (world s) = (Returned net, w1) ->
     net_chain_id net = current_chain_id s ->
     dict_get (current_chain_id s) SUPPORTED_CHAINS = Some info ->
     format_args (default [] args) = Returned tt ->
     to_base_units value = Returned amount ->
     prov_transact_contract p (contract_address info) function_name (default [] args)
                            amount w1 = (Raised e, w2) ->
     exists s', invoke_contract_function provider function_name args value s
                = (Returned (IError (exc_str e)), s')) /\
  (forall p net w1 info amount tx_hash w2 e w3,
     provider = Some p ->
     prov_get_network p (world s) = (Returned net, w1) ->
     net_chain_id net = current_chain_id s ->
     dict_get (current_chain_id s) SUPPORTED_CHAINS = Some info ->
     format_args (default [] args) = Returned tt ->
     to_base_units value = Returned amount ->
     prov_transact_contract p (contract_address info) function_name (default [] args)
                            amount w1 = (Returned tx_hash, w2) ->
     prov_wait_for_transaction_receipt p tx_hash w2 = (Raised e, w3) ->
     exists s', invoke_contract_function provider function_name args value s
                = (Returned (IError (exc_str e)), s')) /\
  (forall p net w1 info e,
     provider = Some p ->
     prov_get_network p (world s) = (Returned net, w1) ->
     net_chain_id net = current_chain_id s ->
     dict_get (current_chain_id s) SUPPORTED_CHAINS = Some info ->
     format_args (default [] args) = Raised e ->
     exists s', invoke_contract_function provider function_name args value s
                = (Returned (IError (exc_str e)), s')).
Proof.
  split; [|split; [|split]].
  - unfold invoke_contract_function, try_except.
    match goal with |- context [match ?body s with _ => _ end] => destruct (body s) as [[e|d] s1] end;
      unfold ret; eauto.
  - intros p net w1 info amount e w2 -> Hnet Hcur%String.eqb_eq Hinfo Hfmt Hamt Htx.
    destruct (invoke_contract_function (Some p) function_name args value s) as [r s'] eqn:H.
    unfold invoke_contract_function, get_contract_address in H. unfold_run H.
    rewrite Hnet in H; simp_run H. rewrite Hcur in H; simp_run H.
    rewrite Hinfo in H; simp_run H. rewrite Hfmt in H; simp_run H.
    rewrite Hamt in H; simp_run H.
    rewrite Htx in H; simp_run H. inversion H; subst. eauto.
  - intros p net w1 info amount tx_hash w2 e w3 -> Hnet Hcur%String.eqb_eq Hinfo Hfmt Hamt
      Htx Hw.
    destruct (invoke_contract_function (Some p) function_name args value s) as [r s'] eqn:H.
    unfold invoke_contract_function, get_contract_address in H. unfold_run H.
    rewrite Hnet in H; simp_run H. rewrite Hcur in H; simp_run H.
    rewrite Hinfo in H; simp_run H. rewrite Hfmt in H; simp_run H.
    rewrite Hamt in H; simp_run H.
    rewrite Htx in H; simp_run H. rewrite Hw in H; simp_run H. inversion H; subst. eauto.
  - intros p net w1 info e -> Hnet Hcur Hinfo Hfmt.
    rewrite (invoke_fails_before_submission p function_name args value s net w1 info e)
      by auto.
    eauto.
Qed.

(** C8, as the code has it.  With the provider on the active chain and
    arguments that print, a positive finite value [c * 10^e] in the exponent
    range of the decimal context is submitted to the contract address of the
    registry entry of the active chain as [int(value * Decimal(10**18))]
    under that context: the coefficient of the product, [c * 10^18], is
    rounded half-even to the 28 digits of the precision, [k] digits being
    dropped, and the result truncated to an integer.  For a coefficient [c]
    of at most 28 digits nothing is lost and the amount is the integer part
    of [c * 10^(e+18)].  Positive infinity is positive too, but converts to
    no integer: the error dict is returned and nothing is submitted. *)
Theorem invoke_submits_base_units
    (p : Provider) (function_name : string) (args : option (list Arg))
    (s : State) (net : Network) (w1 : World) (info : ChainInfo) (c : N) (e : Z) :
  prov_get_network p (world s) = (Returned net, w1) ->
  net_chain_id net = current_chain_id s ->
  dict_get (current_chain_id s) SUPPORTED_CHAINS = Some info ->
  format_args (default [] args) = Returned tt ->
  (0 < c)%N -> Etiny <= e -> ndigits (c * 10 ^ 18) + e - prec < Etop ->
  let k := Z.to_N (ndigits (c * 10 ^ 18) - prec) in
  (exists q r s' rest,
     rounds_half_even (c * 10 ^ 18) k q /\
     invoke_contract_function (Some p) function_name args (DFin false c e) s = (r, s') /\
     trace s' = trace s ++ [EvGetNetwork p;
                            EvTransact p (contract_address info) function_name
                                       (default [] args)
                                       (floor_scaled q (e + Z.of_N k))] ++ rest) /\
  (ndigits c <= prec ->
   exists r s' rest,
     invoke_contract_function (Some p) function_name args (DFin false c e) s = (r, s') /\
     trace s' = trace s ++ [EvGetNetwork p;
                            EvTransact p (contract_address info) function_name
                                       (default [] args)
                                       (floor_scaled c (e + 18))] ++ rest) /\
  dec_gt_zero (DInf false) = Returned true /\
  invoke_contract_function (Some p) function_name args (DInf false) s =
    (Returned (IError "cannot convert Infinity to integer"),
     mkState (wallet_provider s) (current_chain_id s) (wallet_providers_cache s)
             (agentkit s) w1 (trace s ++ [EvGetNetwork p])).
Proof.
  intros Hnet Hcur Hinfo Hfmt Hpos He Htop k.
  split; [|split; [|split; [reflexivity|]]].
  - destruct (to_base_units_rounds c e Hpos He Htop) as (q & Hnear & Hamt).
    destruct (invoke_submits p function_name args _ s net w1 info _ Hnet Hcur Hinfo Hfmt Hamt)
      as (r & s' & rest & Hrun & Htr).
    by exists q, r, s', rest.
  - intros Hd.
    apply (invoke_submits p function_name args _ s net w1 info _ Hnet Hcur Hinfo Hfmt).
    apply to_base_units_exact; [done|done|done|].
    rewrite (ndigits_mul_pow10 c 18 Hpos) in Htop. change (Z.of_N 18) with 18 in Htop. lia.
  - apply (invoke_fails_before_submission p function_name args (DInf false) s net w1 info
             (mkExc "OverflowError" "cannot convert Infinity to integer") Hnet Hcur Hinfo).
    right. by split.
Qed.

End Invocation.

(** ** The switch: what an attempt can leave behind *)

Section SwitchAttempt.
Context {B : Backend}.

(** An attempt either leaves the session as it was, or it has committed the
    new chain and its provider and gone on to rebuild AgentKit.  So every
    failure before the commit (no provider, a provider on another chain, a
    dead balance probe) leaves the session untouched. *)
Lemma switch_network_session (new_chain_id : string) (s s' : State) (r : outcome string) :
  switch_network new_chain_id s = (r, s') ->
  session s' = session s \/
  exists p, session s' = (new_chain_id, Some p) /\
            In (EvNewAgentKit p) (trace_since s s').
Proof.
  intros H.
  unfold switch_network, get_cdp_wallet_provider_for_chain, get_chain_name, chains_item in H.
  unfold_run H. repeat next_case H.
  all: inversion H; subst; clear H; unfold session, trace_since; cbn [current_chain_id wallet_provider trace].
  all: try (left; reflexivity).
  all: right; eexists; split; [reflexivity|].
  all: rewrite <- ?(assoc_L (++)), drop_app_length; simpl; auto 20.
Qed.

End SwitchAttempt.

(** ** Bridging through the tools *)

Section Bridge.
Context {B : Backend}.

Lemma invoke_keeps_session provider fn args value (s s' : State) (r : outcome InvokeResult) :
  invoke_contract_function provider fn args value s = (r, s') -> session s' = session s.
Proof.
  intros H. pose proof (preserves_invoke same_session provider fn args value s) as Hp.
  by rewrite H in Hp.
Qed.

(** Every answer of [switch_network] is one of its seven. *)
Lemma switch_network_answers (new_chain_id : string) (s s' : State) (msg : string) :
  switch_network new_chain_id s = (Returned msg, s') -> switch_answer new_chain_id msg.
Proof.
  intros H.
  unfold switch_network, get_cdp_wallet_provider_for_chain, get_chain_name, chains_item in H.
  unfold_run H. repeat next_case H.
  all: inversion H; subst; clear H.
  all: try match goal with
           | Hb : (_ =? _)%string = true |- _ => apply String.eqb_eq in Hb; rewrite <- ?Hb
           end.
  all: first [ exact (answer_unsupported new_chain_id)
             | econstructor
             | eapply (answer_error_switching new_chain_id (mkExc "" _)) ].
Qed.

(** C3, as the code has it: there is no bridge operation and no partial
    failure status.  The burn, the switch and the mint are separate tool
    calls, in the order the agent gives them, and each reports for itself.
    - A burn confirmed with transaction hash [tx_hash] returns its success
      message, with the name of the chain active when it is called and the
      explorer link [<explorer base URL of that chain>/tx/<tx_hash>].
    - A switch tool call with a chain id that returns gives one of the seven
      answers of [switch_network]: "Switched to ...", "Already on ...", or
      one of its five error strings.
    - A mint whose invocation fails with message [err] returns exactly
      ["Error: " + err], in whatever state it is called. *)
Theorem bridge_steps_report_separately (address : string) (amount : Z) :
  String.prefix "0x" address = true ->
  (forall s1 s2 tx_hash receipt cid cname url,
     invoke_contract_function (wallet_provider s1) "crosschainBurn"
         (Some [AStr address; AInt amount]) Decimal_0 s1
       = (Returned (ITx tx_hash receipt cid cname url), s2) ->
     exists info,
       dict_get (current_chain_id s1) SUPPORTED_CHAINS = Some info /\
       run_tool (ReqBurn address amount) s1 =
         (Returned ("Successfully burned " +:+ pretty amount +:+ " tokens from " +:+ address
                    +:+ " on " +:+ name info +:+ "." +:+ nl
                    +:+ "Transaction: " +:+ explorer_url info +:+ "/tx/" +:+ tx_hash),
          s2)) /\
  (forall destination_chain_id s2 s3 answer,
     destination_chain_id <> "" ->
     run_tool (ReqSwitchNetwork destination_chain_id) s2 = (Returned answer, s3) ->
     switch_answer destination_chain_id answer) /\
  (forall s3 s4 err,
     invoke_contract_function (wallet_provider s3) "crosschainMint"
         (Some [AStr address; AInt amount]) Decimal_0 s3
       = (Returned (IError err), s4) ->
     run_tool (ReqMint address amount) s3 = (Returned ("Error: " +:+ err), s4)).
Proof.
  intros Hpre. split; [|split].
  - intros s1 s2 tx_hash receipt cid cname url H.
    destruct (invoke_tx_inv _ _ _ _ _ _ _ _ _ _ _ H) as (info & Hinfo & -> & _).
    exists info. split; [done|].
    pose proof (invoke_keeps_session _ _ _ _ _ _ _ H) as Hs2.
    unfold session in Hs2. injection Hs2 as Hc2 _.
    unfold run_tool, parse_burn_args, crosschain_burn, get_chain_name.
    unfold bind, gets, ret. rewrite Hpre. cbn [negb]. by rewrite H, Hc2, Hinfo.
  - intros c s2 s3 answer Hc%String.eqb_neq H.
    unfold run_tool, parse_switch_network_args in H. rewrite Hc in H.
    unfold bind at 1 in H.
    destruct (switch_network c s2) as [[e|msg] s'] eqn:Hsw; [done|].
    apply switch_network_answers in Hsw.
    unfold_run H. repeat next_case H. all: by inversion H; subst.
  - intros s3 s4 err H.
    unfold run_tool, parse_mint_args, crosschain_mint.
    unfold bind, gets, ret. rewrite Hpre. cbn [negb]. by rewrite H.
Qed.

End Bridge.

(** ** Concrete runs *)

(** 0.01 ETH is 10^16 wei. *)
Example to_base_units_cent : to_base_units (DFin false 1 (-2)) = Returned (10 ^ 16).
Proof. reflexivity. Qed.

(** A coefficient longer than the 28 digits of the context is rounded by the
    multiplication before [int] truncates:
    1.99999999999999999999999999999999999999 gives 2 * 10^18. *)
Example to_base_units_long_coefficient :
  to_base_units (DFin false 199999999999999999999999999999999999999 (-38))
  = Returned (2 * 10 ^ 18).
Proof. vm_compute. reflexivity. Qed.

Example to_base_units_infinity :
  to_base_units (DInf false)
  = Raised (mkExc "OverflowError" "cannot convert Infinity to integer").
Proof. reflexivity. Qed.

Example to_base_units_not_positive :
  to_base_units (DFin true 5 (-1)) = Returned 0 /\ to_base_units Decimal_0 = Returned 0.
Proof. split; reflexivity. Qed.

(** A switch that goes through. *)
Example switch_network_switches :
  let s := snd (switch_network "11155420" (started healthy_backend 0%nat)) in
  fst (switch_network "11155420" (started healthy_backend 0%nat))
    = Returned "Switched to Optimism Sepolia (Chain ID: 11155420)" /\
  session s = ("11155420", Some (2%nat, "11155420")) /\
  wallet_providers_cache s !! "11155420" = Some (2%nat, "11155420").
Proof. vm_compute. repeat split. Qed.

(** A dead balance probe: the session stays on Base Sepolia; the provider
    built for the attempt stays in the cache. *)
Example switch_network_dead_probe :
  let s0 := started polygon_rpc_down 0%nat in
  let s1 := snd (switch_network "137" s0) in
  fst (switch_network "137" s0) = Returned "Error connecting to Polygon: rpc unreachable" /\
  session s1 = session s0 /\
  agentkit s1 = agentkit s0 /\
  wallet_providers_cache s1 !! "137" = Some (2%nat, "137").
Proof. vm_compute. repeat split. Qed.

(** C1, at an input where it fails: AgentKit cannot be rebuilt for the
    provider of the target chain.  [switch_network "137"] reports
    "Error switching to chain 137: ..." although it has already committed:
    the session has moved from Base Sepolia to Polygon and its provider,
    while [agentkit] is still the one built for the old provider. *)
Theorem switch_network_error_after_commit :
  let s0 := started polygon_kit_down 0%nat in
  let s1 := snd (switch_network "137" s0) in
  fst (switch_network "137" s0)
    = Returned "Error switching to chain 137: action provider unavailable" /\
  session s0 = ("84532", Some (0%nat, "84532")) /\
  session s1 = ("137", Some (2%nat, "137")) /\
  agentkit s1 = agentkit s0.
Proof. vm_compute. repeat split. Qed.

(** C3 fails on the code.  The burn is confirmed with transaction 0xtx2;
    then, in one world, the switch goes through and the mint is rejected,
    and in another the switch itself fails.  What is reported for the
    failing step is the plain "Error: execution reverted", the very string a
    mint that follows no burn returns, or the plain "Error connecting to
    ..." of [switch_network]; neither contains the hash of the burn or the
    word PartialBridgeFailure. *)
Lemma mint_failure_after_burn_is_plain_error :
  (let s0 := started mint_reverts 0%nat in
   let burn := run_tool (ReqBurn "0x1234" 50) s0 in
   let switch := run_tool (ReqSwitchNetwork "11155420") (snd burn) in
   let mint := run_tool (ReqMint "0x1234" 50) (snd switch) in
   fst burn = Returned ("Successfully burned 50 tokens from 0x1234 on Base Sepolia." +:+ nl
                        +:+ "Transaction: https://sepolia.basescan.org/tx/0xtx2") /\
   fst switch = Returned "Switched to Optimism Sepolia (Chain ID: 11155420)" /\
   fst mint = Returned "Error: execution reverted" /\
   contains "0xtx2" "Error: execution reverted" = false /\
   contains "PartialBridgeFailure" "Error: execution reverted" = false /\
   fst (run_tool (ReqMint "0x1234" 50)
          (snd (run_tool (ReqSwitchNetwork "11155420") s0)))
     = Returned "Error: execution reverted") /\
  (let s0 := started polygon_rpc_down 0%nat in
   let burn := run_tool (ReqBurn "0x1234" 50) s0 in
   let switch := run_tool (ReqSwitchNetwork "137") (snd burn) in
   fst burn = Returned ("Successfully burned 50 tokens from 0x1234 on Base Sepolia." +:+ nl
                        +:+ "Transaction: https://sepolia.basescan.org/tx/0xtx2") /\
   fst switch = Returned "Error connecting to Polygon: rpc unreachable" /\
   contains "0xtx2" "Error connecting to Polygon: rpc unreachable" = false /\
   contains "PartialBridgeFailure" "Error connecting to Polygon: rpc unreachable" = false).
Proof. vm_compute. repeat split. Qed.

(** C8 fails on the code for some positive values.  A coefficient of 39
    digits is rounded by the decimal context: 1.99...9 is submitted as
    2 * 10^18, not as the integer part 1999999999999999999 of its product
    with 10^18.  Positive infinity converts to no integer: the error dict is
    returned and nothing is submitted. *)
Lemma positive_value_rounded_or_refused :
  let s := started healthy_backend 0%nat in
  let p : @Provider healthy_backend := (0%nat, "84532") in
  let long := DFin false 199999999999999999999999999999999999999 (-38) in
  dec_gt_zero long = Returned true /\
  floor_scaled 199999999999999999999999999999999999999 (-38 + 18) = 1999999999999999999 /\
  trace_since s (snd (invoke_contract_function (Some p) "deposit" (Some []) long s))
    = [EvGetNetwork p;
       EvTransact p "0xEBE8Ca83dfFeaa2288a70B4f1e29EcD089d325E2" "deposit" []
                  2000000000000000000;
       EvWaitReceipt p "0xtx2"] /\
  dec_gt_zero (DInf false) = Returned true /\
  fst (invoke_contract_function (Some p) "deposit" (Some []) (DInf false) s)
    = Returned (IError "cannot convert Infinity to integer") /\
  trace_since s (snd (invoke_contract_function (Some p) "deposit" (Some []) (DInf false) s))
    = [EvGetNetwork p].
Proof. vm_compute. repeat split. Qed.

Lemma bridge_steps_report_separately_witness :
  let s1 := started mint_reverts 0%nat in
  let s2 := snd (run_tool (ReqBurn "0x1234" 50) s1) in
  let s3 := snd (run_tool (ReqSwitchNetwork "11155420") s2) in
  let s4 := snd (run_tool (ReqMint "0x1234" 50) s3) in
  (exists info,
     dict_get (current_chain_id s1) SUPPORTED_CHAINS = Some info /\
     run_tool (ReqBurn "0x1234" 50) s1 =
       (Returned ("Successfully burned " +:+ pretty 50 +:+ " tokens from " +:+ "0x1234"
                  +:+ " on " +:+ name info +:+ "." +:+ nl
                  +:+ "Transaction: " +:+ explorer_url info +:+ "/tx/" +:+ "0xtx2"),
        s2)) /\
  switch_answer "11155420" "Switched to Optimism Sepolia (Chain ID: 11155420)" /\
  run_tool (ReqMint "0x1234" 50) s3 = (Returned ("Error: " +:+ "execution reverted"), s4).
Proof.
  intros s1 s2 s3 s4.
  destruct (bridge_steps_report_separately (B := mint_reverts) "0x1234" 50 eq_refl)
    as (Hburn & Hswitch & Hmint).
  split; [|split].
  - apply (Hburn s1 s2 "0xtx2" "receipt of 0xtx2" "84532" "Base Sepolia"
             "https://sepolia.basescan.org/tx/0xtx2").
    vm_compute. reflexivity.
  - apply (Hswitch "11155420" s2 s3).
    + discriminate.
    + vm_compute. reflexivity.
  - apply (Hmint s3 s4 "execution reverted"). vm_compute. reflexivity.
Defined.

Lemma switch_network_unsupported_witness :
  let s := initial_state (B := healthy_backend) 0%nat in
  supported "99999" = false /\
  exists msg,
    switch_network "99999" s = (Returned msg, s) /\
    msg = "Error: Chain ID 99999 not supported. Must be one of: 84532, 11155111, 421614, 11155420, 8453, 1, 42161, 10, 80001, 137" /\
    contains "not supported" msg = true /\
    contains "84532" msg = true /\
    (forall k, supported k = true -> contains k msg = true).
Proof.
  intros s. split; [reflexivity|].
  apply (switch_network_unsupported "99999" s). reflexivity.
Defined.

Lemma switch_network_same_chain_witness :
  let s := started healthy_backend 0%nat in
  reachable s /\
  exists info,
    dict_get (current_chain_id s) SUPPORTED_CHAINS = Some info /\
    switch_network (current_chain_id s) s =
      (Returned ("Already on " +:+ name info +:+ " (Chain ID: " +:+ current_chain_id s +:+ ")"),
       s).
Proof.
  intros s.
  assert (Hs : reachable s) by apply reach_initialize, reach_import.
  split; [exact Hs|].
  apply (switch_network_same_chain (B := healthy_backend) s Hs).
Defined.

Lemma current_chain_id_always_supported_witness :
  let s := snd (run_tool (ReqSwitchNetwork "137") (started healthy_backend 0%nat)) in
  reachable s /\
  current_chain_id s = "137" /\
  supported (current_chain_id s) = true /\
  (exists a, get_contract_address s = (Returned a, s)) /\
  (exists n, get_chain_name s = (Returned n, s)) /\
  (exists u, get_explorer_url s = (Returned u, s)).
Proof.
  intros s.
  assert (Hs : reachable s) by apply reach_tool, reach_initialize, reach_import.
  split; [exact Hs|]. split; [reflexivity|].
  apply (current_chain_id_always_supported (B := healthy_backend) s Hs).
Defined.

Lemma get_cdp_idempotent_on_hit_witness :
  let s := initial_state (B := healthy_backend) 0%nat in
  let p := (0%nat, "84532") in
  let s1 := snd (get_cdp_wallet_provider_for_chain "84532" s) in
  wallet_providers_cache s !! "84532" = None /\
  get_cdp_wallet_provider_for_chain "84532" s = (Returned p, s1) /\
  wallet_providers_cache s1 !! "84532" = Some p /\
  get_cdp_wallet_provider_for_chain "84532" s1 = (Returned p, s1) /\
  exists s2,
    get_cdp_wallet_provider_for_chain "84532" s1 = (Returned p, s2) /\
    s2 = s1 /\
    exists t, trace s2 = trace s ++ t /\
              persistence_writes t = 1%nat /\ provider_constructions t = 1%nat /\
              builds_and_persists "84532" (world s) p (world s2) t.
Proof.
  intros s p s1.
  assert (Hmiss : wallet_providers_cache s !! "84532" = None) by reflexivity.
  assert (Hrun : get_cdp_wallet_provider_for_chain "84532" s = (Returned p, s1))
    by (vm_compute; reflexivity).
  assert (Hhit : wallet_providers_cache s1 !! "84532" = Some p)
    by (vm_compute; reflexivity).
  split; [exact Hmiss|]. split; [exact Hrun|]. split; [exact Hhit|].
  split.
  - exact (proj1 (get_cdp_idempotent_on_hit (B := healthy_backend) "84532" s1) p Hhit).
  - exact (proj2 (get_cdp_idempotent_on_hit (B := healthy_backend) "84532" s) p s1 Hmiss Hrun).
Defined.

Lemma chain_affinity_checked_first_witness :
  let s := started healthy_backend 0%nat in
  let stale : @Provider healthy_backend := (7%nat, "11155111") in
  current_chain_id s = "84532" /\
  fst (invoke_contract_function (Some stale) "crosschainMint"
         (Some [AStr "0xABC"; AInt 100]) Decimal_0 s)
    = Returned (IError "Chain mismatch: Wallet on chain 11155111, but global chain is 84532") /\
  fst (read_contract (Some stale) "balanceOf" (Some [AStr "0xABC"]) s)
    = Returned (RError "Chain mismatch: provider on chain 11155111, global chain is 84532") /\
  trace_since s (snd (invoke_contract_function (Some stale) "crosschainMint"
                        (Some [AStr "0xABC"; AInt 100]) Decimal_0 s))
    = [EvGetNetwork stale].
Proof.
  intros s stale.
  assert (Hnet : prov_get_network stale (world s)
                 = (Returned (mkNetwork "11155111" None), world s)) by reflexivity.
  assert (Hne : net_chain_id (mkNetwork "11155111" None) <> current_chain_id s)
    by (vm_compute; discriminate).
  split; [reflexivity|].
  destruct (chain_affinity_checked_first (B := healthy_backend) stale "crosschainMint"
              (Some [AStr "0xABC"; AInt 100]) Decimal_0 s _ _ Hnet Hne) as (Hw & _ & _).
  destruct (chain_affinity_checked_first (B := healthy_backend) stale "balanceOf"
              (Some [AStr "0xABC"]) Decimal_0 s _ _ Hnet Hne) as (_ & Hr & _).
  rewrite Hw, Hr. repeat split; vm_compute; reflexivity.
Defined.

Lemma invoke_never_raises_witness :
  (let s := started mint_reverts 0%nat in
   exists s', invoke_contract_function (wallet_provider s) "crosschainMint"
                (Some [AStr "0x1234"; AInt 50]) Decimal_0 s
              = (Returned (IError "execution reverted"), s')) /\
  (let s := started no_receipt 0%nat in
   exists s', invoke_contract_function (wallet_provider s) "crosschainMint"
                (Some [AStr "0x1234"; AInt 50]) Decimal_0 s
              = (Returned (IError "no receipt"), s')) /\
  (exists d s', invoke_contract_function None "withdraw" None Decimal_0
                  (initial_state (B := healthy_backend) 0%nat)
                = (Returned d, s')) /\
  (let s := started healthy_backend 0%nat in
   exists s', invoke_contract_function (wallet_provider s) "withdraw"
                (Some [AInt (10 ^ 4300)]) Decimal_0 s
              = (Returned (IError (exc_str int_str_exceeds)), s')).
Proof.
  split; [|split; [|split]].
  - intros s.
    apply (proj1 (proj2 (invoke_never_raises (B := mint_reverts) (wallet_provider s)
                           "crosschainMint" (Some [AStr "0x1234"; AInt 50]) Decimal_0 s))
             (0%nat, "84532") (mkNetwork "84532" None) (world s)
             (mkChain "Base Sepolia" "0xEBE8Ca83dfFeaa2288a70B4f1e29EcD089d325E2"
                      "https://sepolia.basescan.org")
             0 (mkExc "ContractLogicError" "execution reverted") (world s));
      reflexivity.
  - intros s.
    apply (proj1 (proj2 (proj2 (invoke_never_raises (B := no_receipt) (wallet_provider s)
                                  "crosschainMint" (Some [AStr "0x1234"; AInt 50])
                                  Decimal_0 s)))
             (0%nat, "84532") (mkNetwork "84532" None) (world s)
             (mkChain "Base Sepolia" "0xEBE8Ca83dfFeaa2288a70B4f1e29EcD089d325E2"
                      "https://sepolia.basescan.org")
             0 "0xtx2" (S (world s)) (mkExc "TimeoutError" "no receipt") (S (world s)));
      reflexivity.
  - apply (proj1 (invoke_never_raises None "withdraw" None Decimal_0
                    (initial_state (B := healthy_backend) 0%nat))).
  - intros s.
    apply (proj2 (proj2 (proj2 (invoke_never_raises (B := healthy_backend)
                                  (wallet_provider s) "withdraw"
                                  (Some [AInt (10 ^ 4300)]) Decimal_0 s)))
             (0%nat, "84532") (mkNetwork "84532" None) (world s)
             (mkChain "Base Sepolia" "0xEBE8Ca83dfFeaa2288a70B4f1e29EcD089d325E2"
                      "https://sepolia.basescan.org")
             int_str_exceeds);
      [reflexivity .. | apply format_args_long_int].
Defined.

Lemma invoke_submits_base_units_witness :
  let s := started healthy_backend 0%nat in
  let p : @Provider healthy_backend := (0%nat, "84532") in
  let address := "0xEBE8Ca83dfFeaa2288a70B4f1e29EcD089d325E2" in
  (* 1.99999999999999999999999999999999999999 ETH *)
  let c := 199999999999999999999999999999999999999%N in
  (exists q r s' rest,
     rounds_half_even (c * 10 ^ 18) 29 q /\
     invoke_contract_function (Some p) "deposit" (Some []) (DFin false c (-38)) s = (r, s') /\
     trace s' = trace s ++ [EvGetNetwork p;
                            EvTransact p address "deposit" []
                                       (floor_scaled q (-38 + Z.of_N 29))] ++ rest) /\
  (* 0.01 ETH *)
  (exists r s' rest,
     invoke_contract_function (Some p) "deposit" (Some []) (DFin false 1 (-2)) s = (r, s') /\
     trace s' = trace s ++ [EvGetNetwork p;
                            EvTransact p address "deposit" []
                                       (floor_scaled 1 (-2 + 18))] ++ rest) /\
  floor_scaled 1 (-2 + 18) = 10000000000000000.
Proof.
  intros s p address c.
  assert (Hlong := invoke_submits_base_units (B := healthy_backend) p "deposit" (Some []) s
            (mkNetwork "84532" None) (world s)
            (mkChain "Base Sepolia" "0xEBE8Ca83dfFeaa2288a70B4f1e29EcD089d325E2"
                     "https://sepolia.basescan.org")
            c (-38) eq_refl eq_refl eq_refl eq_refl eq_refl).
  assert (Hcent := invoke_submits_base_units (B := healthy_backend) p "deposit" (Some []) s
            (mkNetwork "84532" None) (world s)
            (mkChain "Base Sepolia" "0xEBE8Ca83dfFeaa2288a70B4f1e29EcD089d325E2"
                     "https://sepolia.basescan.org")
            1%N (-2) eq_refl eq_refl eq_refl eq_refl eq_refl).
  cbv zeta in Hlong, Hcent.
  split; [|split; [|reflexivity]].
  - apply Hlong; vm_compute; first [reflexivity | discriminate].
  - apply Hcent; vm_compute; first [reflexivity | discriminate].
Defined.


(** * Further properties of the code *)

(** ** The invocation layer *)

Lemma prefix_self_app (n t : string) : String.prefix n (n +:+ t) = true.
Proof.
  induction n as [|a n IH]; [by destruct t|].
  rewrite app_cons. simpl. destruct (Ascii.ascii_dec a a); [apply IH | done].
Qed.

Section InvocationLayer.
Context {B : Backend}.

#[global] Instance same_globals_frame : Frame same_globals.
Proof.
  split; unfold same_globals, globals; simpl; auto.
  intros s1 s2 s3 H1 H2. by rewrite H2.
Qed.

(** X1: none of the functions of the invocation layer assigns a global:
    after [invoke_contract_function], [read_contract], [crosschain_mint],
    [crosschain_burn], [get_balance_of], [deposit_native_eth] and
    [withdraw_tokens], whether they return or raise, [wallet_provider],
    [current_chain_id], [wallet_providers_cache] and [agentkit] are what they
    were. *)
Theorem invocation_keeps_globals
    (provider : option Provider) (function_name address : string)
    (args : option (list Arg)) (value : Decimal) (amount : Z) (eth_amount : PyFloat)
    (s : State) :
  globals (snd (invoke_contract_function provider function_name args value s)) = globals s /\
  globals (snd (read_contract provider function_name args s)) = globals s /\
  globals (snd (crosschain_mint provider address amount s)) = globals s /\
  globals (snd (crosschain_burn provider address amount s)) = globals s /\
  globals (snd (get_balance_of provider address s)) = globals s /\
  globals (snd (deposit_native_eth provider eth_amount s)) = globals s /\
  globals (snd (withdraw_tokens provider amount s)) = globals s.
Proof.
  repeat split.
  - apply (preserves_invoke same_globals).
  - apply (preserves_read_contract same_globals).
  - apply (preserves_crosschain_mint same_globals).
  - apply (preserves_crosschain_burn same_globals).
  - apply (preserves_get_balance_of same_globals).
  - apply (preserves_deposit_native_eth same_globals).
  - apply (preserves_withdraw_tokens same_globals).
Qed.

Lemma invoke_returns provider fn args value (s : State) :
  exists d s', invoke_contract_function provider fn args value s = (Returned d, s').
Proof.
  unfold invoke_contract_function, try_except.
  match goal with
  | |- context [match ?body s with _ => _ end] => destruct (body s) as [[e|d] s1]
  end; unfold ret; eauto.
Qed.

Lemma read_returns provider fn args (s : State) :
  exists d s', read_contract provider fn args s = (Returned d, s').
Proof.
  unfold read_contract, try_except.
  match goal with
  | |- context [match ?body s with _ => _ end] => destruct (body s) as [[e|d] s1]
  end; unfold ret; eauto.
Qed.

Lemma read_value_inv provider fn args (s s' : State) (v : Value) (cid cname : string) :
  read_contract provider fn args s = (Returned (RValue v cid cname), s') ->
  exists info,
    dict_get (current_chain_id s) SUPPORTED_CHAINS = Some info /\
    cid = current_chain_id s /\ cname = name info.
Proof.
  intros H. unfold read_contract, get_contract_address, get_chain_name in H.
  destruct provider as [p|]; [|by unfold_run H].
  unfold_run H.
  destruct (dict_get (current_chain_id s) SUPPORTED_CHAINS) as [info|] eqn:Hinfo.
  - exists info. repeat (first [rewrite Hinfo in H; simp_run H | next_case H]).
    all: by inversion H; subst.
  - repeat (first [rewrite Hinfo in H; simp_run H | next_case H]).
    all: discriminate H.
Qed.

Lemma read_keeps_session provider fn args (s s' : State) (r : outcome ReadResult) :
  read_contract provider fn args s = (r, s') -> session s' = session s.
Proof.
  intros H. pose proof (preserves_read_contract same_session provider fn args s) as Hp.
  by rewrite H in Hp.
Qed.

(** The chain name after a confirmed call is the one in its result. *)
Lemma chain_name_after (s s' : State) (info : ChainInfo) :
  session s' = session s ->
  dict_get (current_chain_id s) SUPPORTED_CHAINS = Some info ->
  get_chain_name s' = (Returned (name info), s').
Proof.
  intros Hs Hinfo. unfold session in Hs. injection Hs as Hc _.
  unfold get_chain_name, bind, gets. by rewrite Hc, Hinfo.
Qed.

Ltac write_tool_report Hd :=
  match type of Hd with
  | invoke_contract_function _ _ _ _ ?s = (Returned ?d, ?s') =>
      unfold bind; rewrite Hd; destruct d as [err|h rc cid cname url]; [reflexivity|];
      destruct (invoke_tx_inv _ _ _ _ _ _ _ _ _ _ _ Hd) as (info & Hinfo & _ & _ & ->);
      rewrite (chain_name_after s s' info (invoke_keeps_session _ _ _ _ _ _ _ Hd) Hinfo);
      reflexivity
  end.

(** X2: the four write operations never raise, in any state and whatever
    the world does: each returns "Error: " followed by the error of the
    invocation, or its success message with the chain name and the explorer
    link of the confirmed transaction. *)
Theorem write_tools_always_report
    (provider : option Provider) (address : string) (amount : Z) (eth_amount : PyFloat)
    (s : State) :
  (exists d s',
     invoke_contract_function provider "crosschainMint"
       (Some [AStr address; AInt amount]) Decimal_0 s = (Returned d, s') /\
     crosschain_mint provider address amount s =
       (Returned match d with
                 | IError err => "Error: " +:+ err
                 | ITx _ _ _ cname url =>
                     "Successfully minted " +:+ pretty amount +:+ " tokens to " +:+ address
                     +:+ " on " +:+ cname +:+ "." +:+ nl +:+ "Transaction: " +:+ url
                 end, s')) /\
  (exists d s',
     invoke_contract_function provider "crosschainBurn"
       (Some [AStr address; AInt amount]) Decimal_0 s = (Returned d, s') /\
     crosschain_burn provider address amount s =
       (Returned match d with
                 | IError err => "Error: " +:+ err
                 | ITx _ _ _ cname url =>
                     "Successfully burned " +:+ pretty amount +:+ " tokens from " +:+ address
                     +:+ " on " +:+ cname +:+ "." +:+ nl +:+ "Transaction: " +:+ url
                 end, s')) /\
  (exists d s',
     invoke_contract_function provider "deposit" (Some []) (float_decimal eth_amount) s
       = (Returned d, s') /\
     deposit_native_eth provider eth_amount s =
       (Returned match d with
                 | IError err => "Error: " +:+ err
                 | ITx _ _ _ cname url =>
                     "Successfully deposited " +:+ float_str eth_amount +:+ " ETH on "
                     +:+ cname +:+ "." +:+ nl +:+ "Transaction: " +:+ url
                 end, s')) /\
  (exists d s',
     invoke_contract_function provider "withdraw" (Some [AInt amount]) Decimal_0 s
       = (Returned d, s') /\
     withdraw_tokens provider amount s =
       (Returned match d with
                 | IError err => "Error: " +:+ err
                 | ITx _ _ _ cname url =>
                     "Successfully withdrew " +:+ pretty amount +:+ " tokens on "
                     +:+ cname +:+ "." +:+ nl +:+ "Transaction: " +:+ url
                 end, s')).
Proof.
  repeat split.
  - destruct (invoke_returns provider "crosschainMint" (Some [AStr address; AInt amount])
                Decimal_0 s) as (d & s' & Hd).
    exists d, s'. split; [done|]. unfold crosschain_mint. write_tool_report Hd.
  - destruct (invoke_returns provider "crosschainBurn" (Some [AStr address; AInt amount])
                Decimal_0 s) as (d & s' & Hd).
    exists d, s'. split; [done|]. unfold crosschain_burn. write_tool_report Hd.
  - destruct (invoke_returns provider "deposit" (Some []) (float_decimal eth_amount) s)
      as (d & s' & Hd).
    exists d, s'. split; [done|]. unfold deposit_native_eth. write_tool_report Hd.
  - destruct (invoke_returns provider "withdraw" (Some [AInt amount]) Decimal_0 s)
      as (d & s' & Hd).
    exists d, s'. split; [done|]. unfold withdraw_tokens. write_tool_report Hd.
Qed.

(** X3: [read_contract] always returns a dict, whatever the provider (even
    [None]) and the world do; an exception raised by the provider's
    [read_contract], which is called once the arguments have been printed,
    becomes [{"error": str(e)}]; and [get_balance_of] never
    raises either: it returns "Error: " and that error, or the balance line
    with the chain name of the result. *)
Theorem read_path_never_raises
    (provider : option Provider) (function_name address : string)
    (args : option (list Arg)) (s : State) :
  (exists d s', read_contract provider function_name args s = (Returned d, s')) /\
  (forall p net w1 info e w2,
     provider = Some p ->
     prov_get_network p (world s) = (Returned net, w1) ->
     net_chain_id net = current_chain_id s ->
     dict_get (current_chain_id s) SUPPORTED_CHAINS = Some info ->
     format_args (default [] args) = Returned tt ->
     prov_read_contract p (contract_address info) function_name (default [] args) w1
       = (Raised e, w2) ->
     exists s', read_contract provider function_name args s
                = (Returned (RError (exc_str e)), s')) /\
  (exists d s',
     read_contract provider "balanceOf" (Some [AStr address]) s = (Returned d, s') /\
     get_balance_of provider address s =
       (Returned match d with
                 | RError err => "Error: " +:+ err
                 | RValue v _ cname =>
                     "Balance of " +:+ address +:+ " on " +:+ cname +:+ ": "
                     +:+ value_str v +:+ " tokens"
                 end, s')).
Proof.
  split; [apply read_returns|]. split.
  - intros p net w1 info e w2 -> Hnet Hcur%String.eqb_eq Hinfo Hfmt Hread.
    destruct (read_contract (Some p) function_name args s) as [r s'] eqn:H.
    unfold read_contract, get_contract_address in H. unfold_run H.
    rewrite Hnet in H; simp_run H. rewrite Hcur in H; simp_run H.
    rewrite Hinfo in H; simp_run H. rewrite Hfmt in H; simp_run H.
    rewrite Hread in H; simp_run H.
    inversion H; subst. eauto.
  - destruct (read_returns provider "balanceOf" (Some [AStr address]) s) as (d & s' & Hd).
    exists d, s'. split; [done|]. unfold get_balance_of, bind. rewrite Hd.
    destruct d as [err|v cid cname]; [reflexivity|].
    destruct (read_value_inv _ _ _ _ _ _ _ _ Hd) as (info & Hinfo & _ & ->).
    rewrite (chain_name_after s s' info (read_keeps_session _ _ _ _ _ _ Hd) Hinfo).
    reflexivity.
Qed.

End InvocationLayer.

(** ** Values at the edges of the conversion to base units *)

Lemma to_base_units_below_one_wei (v : Decimal) :
  below_one_wei v -> to_base_units v = Returned 0.
Proof.
  intros [H|(c & e & -> & Hc & Hd & He & Hneg & Hlt)].
  - unfold to_base_units. by rewrite H.
  - rewrite to_base_units_exact; [|done|done|done|unfold Etop, Emax, prec in *; lia].
    unfold floor_scaled. destruct (Z.leb_spec 0 (e + 18)); [lia|].
    f_equal. apply Z.div_small. lia.
Qed.

(** The conversion gives no negative amount. *)
Lemma dec_fix_sign (neg : bool) (c : N) (e : Z) (d : Decimal) :
  dec_fix neg c e = Returned d -> exists q x, d = DFin neg q x.
Proof.
  unfold dec_fix. intros H.
  repeat match type of H with
         | context [if ?b then _ else _] => destruct b
         end; inversion H; eauto.
Qed.

Section EdgeValues.
Context {B : Backend}.

(** X4: [deposit_native_eth] does not reject an amount that is zero,
    negative or below one wei: with the provider on the active chain it
    submits the [deposit] transaction all the same, with value 0. *)
Theorem deposit_below_one_wei_submits_zero
    (p : Provider) (eth_amount : PyFloat) (s : State)
    (net : Network) (w1 : World) (info : ChainInfo) :
  prov_get_network p (world s) = (Returned net, w1) ->
  net_chain_id net = current_chain_id s ->
  dict_get (current_chain_id s) SUPPORTED_CHAINS = Some info ->
  below_one_wei (float_decimal eth_amount) ->
  exists r s' rest,
    deposit_native_eth (Some p) eth_amount s = (r, s') /\
    trace s' = trace s ++ [EvGetNetwork p;
                           EvTransact p (contract_address info) "deposit" [] 0] ++ rest.
Proof.
  intros Hnet Hcur Hinfo Hv%to_base_units_below_one_wei.
  destruct (invoke_submits p "deposit" (Some []) _ s net w1 info 0 Hnet Hcur Hinfo eq_refl Hv)
    as (r & s' & rest & Hrun & Htr).
  pose proof (preserves_deposit_native_eth same_globals (Some p) eth_amount s) as Hg.
  destruct (deposit_native_eth (Some p) eth_amount s) as [r2 s2] eqn:Hdep.
  exists r2, s2, rest. split; [done|].
  unfold deposit_native_eth, bind in Hdep. rewrite Hrun in Hdep.
  destruct r as [e|[err|h rc cid cn url]].
  - inversion Hdep; subst. exact Htr.
  - inversion Hdep; subst. exact Htr.
  - unfold get_chain_name, bind, gets in Hdep.
    destruct (dict_get (current_chain_id s') SUPPORTED_CHAINS);
      inversion Hdep; subst; exact Htr.
Qed.

(** X5: a value that cannot be converted to base units (NaN, an infinity, a
    product beyond Emax) is rejected before anything is submitted: once the
    arguments have been printed, the result is [{"error": str(e)}] of the
    conversion's exception and the only call made is [get_network]. *)
Theorem invoke_rejects_unconvertible
    (p : Provider) (function_name : string) (args : option (list Arg)) (value : Decimal)
    (s : State) (net : Network) (w1 : World) (info : ChainInfo) (e : PyExc) :
  prov_get_network p (world s) = (Returned net, w1) ->
  net_chain_id net = current_chain_id s ->
  dict_get (current_chain_id s) SUPPORTED_CHAINS = Some info ->
  format_args (default [] args) = Returned tt ->
  to_base_units value = Raised e ->
  invoke_contract_function (Some p) function_name args value s =
    (Returned (IError (exc_str e)),
     mkState (wallet_provider s) (current_chain_id s) (wallet_providers_cache s)
             (agentkit s) w1 (trace s ++ [EvGetNetwork p])) /\
  (forall sg, to_base_units (DNaN sg) = Raised InvalidOperation) /\
  to_base_units (DInf false)
    = Raised (mkExc "OverflowError" "cannot convert Infinity to integer") /\
  to_base_units (DFin false 1 Emax) = Raised Overflow.
Proof.
  intros Hnet Hcur Hinfo Hfmt Hamt. split; [|by repeat split].
  apply (invoke_fails_before_submission p function_name args value s net w1 info e
           Hnet Hcur Hinfo).
  right. by split.
Qed.

(** X25: the DEBUG print of [invoke_contract_function] and of
    [read_contract] is inside the [try]: when formatting the arguments
    raises, as the [repr] of an int of more than 4300 digits does, the
    result is [{"error": str(e)}], only [get_network] has been called, and
    nothing is submitted or read. *)
Theorem invocation_rejects_unprintable_args
    (p : Provider) (function_name : string) (args : option (list Arg)) (value : Decimal)
    (s : State) (net : Network) (w1 : World) (info : ChainInfo) (e : PyExc) :
  prov_get_network p (world s) = (Returned net, w1) ->
  net_chain_id net = current_chain_id s ->
  dict_get (current_chain_id s) SUPPORTED_CHAINS = Some info ->
  format_args (default [] args) = Raised e ->
  let s' := mkState (wallet_provider s) (current_chain_id s) (wallet_providers_cache s)
                    (agentkit s) w1 (trace s ++ [EvGetNetwork p]) in
  invoke_contract_function (Some p) function_name args value s
    = (Returned (IError (exc_str e)), s') /\
  read_contract (Some p) function_name args s = (Returned (RError (exc_str e)), s') /\
  (forall l, format_args (AInt (10 ^ 4300) :: l) = Raised int_str_exceeds) /\
  (forall l, format_args l = Returned tt -> forall a,
     format_args (AStr a :: l) = Returned tt).
Proof.
  intros Hnet Hcur Hinfo Hfmt s'. split; [|split; [|split]].
  - apply (invoke_fails_before_submission p function_name args value s net w1 info e
             Hnet Hcur Hinfo). by left.
  - apply String.eqb_eq in Hcur.
    destruct (read_contract (Some p) function_name args s) as [r s1] eqn:H.
    unfold read_contract, get_contract_address in H. unfold_run H.
    rewrite Hnet in H; simp_run H. rewrite Hcur in H; simp_run H.
    rewrite Hinfo in H; simp_run H. rewrite Hfmt in H; simp_run H.
    by inversion H.
  - apply format_args_long_int.
  - intros l Hl a. unfold format_args in *. cbn [forallb arg_formats andb]. exact Hl.
Qed.

(** X6: the amount submitted is never negative. *)
Theorem to_base_units_nonnegative (value : Decimal) (amount : Z) :
  to_base_units value = Returned amount -> 0 <= amount.
Proof.
  unfold to_base_units. destruct (dec_gt_zero value) as [e|[|]] eqn:Hpos; [done| |].
  - destruct (dec_mul value (dec_of_int (10 ^ 18))) as [e|d] eqn:Hmul; [done|].
    intros Hint.
    assert (Hd : exists q x, d = DFin false q x \/ d = DInf false \/ exists b, d = DNaN b).
    { destruct value as [neg c e|neg|sg]; simpl in Hpos; [| |done].
      - destruct neg; [done|]. unfold dec_mul, dec_of_int in Hmul.
        change (10 ^ 18 <? 0) with false in Hmul. cbn [xorb] in Hmul.
        apply dec_fix_sign in Hmul as (q & x & ->). eauto.
      - destruct neg; [done|]. exists 0%N, 0. right. left.
        unfold dec_mul, dec_of_int in Hmul. simpl in Hmul. by inversion Hmul. }
    destruct Hd as (q & x & [->|[->|[b ->]]]); [|done|done].
    rewrite dec_int_fin in Hint. inversion Hint; subst.
    unfold floor_scaled. destruct (Z.leb_spec 0 x).
    + pose proof (Z.pow_nonneg 10 x). nia.
    + apply Z.div_pos; [lia|]. apply Z.pow_pos_nonneg; lia.
  - intros H. inversion H. lia.
Qed.

End EdgeValues.

(** ** The tools at the edges of the session *)

Section ToolEdges.
Context {B : Backend}.

(** X7: while [wallet_provider] is [None] (before [initialize_agent]), the
    write tools and the balance tool return an error string naming the
    missing attribute and leave the state as it is, with no call to the
    world; [parse_get_current_network] and the listing of
    [parse_switch_network_args] are not guarded and raise AttributeError. *)
Theorem tools_without_provider (s : State) (address : string) (amount : Z) (x : PyFloat) :
  wallet_provider s = None ->
  String.prefix "0x" address = true ->
  let no_network := "Error: 'NoneType' object has no attribute 'get_network'" in
  parse_mint_args address amount s = (Returned no_network, s) /\
  parse_burn_args address amount s = (Returned no_network, s) /\
  parse_deposit_eth_args x s = (Returned no_network, s) /\
  parse_withdraw_args amount s = (Returned no_network, s) /\
  parse_balance_of_args address s =
    (Returned "Error reading balance: 'NoneType' object has no attribute 'get_balance'", s) /\
  parse_get_current_network s = (Raised (none_has_no "get_network"), s) /\
  parse_switch_network_args "" s = (Raised (none_has_no "get_network"), s).
Proof.
  intros Hwp Hpre no_network.
  unfold parse_mint_args, parse_burn_args, parse_deposit_eth_args, parse_withdraw_args,
    parse_balance_of_args, parse_get_current_network, parse_switch_network_args,
    global_get_network, crosschain_mint, crosschain_burn, deposit_native_eth,
    withdraw_tokens, invoke_contract_function.
  rewrite Hpre. cbn [negb String.eqb].
  unfold bind, try_except, gets, raise, ret. rewrite Hwp. repeat split.
Qed.

(** X8: [parse_balance_of_args] reads the native balance through the
    provider before any chain-affinity check.  With a provider on another
    chain than the active one it still calls [get_balance], labels that
    balance with the name of the active chain, and only the token balance
    below it is refused with the chain mismatch. *)
Theorem balance_of_reads_native_balance_unchecked
    (s : State) (p : Provider) (address : string)
    (bal : Balance) (w1 : World) (net : Network) (w2 : World) (info : ChainInfo) :
  String.prefix "0x" address = true ->
  wallet_provider s = Some p ->
  dict_get (current_chain_id s) SUPPORTED_CHAINS = Some info ->
  prov_get_balance p (world s) = (Returned bal, w1) ->
  prov_get_network p w1 = (Returned net, w2) ->
  net_chain_id net <> current_chain_id s ->
  parse_balance_of_args address s =
    (Returned ("My wallet native balance on " +:+ name info +:+ ": "
               +:+ balance_str bal +:+ " wei" +:+ nl
               +:+ "Error: Chain mismatch: provider on chain " +:+ net_chain_id net
               +:+ ", global chain is " +:+ current_chain_id s),
     mkState (wallet_provider s) (current_chain_id s) (wallet_providers_cache s)
             (agentkit s) w2 (trace s ++ [EvGetBalance p; EvGetNetwork p])).
Proof.
  intros Hpre Hwp Hinfo Hbal Hnet Hne%String.eqb_neq.
  destruct (parse_balance_of_args address s) as [r s'] eqn:H.
  unfold parse_balance_of_args, get_balance_of, read_contract, get_chain_name in H.
  rewrite Hpre in H. cbn [negb] in H. unfold_run H.
  rewrite Hwp in H; simp_run H. rewrite Hbal in H; simp_run H.
  rewrite Hinfo in H; simp_run H. rewrite Hwp in H; simp_run H.
  rewrite Hnet in H; simp_run H. rewrite Hne in H; simp_run H.
  rewrite <- H, Hwp, <- (assoc_L (++)). reflexivity.
Qed.

End ToolEdges.

(** ** More on the switch *)

Section SwitchOutcomes.
Context {B : Backend}.

(** X9: [switch_network] never raises, in any state and for any input: it
    always returns a string. *)
Theorem switch_network_never_raises (new_chain_id : string) (s : State) :
  exists msg s', switch_network new_chain_id s = (Returned msg, s').
Proof.
  unfold switch_network.
  destruct (supported new_chain_id) eqn:Hsup; cbn [negb]; [|unfold ret; eauto].
  unfold bind at 1, gets at 1.
  destruct (String.eqb_spec new_chain_id (current_chain_id s)) as [->|Hne].
  - destruct (proj1 (supported_lookup _) Hsup) as [info Hinfo].
    unfold get_chain_name, bind, gets, ret. rewrite Hinfo. eauto.
  - unfold try_except.
    match goal with
    | |- context [match ?body s with _ => _ end] => destruct (body s) as [[e|d] s1]
    end; unfold ret; eauto.
Qed.

Ltac switch_cases H :=
  unfold switch_network, get_cdp_wallet_provider_for_chain, get_chain_name, chains_item in H;
  unfold_run H; repeat next_case H;
  try match goal with
      | Hhit : delete ?k _ !! ?k = Some _ |- _ =>
          rewrite lookup_delete_eq in Hhit; discriminate Hhit
      end.

(** X10: when [switch_network] answers "Switched to ...", the active chain
    is the target, [wallet_provider] is the provider constructed during this
    very call (a cached one is never reused): the constructor has returned
    it for the target, its exported wallet has been written to the snapshot
    file, it has then reported the target chain and answered the balance
    probe, AgentKit has been built for it and is what [agentkit] holds, and
    it has answered the final [get_network]; these are all the calls made.
    The provider is the cache entry of the target. *)
Theorem switch_network_success (new_chain_id : string) (s s' : State) (msg : string) :
  switch_network new_chain_id s = (Returned msg, s') ->
  String.prefix "Switched to " msg = true ->
  exists p k info,
    dict_get new_chain_id SUPPORTED_CHAINS = Some info /\
    msg = "Switched to " +:+ name info +:+ " (Chain ID: " +:+ new_chain_id +:+ ")" /\
    session s' = (new_chain_id, Some p) /\
    wallet_providers_cache s' = <[new_chain_id := p]> (wallet_providers_cache s) /\
    agentkit s' = Some k /\
    provider_constructions (trace_since s s') = 1%nat /\
    persistence_writes (trace_since s s') = 1%nat /\
    exists t w1 net w2 balance w3 w4 net',
      builds_and_persists new_chain_id (world s) p w1 t /\
      prov_get_network p w1 = (Returned net, w2) /\
      net_chain_id net = new_chain_id /\
      prov_get_balance p w2 = (Returned balance, w3) /\
      new_agentkit p w3 = (Returned k, w4) /\
      prov_get_network p w4 = (Returned net', world s') /\
      trace_since s s' = t ++ [EvGetNetwork p; EvGetBalance p; EvNewAgentKit p;
                               EvGetNetwork p].
Proof.
  intros H Hpre. switch_cases H.
  all: inversion H; subst; clear H.
  all: try (lazy in Hpre; discriminate Hpre).
  all: repeat match goal with u : () |- _ => destruct u end.
  all: match goal with
       | Hb : negb (_ =? _)%string = false |- _ =>
           apply negb_false_iff, String.eqb_eq in Hb
       end.
  all: eexists _, _, _; split; [reflexivity|]; split; [reflexivity|].
  all: unfold session, trace_since; cbn [current_chain_id wallet_provider
         wallet_providers_cache agentkit trace world].
  all: rewrite insert_delete_eq, <- ?(assoc_L (++)), drop_app_length.
  all: do 5 (split; [reflexivity|]).
  all: do 8 eexists; split;
    [ do 10 eexists; split; [eassumption|]; cbn beta iota; eauto 12
    | repeat (split; [eassumption|]); reflexivity ].
Qed.

(** X11: a provider that fails the validation of [switch_network] (it
    reports another chain, or its balance probe raises) leaves the session
    and [agentkit] as they were, but stays in the cache under the target id:
    [get_cdp_wallet_provider_for_chain] then returns it without any check. *)
Theorem switch_network_rejected_provider_stays_cached
    (new_chain_id : string) (s s' : State) (msg : string) :
  switch_network new_chain_id s = (Returned msg, s') ->
  String.prefix "Error: Provider chain mismatch" msg = true \/
  String.prefix "Error connecting to " msg = true ->
  exists p,
    wallet_providers_cache s' = <[new_chain_id := p]> (wallet_providers_cache s) /\
    session s' = session s /\
    agentkit s' = agentkit s /\
    get_cdp_wallet_provider_for_chain new_chain_id s' = (Returned p, s').
Proof.
  intros H Hpre. switch_cases H.
  all: inversion H; subst; clear H.
  all: try (destruct Hpre as [Hpre|Hpre]; lazy in Hpre; discriminate Hpre).
  all: eexists; split; [apply insert_delete_eq|]; split; [reflexivity|];
    split; [reflexivity|].
  all: apply get_cdp_hit; cbn [wallet_providers_cache]; apply lookup_insert_eq.
Qed.

Lemma switch_network_cache_other (new_chain_id k : string) (s : State) :
  k <> new_chain_id ->
  wallet_providers_cache (snd (switch_network new_chain_id s)) !! k
  = wallet_providers_cache s !! k.
Proof.
  intros Hk. destruct (switch_network new_chain_id s) as [r s'] eqn:H.
  cbn [snd]. switch_cases H.
  all: inversion H; subst; clear H; cbn [wallet_providers_cache].
  all: rewrite ?lookup_insert_ne, ?lookup_delete_ne by done; reflexivity.
Qed.

(** X12: [switch_network] touches no cache entry but the target's, and
    none at all when the target is unsupported or already active. *)
Theorem switch_network_cache_frame (new_chain_id k : string) (s : State) :
  (k <> new_chain_id ->
   wallet_providers_cache (snd (switch_network new_chain_id s)) !! k
   = wallet_providers_cache s !! k) /\
  (supported new_chain_id = false \/ new_chain_id = current_chain_id s ->
   wallet_providers_cache (snd (switch_network new_chain_id s))
   = wallet_providers_cache s).
Proof.
  split; [apply switch_network_cache_other|].
  intros Hcase. destruct (switch_network new_chain_id s) as [r s'] eqn:H.
  cbn [snd]. unfold switch_network, get_chain_name in H.
  destruct (supported new_chain_id) eqn:Hsup; cbn [negb] in H.
  - destruct Hcase as [?| ->]; [done|]. unfold_run H.
    rewrite String.eqb_refl in H. repeat next_case H; by inversion H.
  - by inversion H.
Qed.

(** X23: [switch_network] assigns [current_chain_id] and [wallet_provider]
    together or not at all.  Either the session and [agentkit] are what they
    were, or the session is the target chain with the provider cached under
    it, and the answer is "Switched to ..." or "Error switching to chain
    ...": the same error text that is given when nothing has changed. *)
Theorem switch_network_commits_both_or_neither
    (new_chain_id : string) (s s' : State) (msg : string) :
  switch_network new_chain_id s = (Returned msg, s') ->
  (session s' = session s /\ agentkit s' = agentkit s) \/
  exists p,
    session s' = (new_chain_id, Some p) /\
    wallet_providers_cache s' !! new_chain_id = Some p /\
    (String.prefix "Switched to " msg = true \/
     String.prefix "Error switching to chain " msg = true).
Proof.
  intros H. switch_cases H.
  all: inversion H; subst; clear H.
  all: unfold session; cbn [current_chain_id wallet_provider wallet_providers_cache agentkit].
  all: try (left; split; reflexivity).
  all: right; eexists; split; [reflexivity|]; split; [apply lookup_insert_eq|].
  all: first [left; apply prefix_self_app | right; apply prefix_self_app].
Qed.

End SwitchOutcomes.

(** ** More on the provider cache *)

Section CacheEdges.
Context {B : Backend}.

(** X13: [get_cdp_wallet_provider_for_chain] stores the new provider in the
    cache before it persists the wallet.  When [export_wallet] raises, the
    call raises, the snapshot file has not been opened or written, and the
    provider is cached all the same: the next call returns it as a hit,
    with no call to the world, so without persisting it. *)
Theorem get_cdp_caches_before_persisting
    (chain_id : string) (s : State) (ex : bool) (w0 w1 w2 w3 w4 : World)
    (wallet_data : option string) (p : Provider) (net : Network) (e : PyExc) :
  wallet_providers_cache s !! chain_id = None ->
  path_exists (world s) = (ex, w0) ->
  (if ex then exists d, file_read w0 = (Returned d, w1) /\ wallet_data = Some d
   else w1 = w0 /\ wallet_data = None) ->
  new_provider wallet_data (Some chain_id) w1 = (Returned p, w2) ->
  prov_get_network p w2 = (Returned net, w3) ->
  prov_export_wallet p w3 = (Raised e, w4) ->
  exists s',
    get_cdp_wallet_provider_for_chain chain_id s = (Raised e, s') /\
    wallet_providers_cache s' = <[chain_id := p]> (wallet_providers_cache s) /\
    persistence_writes (trace_since s s') = 0%nat /\
    ~ In EvFileOpenW (trace_since s s') /\
    get_cdp_wallet_provider_for_chain chain_id s' = (Returned p, s').
Proof.
  intros Hmiss Hex Hload Hnew Hnet Hexp.
  destruct (get_cdp_wallet_provider_for_chain chain_id s) as [r s'] eqn:H.
  unfold get_cdp_wallet_provider_for_chain in H. unfold_run H.
  rewrite Hmiss in H. rewrite Hex in H; simp_run H.
  destruct ex; simp_run H.
  - destruct Hload as (d & Hread & ->). rewrite Hread in H; simp_run H.
    rewrite Hnew in H; simp_run H. rewrite Hnet in H; simp_run H.
    rewrite Hexp in H; simp_run H. inversion H; subst; clear H.
    eexists. split; [reflexivity|]. split; [reflexivity|].
    unfold trace_since; cbn [trace wallet_providers_cache].
    rewrite <- !(assoc_L (++)), drop_app_length.
    split; [reflexivity|]. split; [simpl; intuition discriminate|].
    apply get_cdp_hit. apply lookup_insert_eq.
  - destruct Hload as (-> & ->).
    rewrite Hnew in H; simp_run H. rewrite Hnet in H; simp_run H.
    rewrite Hexp in H; simp_run H. inversion H; subst; clear H.
    eexists. split; [reflexivity|]. split; [reflexivity|].
    unfold trace_since; cbn [trace wallet_providers_cache].
    rewrite <- !(assoc_L (++)), drop_app_length.
    split; [reflexivity|]. split; [simpl; intuition discriminate|].
    apply get_cdp_hit. apply lookup_insert_eq.
Qed.

(** The cache after a call, whether it returned or raised. *)
Lemma get_cdp_cache_cases (chain_id : string) (s : State) :
  let s' := snd (get_cdp_wallet_provider_for_chain chain_id s) in
  session s' = session s /\ agentkit s' = agentkit s /\
  (wallet_providers_cache s' = wallet_providers_cache s \/
   wallet_providers_cache s !! chain_id = None /\
   exists p, wallet_providers_cache s' = <[chain_id := p]> (wallet_providers_cache s)).
Proof.
  destruct (get_cdp_wallet_provider_for_chain chain_id s) as [r s'] eqn:H.
  cbn [snd]. unfold get_cdp_wallet_provider_for_chain in H. unfold_run H.
  destruct (wallet_providers_cache s !! chain_id) as [p|] eqn:Hc.
  - inversion H; subst. auto.
  - repeat next_case H.
    all: inversion H; subst; clear H; cbn [wallet_providers_cache session agentkit].
    all: split; [reflexivity|]; split; [reflexivity|]; eauto.
Qed.

(** X14: [get_cdp_wallet_provider_for_chain] only ever adds the entry of the
    chain it is asked for: whether it returns or raises, the entries of the
    other chains, an entry already present for this chain, the session and
    [agentkit] are what they were. *)
Theorem get_cdp_only_adds_its_entry (chain_id k : string) (s : State) :
  let s' := snd (get_cdp_wallet_provider_for_chain chain_id s) in
  (k <> chain_id -> wallet_providers_cache s' !! k = wallet_providers_cache s !! k) /\
  (forall p, wallet_providers_cache s !! k = Some p ->
             wallet_providers_cache s' !! k = Some p) /\
  session s' = session s /\ agentkit s' = agentkit s.
Proof.
  intros s'. destruct (get_cdp_cache_cases chain_id s) as (Hs & Hk & Hc).
  fold s' in Hs, Hk, Hc. repeat split; try done.
  - intros Hne. destruct Hc as [->|(_ & p & ->)]; [done|]. by rewrite lookup_insert_ne.
  - intros p Hp. destruct Hc as [->|(Hnone & q & ->)]; [done|].
    destruct (decide (chain_id = k)) as [->|Hne]; [congruence|].
    by rewrite lookup_insert_ne.
Qed.

End CacheEdges.

(** ** What the cache can hold *)

Lemma dict_get_of_in {A} (k : string) (v : A) (d : list (string * A)) :
  In (k, v) d -> exists v', dict_get k d = Some v'.
Proof.
  induction d as [|[k' v'] d IH]; simpl; [done|].
  intros [Heq|Hin].
  - inversion Heq; subst. rewrite String.eqb_refl. eauto.
  - destruct (String.eqb k k'); eauto.
Qed.

Section CacheInvariant.
Context {B : Backend}.

(** A relation between states: cache keys stay inside the registry. *)
#[global] Instance cache_in_registry_frame :
  Frame (fun s s' => cache_in_registry s -> cache_in_registry s').
Proof. split; unfold cache_in_registry; simpl; auto. Qed.

Lemma get_cdp_keeps_cache_in_registry (chain_id : string) :
  supported chain_id = true ->
  preserves (fun s s' => cache_in_registry s -> cache_in_registry s')
            (get_cdp_wallet_provider_for_chain chain_id).
Proof.
  intros Hsup s Hinv k.
  destruct (get_cdp_cache_cases chain_id s) as (_ & _ & [->|(_ & p & ->)]); [apply Hinv|].
  destruct (decide (chain_id = k)) as [<-|Hne]; [done|].
  rewrite lookup_insert_ne by done. apply Hinv.
Qed.

Lemma switch_network_keeps_cache_in_registry (new_chain_id : string) :
  preserves (fun s s' => cache_in_registry s -> cache_in_registry s')
            (switch_network new_chain_id).
Proof.
  intros s Hinv k.
  destruct (decide (k = new_chain_id)) as [->|Hne].
  - intros Hsome. destruct (supported new_chain_id) eqn:Hsup; [done|].
    unfold switch_network in Hsome. rewrite Hsup in Hsome. cbn [negb] in Hsome.
    rewrite <- Hsup. exact (Hinv _ Hsome).
  - rewrite switch_network_cache_other by done. apply Hinv.
Qed.

Lemma verify_chains_loop_keeps_cache_in_registry items lines :
  (forall c info, In (c, info) items -> supported c = true) ->
  preserves (fun s s' => cache_in_registry s -> cache_in_registry s')
            (verify_chains_loop items lines).
Proof.
  revert lines. induction items as [|[c info] rest IH]; intros lines Hitems; simpl.
  - apply preserves_ret; exact _.
  - pose proof (get_cdp_keeps_cache_in_registry c (Hitems c info (or_introl eq_refl))).
    assert (forall l, preserves (fun s s' => cache_in_registry s -> cache_in_registry s')
                                (verify_chains_loop rest l)).
    { intros l. apply IH. intros c' i' Hin. apply (Hitems c' i'). by right. }
    repeat preserves_step.
Qed.

Lemma same_globals_cache_in_registry {A} (m : M A) :
  preserves same_globals m ->
  preserves (fun s s' => cache_in_registry s -> cache_in_registry s') m.
Proof.
  intros Hm s Hinv k. specialize (Hm s). unfold same_globals, globals in Hm.
  injection Hm as _ _ -> _. apply Hinv.
Qed.

Lemma run_tool_keeps_cache_in_registry r :
  preserves (fun s s' => cache_in_registry s -> cache_in_registry s') (run_tool r).
Proof.
  pose proof switch_network_keeps_cache_in_registry as Hsw.
  pose proof (fun p a n => same_globals_cache_in_registry _
                (preserves_crosschain_mint same_globals p a n)).
  pose proof (fun p a n => same_globals_cache_in_registry _
                (preserves_crosschain_burn same_globals p a n)).
  pose proof (fun p a => same_globals_cache_in_registry _
                (preserves_get_balance_of same_globals p a)).
  pose proof (fun p x => same_globals_cache_in_registry _
                (preserves_deposit_native_eth same_globals p x)).
  pose proof (fun p n => same_globals_cache_in_registry _
                (preserves_withdraw_tokens same_globals p n)).
  pose proof (same_globals_cache_in_registry _ (preserves_global_get_network same_globals)).
  pose proof (same_globals_cache_in_registry _ (preserves_get_chain_name same_globals)).
  assert (forall l, preserves (fun s s' => cache_in_registry s -> cache_in_registry s')
                              (verify_chains_loop SUPPORTED_CHAINS l)).
  { intros l. apply verify_chains_loop_keeps_cache_in_registry.
    intros c info Hin. apply supported_lookup. exact (dict_get_of_in _ _ _ Hin). }
  destruct r; simpl.
  - preserves_auto @parse_mint_args.
  - preserves_auto @parse_burn_args.
  - preserves_auto @parse_balance_of_args.
  - preserves_auto @parse_deposit_eth_args.
  - preserves_auto @parse_withdraw_args.
  - preserves_auto @parse_switch_network_args.
  - preserves_auto @parse_get_current_network.
  - unfold parse_verify_chains. preserves_auto @verify_all_chains.
Qed.

Lemma initialize_agent_keeps_cache_in_registry :
  preserves (fun s s' => cache_in_registry s -> cache_in_registry s') initialize_agent.
Proof.
  unfold initialize_agent. repeat preserves_step.
  all: apply preserves_modify; intros s H; exact H.
Qed.

Lemma reachable_cache_in_registry (s : State) : reachable s -> cache_in_registry s.
Proof.
  induction 1 as [w|s Hs IH|s r Hs IH|s w Hs IH].
  - intros k [p Hp]. cbn in Hp. by rewrite lookup_empty in Hp.
  - by apply initialize_agent_keeps_cache_in_registry.
  - by apply run_tool_keeps_cache_in_registry.
  - exact IH.
Qed.

(** X15: in every state of a run the keys of [wallet_providers_cache] are
    keys of [SUPPORTED_CHAINS]; the cache, which is never evicted, therefore
    never holds more than ten providers. *)
Theorem cache_keys_always_supported (s : State) :
  reachable s ->
  (forall k, is_Some (wallet_providers_cache s !! k) -> supported k = true) /\
  (size (wallet_providers_cache s) <= 10)%nat.
Proof.
  intros Hs%reachable_cache_in_registry. split; [exact Hs|].
  assert (Hsub : dom (wallet_providers_cache s) ⊆ list_to_set (C := gset string) chain_keys).
  { intros k Hk%elem_of_dom. apply elem_of_list_to_set, list_elem_of_In.
    by apply supported_in_keys, Hs. }
  apply subseteq_size in Hsub. rewrite size_dom in Hsub.
  assert (Hn : size (list_to_set (C := gset string) chain_keys) = 10%nat).
  { rewrite size_list_to_set; [reflexivity|].
    apply (bool_decide_unpack (NoDup chain_keys)). vm_compute. exact I. }
  lia.
Qed.

End CacheInvariant.

(** ** Checking all chains *)

Section VerifyChains.
Context {B : Backend}.

(** One turn of the loop: a line whatever happens; the session, [agentkit]
    and the entries already cached stay. *)
Lemma verify_chains_loop_returns (items : list (string * ChainInfo)) :
  forall (lines : list string) (s : State),
  exists new_lines s',
    verify_chains_loop items lines s = (Returned (lines ++ new_lines), s') /\
    Forall2 verify_line items new_lines /\
    session s' = session s /\ agentkit s' = agentkit s /\
    (forall k p, wallet_providers_cache s !! k = Some p ->
                 wallet_providers_cache s' !! k = Some p).
Proof.
  induction items as [|[c info] rest IH]; intros lines s.
  - exists [], s. simpl. unfold ret. rewrite app_nil_r. repeat split; auto.
  - cbn [verify_chains_loop]. unfold bind at 1.
    match goal with
    | |- context [match ?body s with _ => _ end] =>
        assert (Hbody : exists line s1,
                   body s = (Returned line, s1) /\ verify_line (c, info) line /\
                   session s1 = session s /\ agentkit s1 = agentkit s /\
                   forall k p, wallet_providers_cache s !! k = Some p ->
                               wallet_providers_cache s1 !! k = Some p)
    end.
    { pose proof (get_cdp_cache_cases c s) as Hcdp.
      unfold try_except, bind at 1.
      destruct (get_cdp_wallet_provider_for_chain c s) as [[e|p] s0] eqn:Hget;
        cbn [snd] in Hcdp; destruct Hcdp as (Hs0 & Hk0 & Hc0).
      - eexists _, _. split; [reflexivity|]. split; [eexists; right; reflexivity|].
        split; [done|]. split; [done|].
        intros k q Hq. destruct Hc0 as [->|(Hnone & q' & ->)]; [done|].
        destruct (decide (c = k)) as [->|Hne]; [congruence|]. by rewrite lookup_insert_ne.
      - assert (Hmono : forall k q, wallet_providers_cache s !! k = Some q ->
                                    wallet_providers_cache s0 !! k = Some q).
        { intros k q Hq. destruct Hc0 as [->|(Hnone & q' & ->)]; [done|].
          destruct (decide (c = k)) as [->|Hne]; [congruence|]. by rewrite lookup_insert_ne. }
        unfold bind, call, ret.
        destruct (prov_get_network p (world s0)) as [[e|net] w1];
          [eexists _, _; split; [reflexivity|]; split; [eexists; right; reflexivity|]; done|].
        cbn [world].
        destruct (prov_get_balance p w1) as [[e|bal] w2];
          eexists _, _; (split; [reflexivity|]);
          (split; [eexists; first [left; reflexivity | right; reflexivity]|]); done. }
    destruct Hbody as (line & s1 & -> & Hline & Hs1 & Hk1 & Hc1).
    destruct (IH (lines ++ [line]) s1) as (more & s' & -> & Hmore & Hs' & Hk' & Hc').
    exists (line :: more), s'. rewrite <- (assoc_L (++)). split; [reflexivity|].
    split; [by constructor|]. split; [congruence|]. split; [congruence|]. auto.
Qed.


(** A quiet step after a quiet step. *)
Lemma quiet_trans (s1 s2 s3 : State) : quiet s1 s2 -> quiet s2 s3 -> quiet s1 s3.
Proof.
  intros (Hg1 & t1 & Ht1 & Hn1 & Hw1) (Hg2 & t2 & Ht2 & Hn2 & Hw2).
  split; [congruence|]. exists (t1 ++ t2).
  rewrite Ht2, Ht1, <- (assoc_L (++)). split; [done|].
  unfold provider_constructions, persistence_writes in *.
  rewrite !filter_app, !length_app. lia.
Qed.

Lemma quiet_refl (s : State) : quiet s s.
Proof. split; [done|]. exists []. by rewrite app_nil_r. Qed.

Lemma verify_chains_loop_quiet (items : list (string * ChainInfo)) :
  forall (lines : list string) (s : State),
  (forall c info, In (c, info) items -> is_Some (wallet_providers_cache s !! c)) ->
  quiet s (snd (verify_chains_loop items lines s)).
Proof.
  induction items as [|[c info] rest IH]; intros lines s Hall.
  - apply quiet_refl.
  - destruct (Hall c info (or_introl eq_refl)) as [p Hp].
    cbn [verify_chains_loop]. unfold bind at 1, try_except, bind at 1.
    rewrite (get_cdp_hit c s p Hp).
    unfold bind, call, ret.
    destruct (prov_get_network p (world s)) as [[e|net] w1]; cbn [world].
    + match goal with
      | |- quiet ?a (snd (verify_chains_loop _ _ ?s1)) =>
          apply (quiet_trans a s1); [|apply IH]
      end.
      * split; [done|]. by exists [EvGetNetwork p].
      * intros c' i' Hin. apply (Hall c' i'). by right.
    + destruct (prov_get_balance p w1) as [[e|bal] w2].
      all: match goal with
           | |- quiet ?a (snd (verify_chains_loop _ _ ?s1)) =>
               apply (quiet_trans a s1); [|apply IH]
           end.
      all: try (intros c' i' Hin; apply (Hall c' i'); by right).
      all: split; [done|]; exists [EvGetNetwork p; EvGetBalance p];
        cbn [trace]; by rewrite <- (assoc_L (++)).
Qed.

(** X17: [verify_all_chains] goes through the cache: when every chain of
    the registry has a cached provider, it constructs no provider, does not
    write the snapshot file and leaves the four globals as they are; the
    providers it probes are the cached ones. *)
Theorem verify_all_chains_reuses_cache (s : State) :
  (forall c info, In (c, info) SUPPORTED_CHAINS ->
                  is_Some (wallet_providers_cache s !! c)) ->
  let s' := snd (verify_all_chains s) in
  globals s' = globals s /\
  provider_constructions (trace_since s s') = 0%nat /\
  persistence_writes (trace_since s s') = 0%nat.
Proof.
  intros Hall s'.
  assert (Hq : quiet s s').
  { unfold s'. destruct (verify_all_chains s) as [r s1] eqn:H. cbn [snd].
    unfold verify_all_chains, get_chain_name in H. unfold_run H.
    destruct (dict_get (current_chain_id s) SUPPORTED_CHAINS) as [info|];
      simp_run H; [|inversion H; apply quiet_refl].
    match type of H with
    | context [verify_chains_loop _ ?l s] =>
        pose proof (verify_chains_loop_quiet SUPPORTED_CHAINS l s Hall) as Hloop;
        destruct (verify_chains_loop SUPPORTED_CHAINS l s) as [[e|ls] s2]
    end; inversion H; subst; exact Hloop. }
  destruct Hq as (Hg & t & Ht & Hn & Hw). split; [done|].
  unfold trace_since. by rewrite Ht, drop_app_length.
Qed.

End VerifyChains.

(** ** Start-up *)

Section StartUp.
Context {B : Backend}.


End StartUp.

(** ** What reaches the chain *)

Section Submissions.
Context {B : Backend}.

Lemma invoke_transact_inv
    (provider : option Provider) (function_name : string) (args : option (list Arg))
    (value : Decimal) (s : State)
    (p : Provider) (addr fn : string) (l : list Arg) (v : Z) :
  In (EvTransact p addr fn l v)
     (trace_since s (snd (invoke_contract_function provider function_name args value s))) ->
  provider = Some p /\ fn = function_name /\ l = default [] args /\
  to_base_units value = Returned v /\
  exists info net w,
    dict_get (current_chain_id s) SUPPORTED_CHAINS = Some info /\
    addr = contract_address info /\
    prov_get_network p (world s) = (Returned net, w) /\
    net_chain_id net = current_chain_id s.
Proof.
  destruct (invoke_contract_function provider function_name args value s) as [r s'] eqn:H.
  cbn [snd]. unfold invoke_contract_function, get_contract_address, get_chain_name,
    get_explorer_url in H.
  unfold_run H. repeat next_case H.
  all: inversion H; subst; clear H; unfold trace_since; cbn [trace].
  all: rewrite <- ?(assoc_L (++)); rewrite ?drop_app_length, ?drop_all; simpl.
  all: intros Hin; repeat (destruct Hin as [Hev|Hin]; [try discriminate Hev|]); try done.
  all: inversion Hev; subst; clear Hev.
  all: match goal with
       | Hb : negb (_ =? _)%string = false |- _ =>
           apply negb_false_iff, String.eqb_eq in Hb
       end.
  all: repeat split; eauto 10.
Qed.

(** X19: a transaction is submitted only through a provider that has just
    reported the active chain: every [transact_contract] call made by
    [invoke_contract_function] is made on the provider it was given, after
    that provider's [get_network] answered [current_chain_id], with the
    function name and arguments it was given, the converted value, and the
    contract address of the registry entry of the active chain. *)
Theorem invoke_submits_only_on_active_chain
    (provider : option Provider) (function_name : string) (args : option (list Arg))
    (value : Decimal) (s : State)
    (p : Provider) (addr fn : string) (l : list Arg) (v : Z) :
  In (EvTransact p addr fn l v)
     (trace_since s (snd (invoke_contract_function provider function_name args value s))) ->
  provider = Some p /\ fn = function_name /\ l = default [] args /\
  to_base_units value = Returned v /\
  exists info net w,
    dict_get (current_chain_id s) SUPPORTED_CHAINS = Some info /\
    addr = contract_address info /\
    prov_get_network p (world s) = (Returned net, w) /\
    net_chain_id net = current_chain_id s.
Proof. apply invoke_transact_inv. Qed.

End Submissions.

(** ** The text front *)

Section TextFront.
Context {B : Backend} {U : Builtins}.

Lemma trace_since_self (s : State) : trace_since s s = [].
Proof. unfold trace_since. apply drop_all. Qed.

Ltac write_tool_state Hd :=
  match type of Hd with
  | invoke_contract_function _ _ _ _ ?s = (Returned ?d, ?s') =>
      unfold bind; rewrite Hd; destruct d as [err|h rc cid cname url];
      [unfold ret; eauto|];
      destruct (invoke_tx_inv _ _ _ _ _ _ _ _ _ _ _ Hd) as (info & Hinfo & _);
      rewrite (chain_name_after s s' info (invoke_keeps_session _ _ _ _ _ _ _ Hd) Hinfo);
      unfold ret; eauto
  end.

(** A write operation returns a string in the state its invocation leaves. *)
Lemma crosschain_mint_runs (provider : option Provider) (a : string) (n : Z) (s : State) :
  exists msg, crosschain_mint provider a n s
    = (Returned msg, snd (invoke_contract_function provider "crosschainMint"
                            (Some [AStr a; AInt n]) Decimal_0 s)).
Proof.
  destruct (invoke_returns provider "crosschainMint" (Some [AStr a; AInt n]) Decimal_0 s)
    as (d & s' & Hd).
  unfold crosschain_mint. write_tool_state Hd.
Qed.

Lemma crosschain_burn_runs (provider : option Provider) (a : string) (n : Z) (s : State) :
  exists msg, crosschain_burn provider a n s
    = (Returned msg, snd (invoke_contract_function provider "crosschainBurn"
                            (Some [AStr a; AInt n]) Decimal_0 s)).
Proof.
  destruct (invoke_returns provider "crosschainBurn" (Some [AStr a; AInt n]) Decimal_0 s)
    as (d & s' & Hd).
  unfold crosschain_burn. write_tool_state Hd.
Qed.

Lemma deposit_native_eth_runs (provider : option Provider) (x : PyFloat) (s : State) :
  exists msg, deposit_native_eth provider x s
    = (Returned msg, snd (invoke_contract_function provider "deposit" (Some [])
                            (float_decimal x) s)).
Proof.
  destruct (invoke_returns provider "deposit" (Some []) (float_decimal x) s)
    as (d & s' & Hd).
  unfold deposit_native_eth. write_tool_state Hd.
Qed.

Lemma withdraw_tokens_runs (provider : option Provider) (n : Z) (s : State) :
  exists msg, withdraw_tokens provider n s
    = (Returned msg, snd (invoke_contract_function provider "withdraw" (Some [AInt n])
                            Decimal_0 s)).
Proof.
  destruct (invoke_returns provider "withdraw" (Some [AInt n]) Decimal_0 s)
    as (d & s' & Hd).
  unfold withdraw_tokens. write_tool_state Hd.
Qed.

Lemma parse_balance_of_args_returns (addr : string) (s : State) :
  exists msg s', parse_balance_of_args addr s = (Returned msg, s').
Proof.
  unfold parse_balance_of_args. destruct (negb _); [unfold ret; eauto|].
  unfold try_except.
  match goal with
  | |- context [match ?body s with _ => _ end] => destruct (body s) as [[e|d] s1]
  end; unfold ret; eauto.
Qed.

(** X20: the mint tool on its input string.  An input that does not split
    into exactly two words, whose first word does not start with "0x", or
    whose second word [int] refuses, is answered with the error of the first
    check that fails, in that order, and nothing happens: the state is
    unchanged.  Every transaction the tool submits is a [crosschainMint] of
    the two words of the input, the second as [int] reads it, with value 0,
    through [wallet_provider]. *)
Theorem text_mint_checks_before_it_submits (input_str : string) (s : State) :
  (length (str_split (str_strip input_str)) <> 2%nat ->
   Text.parse_mint_args input_str s
   = (Returned "Error: Must provide 'TO_ADDRESS AMOUNT'", s)) /\
  (forall to_addr amt_str,
     str_split (str_strip input_str) = [to_addr; amt_str] ->
     String.prefix "0x" to_addr = false ->
     Text.parse_mint_args input_str s = (Returned "Error: address must start with 0x", s)) /\
  (forall to_addr amt_str,
     str_split (str_strip input_str) = [to_addr; amt_str] ->
     String.prefix "0x" to_addr = true -> py_int amt_str = None ->
     Text.parse_mint_args input_str s = (Returned "Error: amount must be integer", s)) /\
  (forall p addr fn l v,
     In (EvTransact p addr fn l v)
        (trace_since s (snd (Text.parse_mint_args input_str s))) ->
     exists to_addr amt_str amount,
       str_split (str_strip input_str) = [to_addr; amt_str] /\
       String.prefix "0x" to_addr = true /\ py_int amt_str = Some amount /\
       wallet_provider s = Some p /\
       fn = "crosschainMint" /\ l = [AStr to_addr; AInt amount] /\ v = 0).
Proof.
  unfold Text.parse_mint_args. cbv zeta.
  split; [|split; [|split]].
  - intros Hlen. by destruct (str_split _) as [|a [|b [|c l]]].
  - intros a b -> Hp. by rewrite Hp.
  - intros a b -> Hp Hi. by rewrite Hp, Hi.
  - intros p addr fn l v.
    destruct (str_split _) as [|a [|b [|c l']]];
      try (cbn [snd ret]; rewrite trace_since_self; intros []).
    destruct (String.prefix "0x" a) eqn:Hp; cbn [negb];
      [|cbn [snd ret]; rewrite trace_since_self; intros []].
    destruct (py_int b) as [n|] eqn:Hn;
      [|cbn [snd ret]; rewrite trace_since_self; intros []].
    unfold bind at 1, gets at 1.
    destruct (crosschain_mint_runs (wallet_provider s) a n s) as [msg ->]. cbn [snd].
    intros Hin. apply invoke_transact_inv in Hin as (Hwp & -> & -> & Hv & _).
    exists a, b, n. repeat split; try done.
    vm_compute in Hv. by inversion Hv.
Qed.

(** X21: the tools that submit or read never raise, whatever text the agent
    passes and in any state: [parse_mint_args], [parse_burn_args],
    [parse_deposit_eth_args], [parse_withdraw_args] and
    [parse_balance_of_args] always return a string. *)
Theorem text_tools_always_answer (input_str : string) (s : State) :
  (exists msg s', Text.parse_mint_args input_str s = (Returned msg, s')) /\
  (exists msg s', Text.parse_burn_args input_str s = (Returned msg, s')) /\
  (exists msg s', Text.parse_deposit_eth_args input_str s = (Returned msg, s')) /\
  (exists msg s', Text.parse_withdraw_args input_str s = (Returned msg, s')) /\
  (exists msg s', Text.parse_balance_of_args input_str s = (Returned msg, s')).
Proof.
  unfold Text.parse_mint_args, Text.parse_burn_args, Text.parse_deposit_eth_args,
    Text.parse_withdraw_args, Text.parse_balance_of_args. cbv zeta.
  repeat split.
  - destruct (str_split _) as [|a [|b [|c l]]]; try (unfold ret; eauto).
    destruct (negb _); [unfold ret; eauto|].
    destruct (py_int b) as [n|]; [|unfold ret; eauto].
    unfold bind at 1, gets at 1.
    destruct (crosschain_mint_runs (wallet_provider s) a n s) as [msg ->]. eauto.
  - destruct (str_split _) as [|a [|b [|c l]]]; try (unfold ret; eauto).
    destruct (negb _); [unfold ret; eauto|].
    destruct (py_int b) as [n|]; [|unfold ret; eauto].
    unfold bind at 1, gets at 1.
    destruct (crosschain_burn_runs (wallet_provider s) a n s) as [msg ->]. eauto.
  - destruct (py_float _) as [x|]; [|unfold ret; eauto].
    unfold bind at 1, gets at 1.
    destruct (deposit_native_eth_runs (wallet_provider s) x s) as [msg ->]. eauto.
  - destruct (py_int _) as [n|]; [|unfold ret; eauto].
    unfold bind at 1, gets at 1.
    destruct (withdraw_tokens_runs (wallet_provider s) n s) as [msg ->]. eauto.
  - apply parse_balance_of_args_returns.
Qed.

Lemma choose_mode_cons (line : string) (rest : list string) :
  Text.choose_mode (line :: rest)
  = match mode_of_line line with
    | Some mode => (Returned mode, rest)
    | None => Text.choose_mode rest
    end.
Proof.
  cbn [Text.choose_mode]. unfold mode_of_line.
  destruct (_ || _); [done|]. by destruct (_ || _).
Qed.

Lemma mode_of_line_cases (line mode : string) :
  mode_of_line line = Some mode -> mode = "chat" \/ mode = "auto".
Proof.
  unfold mode_of_line. destruct (_ || _); [intros [= <-]; by left|].
  destruct (_ || _); [intros [= <-]; by right|done].
Qed.

(** X22: [choose_mode] answers with the mode of the first line that selects
    one, after skipping every line before it, and leaves the lines after it
    unread; it returns nothing but "chat" or "auto"; and when no line
    selects a mode it reads them all and ends in the EOFError of [input]. *)
Theorem choose_mode_first_valid_line (inputs : list string) :
  (forall before line after mode,
     inputs = before ++ line :: after ->
     Forall (fun l => mode_of_line l = None) before ->
     mode_of_line line = Some mode ->
     Text.choose_mode inputs = (Returned mode, after)) /\
  (forall mode rest,
     Text.choose_mode inputs = (Returned mode, rest) ->
     (mode = "chat" \/ mode = "auto") /\
     exists before line,
       inputs = before ++ line :: rest /\
       Forall (fun l => mode_of_line l = None) before /\
       mode_of_line line = Some mode) /\
  (Forall (fun l => mode_of_line l = None) inputs ->
   Text.choose_mode inputs = (Raised (mkExc "EOFError" "EOF when reading a line"), [])).
Proof.
  split; [|split].
  - intros before line after mode -> Hskip Hmode.
    induction Hskip as [|l before Hl _ IH]; cbn [app]; rewrite choose_mode_cons.
    + by rewrite Hmode.
    + by rewrite Hl.
  - induction inputs as [|l inputs IH]; intros mode rest H; [done|].
    rewrite choose_mode_cons in H. destruct (mode_of_line l) as [m|] eqn:Hm.
    + inversion H; subst. split; [by eapply mode_of_line_cases|].
      exists [], l. by repeat split.
    + destruct (IH _ _ H) as (Hmode & before & line & -> & Hskip & Hline).
      split; [done|]. exists (l :: before), line. repeat split; [|done].
      by constructor.
  - induction 1 as [|l inputs Hl _ IH]; [done|].
    by rewrite choose_mode_cons, Hl.
Qed.

End TextFront.

(** ** Which tools assign globals *)

Section ToolFrame.
Context {B : Backend}.

Lemma verify_all_chains_keeps_session (s : State) :
  let s' := snd (verify_all_chains s) in
  session s' = session s /\ agentkit s' = agentkit s /\
  (forall k p, wallet_providers_cache s !! k = Some p ->
               wallet_providers_cache s' !! k = Some p).
Proof.
  destruct (verify_all_chains s) as [r s'] eqn:H. cbn [snd].
  unfold verify_all_chains, get_chain_name in H. unfold_run H.
  destruct (dict_get (current_chain_id s) SUPPORTED_CHAINS) as [info|];
    simp_run H; [|by inversion H].
  match type of H with
  | context [verify_chains_loop _ ?l s] =>
      destruct (verify_chains_loop_returns SUPPORTED_CHAINS l s)
        as (lines & s1 & Hrun & _ & Hrest)
  end.
  rewrite Hrun in H. by inversion H; subst.
Qed.

(** X24: of the eight tools only the switch to a chain id and the check of
    all chains assign a global.  The four write tools, the balance tool, the
    current-network tool and the listing of the switch tool leave
    [wallet_provider], [current_chain_id], [wallet_providers_cache] and
    [agentkit] as they were, whether they return or raise; the check of all
    chains keeps the session and [agentkit] and only adds cache entries. *)
Theorem only_switch_and_verify_assign_globals (r : Request) (s : State) :
  let s' := snd (run_tool r s) in
  match r with
  | ReqSwitchNetwork chain_id => chain_id = "" -> globals s' = globals s
  | ReqVerifyChains =>
      session s' = session s /\ agentkit s' = agentkit s /\
      (forall k p, wallet_providers_cache s !! k = Some p ->
                   wallet_providers_cache s' !! k = Some p)
  | _ => globals s' = globals s
  end.
Proof.
  pose proof (preserves_crosschain_mint same_globals).
  pose proof (preserves_crosschain_burn same_globals).
  pose proof (preserves_get_balance_of same_globals).
  pose proof (preserves_deposit_native_eth same_globals).
  pose proof (preserves_withdraw_tokens same_globals).
  pose proof (preserves_global_get_network same_globals).
  pose proof (preserves_get_chain_name same_globals).
  cbv zeta. destruct r; cbn [run_tool].
  - assert (Hp : preserves same_globals (parse_mint_args to_addr amount))
      by preserves_auto @parse_mint_args.
    apply Hp.
  - assert (Hp : preserves same_globals (parse_burn_args from_addr amount))
      by preserves_auto @parse_burn_args.
    apply Hp.
  - assert (Hp : preserves same_globals (parse_balance_of_args addr))
      by preserves_auto @parse_balance_of_args.
    apply Hp.
  - assert (Hp : preserves same_globals (parse_deposit_eth_args amt))
      by preserves_auto @parse_deposit_eth_args.
    apply Hp.
  - assert (Hp : preserves same_globals (parse_withdraw_args amount))
      by preserves_auto @parse_withdraw_args.
    apply Hp.
  - intros ->.
    assert (Hp : preserves same_globals (parse_switch_network_args ""))
      by (unfold parse_switch_network_args; cbn [String.eqb]; repeat preserves_step).
    apply Hp.
  - assert (Hp : preserves same_globals parse_get_current_network)
      by preserves_auto @parse_get_current_network.
    apply Hp.
  - apply verify_all_chains_keeps_session.
Qed.

End ToolFrame.

(** ** Concrete runs of the further properties *)

Lemma read_path_never_raises_witness :
  let s := started read_reverts 0%nat in
  exists s', read_contract (wallet_provider s) "balanceOf" (Some [AStr "0x1234"]) s
             = (Returned (RError "call reverted"), s').
Proof.
  intros s.
  apply (proj1 (proj2 (read_path_never_raises (B := read_reverts) (wallet_provider s)
                         "balanceOf" "0x1234" (Some [AStr "0x1234"]) s))
           (0%nat, "84532") (mkNetwork "84532" None) (world s)
           (mkChain "Base Sepolia" "0xEBE8Ca83dfFeaa2288a70B4f1e29EcD089d325E2"
                    "https://sepolia.basescan.org")
           (mkExc "ContractLogicError" "call reverted") (world s));
    reflexivity.
Defined.

Lemma deposit_below_one_wei_submits_zero_witness :
  let s := started healthy_backend 0%nat in
  let p : @Provider healthy_backend := (0%nat, "84532") in
  exists r s' rest,
    deposit_native_eth (Some p) (mkFloat "1e-19" (DFin false 1 (-19))) s = (r, s') /\
    trace s' = trace s ++ [EvGetNetwork p;
                           EvTransact p "0xEBE8Ca83dfFeaa2288a70B4f1e29EcD089d325E2"
                                      "deposit" [] 0] ++ rest.
Proof.
  intros s p.
  apply (deposit_below_one_wei_submits_zero (B := healthy_backend) p
           (mkFloat "1e-19" (DFin false 1 (-19))) s (mkNetwork "84532" None) (world s)
           (mkChain "Base Sepolia" "0xEBE8Ca83dfFeaa2288a70B4f1e29EcD089d325E2"
                    "https://sepolia.basescan.org")).
  - reflexivity.
  - reflexivity.
  - reflexivity.
  - right. exists 1%N, (-19).
    repeat split; vm_compute; first [reflexivity | discriminate].
Defined.

Lemma invoke_rejects_unconvertible_witness :
  let s := started healthy_backend 0%nat in
  let p : @Provider healthy_backend := (0%nat, "84532") in
  invoke_contract_function (Some p) "deposit" (Some []) (DNaN false) s =
    (Returned (IError "[<class 'decimal.InvalidOperation'>]"),
     mkState (wallet_provider s) (current_chain_id s) (wallet_providers_cache s)
             (agentkit s) (world s) (trace s ++ [EvGetNetwork p])).
Proof.
  intros s p.
  apply (proj1 (invoke_rejects_unconvertible (B := healthy_backend) p "deposit" (Some [])
                  (DNaN false) s (mkNetwork "84532" None) (world s)
                  (mkChain "Base Sepolia" "0xEBE8Ca83dfFeaa2288a70B4f1e29EcD089d325E2"
                           "https://sepolia.basescan.org")
                  InvalidOperation eq_refl eq_refl eq_refl eq_refl eq_refl)).
Defined.

Lemma to_base_units_nonnegative_witness :
  to_base_units (DFin false 1 (-2)) = Returned (10 ^ 16) /\ 0 <= 10 ^ 16.
Proof.
  split; [reflexivity|].
  apply (to_base_units_nonnegative (DFin false 1 (-2)) (10 ^ 16)). reflexivity.
Defined.

Lemma tools_without_provider_witness :
  let s := initial_state (B := healthy_backend) 0%nat in
  let no_network := "Error: 'NoneType' object has no attribute 'get_network'" in
  parse_mint_args "0x1234" 50 s = (Returned no_network, s) /\
  parse_burn_args "0x1234" 50 s = (Returned no_network, s) /\
  parse_deposit_eth_args (mkFloat "0.01" (DFin false 1 (-2))) s = (Returned no_network, s) /\
  parse_withdraw_args 50 s = (Returned no_network, s) /\
  parse_balance_of_args "0x1234" s =
    (Returned "Error reading balance: 'NoneType' object has no attribute 'get_balance'", s) /\
  parse_get_current_network s = (Raised (none_has_no "get_network"), s) /\
  parse_switch_network_args "" s = (Raised (none_has_no "get_network"), s).
Proof.
  intros s.
  apply (tools_without_provider (B := healthy_backend) s "0x1234" 50
           (mkFloat "0.01" (DFin false 1 (-2)))); reflexivity.
Defined.

Lemma balance_of_reads_native_balance_unchecked_witness :
  let s := started sepolia_only 0%nat in
  current_chain_id s = "84532" /\
  fst (parse_balance_of_args "0x1234" s)
  = Returned ("My wallet native balance on Base Sepolia: 0 wei" +:+ nl
              +:+ "Error: Chain mismatch: provider on chain 11155111, global chain is 84532").
Proof.
  intros s. split; [reflexivity|].
  rewrite (balance_of_reads_native_balance_unchecked (B := sepolia_only) s
             (0%nat, "11155111") "0x1234" 0 (world s) (mkNetwork "11155111" None) (world s)
             (mkChain "Base Sepolia" "0xEBE8Ca83dfFeaa2288a70B4f1e29EcD089d325E2"
                      "https://sepolia.basescan.org"));
    [vm_compute; reflexivity | reflexivity .. | vm_compute; discriminate].
Defined.

Lemma switch_network_success_witness :
  let s := started healthy_backend 0%nat in
  let s' := snd (switch_network "11155420" s) in
  exists p k info,
    dict_get "11155420" SUPPORTED_CHAINS = Some info /\
    "Switched to Optimism Sepolia (Chain ID: 11155420)"
      = "Switched to " +:+ name info +:+ " (Chain ID: " +:+ "11155420" +:+ ")" /\
    session s' = ("11155420", Some p) /\
    wallet_providers_cache s' = <["11155420" := p]> (wallet_providers_cache s) /\
    agentkit s' = Some k /\
    provider_constructions (trace_since s s') = 1%nat /\
    persistence_writes (trace_since s s') = 1%nat /\
    exists t w1 net w2 balance w3 w4 net',
      builds_and_persists "11155420" (world s) p w1 t /\
      prov_get_network p w1 = (Returned net, w2) /\
      net_chain_id net = "11155420" /\
      prov_get_balance p w2 = (Returned balance, w3) /\
      new_agentkit p w3 = (Returned k, w4) /\
      prov_get_network p w4 = (Returned net', world s') /\
      trace_since s s' = t ++ [EvGetNetwork p; EvGetBalance p; EvNewAgentKit p;
                               EvGetNetwork p].
Proof.
  intros s s'.
  apply (switch_network_success (B := healthy_backend) "11155420" s s'
           "Switched to Optimism Sepolia (Chain ID: 11155420)");
    vm_compute; reflexivity.
Defined.

Lemma switch_network_rejected_provider_stays_cached_witness :
  let s := started polygon_rpc_down 0%nat in
  let s' := snd (switch_network "137" s) in
  exists p,
    wallet_providers_cache s' = <["137" := p]> (wallet_providers_cache s) /\
    session s' = session s /\
    agentkit s' = agentkit s /\
    get_cdp_wallet_provider_for_chain "137" s' = (Returned p, s').
Proof.
  intros s s'.
  apply (switch_network_rejected_provider_stays_cached (B := polygon_rpc_down) "137" s s'
           "Error connecting to Polygon: rpc unreachable").
  - vm_compute. reflexivity.
  - right. vm_compute. reflexivity.
Defined.

Lemma switch_network_cache_frame_witness :
  let s := snd (switch_network "137" (started healthy_backend 0%nat)) in
  wallet_providers_cache s !! "137" = Some (2%nat, "137") /\
  wallet_providers_cache (snd (switch_network "11155420" s)) !! "137"
    = wallet_providers_cache s !! "137" /\
  wallet_providers_cache (snd (switch_network "99999" s)) = wallet_providers_cache s.
Proof.
  intros s. split; [vm_compute; reflexivity|]. split.
  - apply (proj1 (switch_network_cache_frame (B := healthy_backend) "11155420" "137" s)).
    discriminate.
  - apply (proj2 (switch_network_cache_frame (B := healthy_backend) "99999" "137" s)).
    left. reflexivity.
Defined.

Lemma switch_network_commits_both_or_neither_witness :
  let s := started polygon_kit_down 0%nat in
  let s' := snd (switch_network "137" s) in
  (session s' = session s /\ agentkit s' = agentkit s) \/
  exists p,
    session s' = ("137", Some p) /\
    wallet_providers_cache s' !! "137" = Some p /\
    (String.prefix "Switched to "
       "Error switching to chain 137: action provider unavailable" = true \/
     String.prefix "Error switching to chain "
       "Error switching to chain 137: action provider unavailable" = true).
Proof.
  intros s s'.
  apply (switch_network_commits_both_or_neither (B := polygon_kit_down) "137" s s'
           "Error switching to chain 137: action provider unavailable").
  vm_compute. reflexivity.
Defined.

Lemma get_cdp_caches_before_persisting_witness :
  let s := initial_state (B := export_down) 0%nat in
  let p : @Provider export_down := (0%nat, "137") in
  exists s',
    get_cdp_wallet_provider_for_chain "137" s
      = (Raised (mkExc "ApiError" "export refused"), s') /\
    wallet_providers_cache s' = <["137" := p]> (wallet_providers_cache s) /\
    persistence_writes (trace_since s s') = 0%nat /\
    ~ In EvFileOpenW (trace_since s s') /\
    get_cdp_wallet_provider_for_chain "137" s' = (Returned p, s').
Proof.
  intros s p.
  apply (get_cdp_caches_before_persisting (B := export_down) "137" s false
           0%nat 0%nat 1%nat 1%nat 1%nat None p (mkNetwork "137" None)
           (mkExc "ApiError" "export refused")).
  - reflexivity.
  - reflexivity.
  - split; reflexivity.
  - reflexivity.
  - reflexivity.
  - reflexivity.
Defined.

Lemma get_cdp_only_adds_its_entry_witness :
  let s := snd (get_cdp_wallet_provider_for_chain "84532"
                  (initial_state (B := healthy_backend) 0%nat)) in
  let s' := snd (get_cdp_wallet_provider_for_chain "137" s) in
  wallet_providers_cache s !! "84532" = Some (0%nat, "84532") /\
  wallet_providers_cache s' !! "84532" = wallet_providers_cache s !! "84532" /\
  wallet_providers_cache s' !! "84532" = Some (0%nat, "84532").
Proof.
  intros s s'.
  assert (Hp : wallet_providers_cache s !! "84532" = Some (0%nat, "84532"))
    by (vm_compute; reflexivity).
  pose proof (get_cdp_only_adds_its_entry (B := healthy_backend) "137" "84532" s) as H.
  cbv zeta in H. destruct H as (Hother & Hkept & _).
  split; [exact Hp|]. split.
  - apply Hother. discriminate.
  - apply Hkept. exact Hp.
Defined.

Lemma cache_keys_always_supported_witness :
  let s := snd (run_tool (ReqSwitchNetwork "137") (started healthy_backend 0%nat)) in
  reachable s /\
  wallet_providers_cache s !! "137" = Some (2%nat, "137") /\
  (forall k, is_Some (wallet_providers_cache s !! k) -> supported k = true) /\
  (size (wallet_providers_cache s) <= 10)%nat.
Proof.
  intros s.
  assert (Hs : reachable s) by apply reach_tool, reach_initialize, reach_import.
  split; [exact Hs|]. split; [vm_compute; reflexivity|].
  apply (cache_keys_always_supported (B := healthy_backend) s Hs).
Defined.


Lemma verify_all_chains_reuses_cache_witness :
  let s := snd (verify_all_chains (started healthy_backend 0%nat)) in
  let s' := snd (verify_all_chains s) in
  (forall c info, In (c, info) SUPPORTED_CHAINS ->
                  is_Some (wallet_providers_cache s !! c)) /\
  globals s' = globals s /\
  provider_constructions (trace_since s s') = 0%nat /\
  persistence_writes (trace_since s s') = 0%nat.
Proof.
  intros s s'.
  assert (Hall : forall c info, In (c, info) SUPPORTED_CHAINS ->
                                is_Some (wallet_providers_cache s !! c)).
  { intros c info Hin.
    repeat (destruct Hin as [Heq|Hin];
            [inversion Heq; subst; vm_compute; eexists; reflexivity|]).
    destruct Hin. }
  split; [exact Hall|].
  apply (verify_all_chains_reuses_cache (B := healthy_backend) s Hall).
Defined.


Lemma invoke_submits_only_on_active_chain_witness :
  let s := started healthy_backend 0%nat in
  let p : @Provider healthy_backend := (0%nat, "84532") in
  let address := "0xEBE8Ca83dfFeaa2288a70B4f1e29EcD089d325E2" in
  In (EvTransact p address "withdraw" [AInt 100] 0)
     (trace_since s (snd (invoke_contract_function (Some p) "withdraw" (Some [AInt 100])
                            Decimal_0 s))) /\
  exists info net w,
    dict_get (current_chain_id s) SUPPORTED_CHAINS = Some info /\
    address = contract_address info /\
    prov_get_network p (world s) = (Returned net, w) /\
    net_chain_id net = current_chain_id s.
Proof.
  intros s p address.
  assert (Hin : In (EvTransact p address "withdraw" [AInt 100] 0)
                   (trace_since s (snd (invoke_contract_function (Some p) "withdraw"
                                          (Some [AInt 100]) Decimal_0 s))))
    by (vm_compute; right; left; reflexivity).
  split; [exact Hin|].
  exact (proj2 (proj2 (proj2 (proj2
           (invoke_submits_only_on_active_chain (B := healthy_backend)
              _ _ _ _ _ _ _ _ _ _ Hin))))).
Defined.

Lemma text_mint_checks_before_it_submits_witness :
  let s := started healthy_backend 0%nat in
  let p : @Provider healthy_backend := (0%nat, "84532") in
  Text.parse_mint_args (U := plain_builtins) "0x1234" s
    = (Returned "Error: Must provide 'TO_ADDRESS AMOUNT'", s) /\
  Text.parse_mint_args (U := plain_builtins) "1234 50" s
    = (Returned "Error: address must start with 0x", s) /\
  Text.parse_mint_args (U := plain_builtins) "0x1234 five" s
    = (Returned "Error: amount must be integer", s) /\
  In (EvTransact p "0xEBE8Ca83dfFeaa2288a70B4f1e29EcD089d325E2" "crosschainMint"
                 [AStr "0x1234"; AInt 50] 0)
     (trace_since s (snd (Text.parse_mint_args (U := plain_builtins) "0x1234 50" s))) /\
  exists to_addr amt_str amount,
    str_split (Builtins := plain_builtins)
      (str_strip (Builtins := plain_builtins) "0x1234 50") = [to_addr; amt_str] /\
    String.prefix "0x" to_addr = true /\
    py_int (Builtins := plain_builtins) amt_str = Some amount /\
    wallet_provider s = Some p /\
    "crosschainMint" = "crosschainMint" /\
    [AStr "0x1234"; AInt 50] = [AStr to_addr; AInt amount] /\ 0 = 0.
Proof.
  intros s p.
  split; [|split; [|split; [|split]]].
  - apply (proj1 (text_mint_checks_before_it_submits (B := healthy_backend)
                    (U := plain_builtins) "0x1234" s)).
    vm_compute. discriminate.
  - apply (proj1 (proj2 (text_mint_checks_before_it_submits (B := healthy_backend)
                           (U := plain_builtins) "1234 50" s)) "1234" "50");
      reflexivity.
  - apply (proj1 (proj2 (proj2 (text_mint_checks_before_it_submits (B := healthy_backend)
                                  (U := plain_builtins) "0x1234 five" s)))
             "0x1234" "five"); reflexivity.
  - vm_compute. right. left. reflexivity.
  - apply (proj2 (proj2 (proj2 (text_mint_checks_before_it_submits (B := healthy_backend)
                                  (U := plain_builtins) "0x1234 50" s)))
             p "0xEBE8Ca83dfFeaa2288a70B4f1e29EcD089d325E2").
    vm_compute. right. left. reflexivity.
Defined.

Lemma choose_mode_first_valid_line_witness :
  Text.choose_mode (U := plain_builtins) ["3"; "auto"; "chat"] = (Returned "auto", ["chat"]) /\
  Text.choose_mode (U := plain_builtins) ["3"; "yes"]
    = (Raised (mkExc "EOFError" "EOF when reading a line"), []).
Proof.
  split.
  - apply (proj1 (choose_mode_first_valid_line (U := plain_builtins) ["3"; "auto"; "chat"])
             ["3"] "auto" ["chat"] "auto").
    + reflexivity.
    + repeat constructor.
    + reflexivity.
  - apply (proj2 (proj2 (choose_mode_first_valid_line (U := plain_builtins) ["3"; "yes"]))).
    repeat constructor.
Defined.

Lemma only_switch_and_verify_assign_globals_witness :
  let s := started healthy_backend 0%nat in
  globals (snd (run_tool (ReqSwitchNetwork "") s)) = globals s.
Proof.
  intros s.
  exact (only_switch_and_verify_assign_globals (B := healthy_backend)
           (ReqSwitchNetwork "") s eq_refl).
Defined.

Lemma invocation_rejects_unprintable_args_witness :
  let s := started healthy_backend 0%nat in
  let p : @Provider healthy_backend := (0%nat, "84532") in
  let s' := mkState (wallet_provider s) (current_chain_id s) (wallet_providers_cache s)
                    (agentkit s) (world s) (trace s ++ [EvGetNetwork p]) in
  invoke_contract_function (Some p) "withdraw" (Some [AInt (10 ^ 4300)]) Decimal_0 s
    = (Returned (IError (exc_str int_str_exceeds)), s') /\
  read_contract (Some p) "balanceOf" (Some [AInt (10 ^ 4300)]) s
    = (Returned (RError (exc_str int_str_exceeds)), s').
Proof.
  intros s p s'.
  destruct (invocation_rejects_unprintable_args (B := healthy_backend) p "withdraw"
              (Some [AInt (10 ^ 4300)]) Decimal_0 s (mkNetwork "84532" None) (world s)
              (mkChain "Base Sepolia" "0xEBE8Ca83dfFeaa2288a70B4f1e29EcD089d325E2"
                       "https://sepolia.basescan.org")
              int_str_exceeds eq_refl eq_refl eq_refl (format_args_long_int []))
    as (Hinvoke & _).
  destruct (invocation_rejects_unprintable_args (B := healthy_backend) p "balanceOf"
              (Some [AInt (10 ^ 4300)]) Decimal_0 s (mkNetwork "84532" None) (world s)
              (mkChain "Base Sepolia" "0xEBE8Ca83dfFeaa2288a70B4f1e29EcD089d325E2"
                       "https://sepolia.basescan.org")
              int_str_exceeds eq_refl eq_refl eq_refl (format_args_long_int []))
    as (_ & Hread & _).
  split; [exact Hinvoke | exact Hread].
Defined.
